(** * Error detectors of MISP_SQL (src/MISP_SQL/error_detector.py)

A shallow embedding of the four error detectors
([ErrorDetectorSim], [ErrorDetectorProbability],
[ErrorDetectorBayesDropout], [ErrorDetectorFNN]) and the properties of
their [detection] method.

Python floats are IEEE-754 binary64 numbers: they are modelled by Rocq's
primitive floats.  Python ints are modelled by [Z].  A raised exception
is a value of [exn]; a method returns a [result]. *)

From Stdlib Require Import Floats ZArith Sorted.
From stdpp Require Import gmap strings list sorting.

Set Warnings "-register-all,-inexact-float".
Local Open Scope Z_scope.

(** ** Exceptions and results *)

Inductive exn :=
| KeyError (key : string)
| IndexError
| TypeError
| NotImplementedError
| Raised (msg : string).

Inductive result (A : Type) :=
| Ok (a : A)
| Err (e : exn).
Arguments Ok {A} a.
Arguments Err {A} e.

Global Instance result_ret : MRet result := fun A a => Ok a.
Global Instance result_bind : MBind result := fun A B k r =>
  match r with
  | Ok a => k a
  | Err e => Err e
  end.

(** ** Python sequences and dictionaries *)

(** [seq[i]] on a Python list or tuple: a negative index counts from the
    end, an index out of range raises [IndexError]. *)
Definition py_getitem {A} (seq : list A) (i : Z) : result A :=
  let n := Z.of_nat (length seq) in
  let j := if i <? 0 then n + i else i in
  if (0 <=? j) && (j <? n) then
    match seq !! Z.to_nat j with
    | Some a => Ok a
    | None => Err IndexError
    end
  else Err IndexError.

(** [obj[i]] where [obj] may be [None] (the default of a keyword argument):
    subscripting [None] raises [TypeError]. *)
Definition py_getitem_opt {A} (obj : option (list A)) (i : Z) : result A :=
  match obj with
  | None => Err TypeError
  | Some seq => py_getitem seq i
  end.

(** [d[k]] on a dict: a missing key raises [KeyError]. *)
Definition dict_getitem {V} (d : gmap string V) (k : string) : result V :=
  match d !! k with
  | Some v => Ok v
  | None => Err (KeyError k)
  end.

(** ** The [for] loop with [continue] and [return]

A loop body either goes on with the next element (with the updated
local state) or leaves the enclosing function with a value. *)

Inductive flow (S R : Type) :=
| Continue (s : S)
| Return (r : R).
Arguments Continue {S R} s.
Arguments Return {S R} r.

Fixpoint for_in {A S R} (xs : list A) (body : A -> S -> result (flow S R))
    (s : S) : result (flow S R) :=
  match xs with
  | [] => Ok (Continue s)
  | x :: xs' =>
      match body x s with
      | Err e => Err e
      | Ok (Return r) => Ok (Return r)
      | Ok (Continue s') => for_in xs' body s'
      end
  end.

(** The value a function returns: the one of a [return] inside the loop,
    or the one of the [return] statement after the loop. *)
Definition returned {S R} (after : S -> R) (f : flow S R) : R :=
  match f with
  | Continue s => after s
  | Return r => r
  end.

(** ** Data model *)

(** The context a tag item carries between its tag and its probability
    (a column, an operator, a keyword, ...). *)
Inductive field :=
| FStr (s : string)
| FInt (n : Z)
| FNone
| FTuple (fs : list field).

(** A tag item of the decision sequence, the tuple
    [(tag, ..., prob, dec_idx)]: [su[0]] is the tag name and [su[-2]] the
    confidence field.  The type [P] of the confidence field is the shape
    the chosen detector expects: a float, or a list of floats (the samples
    of the dropout passes). A semantic unit is a tag item. *)
Record semantic_unit (P : Type) := SemanticUnit {
  su_tag : string;
  su_context : list field;
  su_prob : P;
  su_dec_idx : option Z
}.
Arguments SemanticUnit {P} _ _ _ _.
Arguments su_tag {P} _.
Arguments su_context {P} _.
Arguments su_prob {P} _.
Arguments su_dec_idx {P} _.

Abbreviation tag_seq_t P := (list (semantic_unit P)).

(** What [detection] returns: pairs of an erroneous unit and its pointer. *)
Abbreviation pairs_t P := (list (semantic_unit P * Z)).

(** The segmentation collaborator [semantic_unit_segment] of
    MISP_SQL/utils.py, which is not among the sources: it is a parameter of
    every detector.  It returns the semantic units and their pointers, and
    like any call it may raise. *)
Definition segmenter (P : Type) :=
  tag_seq_t P -> result (list (semantic_unit P) * list Z).

(** [len(tag_seq)] *)
Definition len {A} (l : list A) : Z := Z.of_nat (length l).

(** ** The detectors *)

Module ErrorDetector.
Definition detection {P} (tag_seq : tag_seq_t P) (start_pos : Z)
    (bool_return_first : bool) : result (pairs_t P) :=
  Err NotImplementedError.
End ErrorDetector.

Module ErrorDetectorSim.
Section Sim.
Context {P : Type} (semantic_unit_segment : segmenter P).

Definition body (start_pos : Z) (bool_return_first : bool)
    (eval_tf : option (list bool))
    (item : semantic_unit P * Z) (err_su_pointer_pairs : pairs_t P)
    : result (flow (pairs_t P) (pairs_t P)) :=
  let '(semantic_unit, pointer) := item in
  if pointer <? start_pos then Ok (Continue err_su_pointer_pairs)
  else
    bool_correct ← py_getitem_opt eval_tf pointer;
    if negb bool_correct then
      let err_su_pointer_pairs :=
        err_su_pointer_pairs ++ [(semantic_unit, pointer)] in
      if bool_return_first then Ok (Return err_su_pointer_pairs)
      else Ok (Continue err_su_pointer_pairs)
    else Ok (Continue err_su_pointer_pairs).

Definition detection (tag_seq : tag_seq_t P) (start_pos : Z)
    (bool_return_first : bool) (eval_tf : option (list bool))
    : result (pairs_t P) :=
  if len tag_seq <=? start_pos then Ok []
  else
    '(semantic_units, pointers) ← semantic_unit_segment tag_seq;
    out ← for_in (zip semantic_units pointers)
             (body start_pos bool_return_first eval_tf) [];
    Ok (returned (fun err_su_pointer_pairs => err_su_pointer_pairs) out).
End Sim.
End ErrorDetectorSim.

Module ErrorDetectorProbability.
Record t := { prob_threshold : float }.

Definition init (threshold : float) : t :=
  {| prob_threshold := threshold |}.

Section Probability.
Context (semantic_unit_segment : segmenter float).

Definition body (self : t) (start_pos : Z) (bool_return_first : bool)
    (item : semantic_unit float * Z) (err_su_pointer_pairs : pairs_t float)
    : result (flow (pairs_t float) (pairs_t float)) :=
  let '(semantic_unit, pointer) := item in
  if pointer <? start_pos then Ok (Continue err_su_pointer_pairs)
  else
    let prob := su_prob semantic_unit in
    if PrimFloat.ltb prob (prob_threshold self) then
      let err_su_pointer_pairs :=
        err_su_pointer_pairs ++ [(semantic_unit, pointer)] in
      if bool_return_first then Ok (Return err_su_pointer_pairs)
      else Ok (Continue err_su_pointer_pairs)
    else Ok (Continue err_su_pointer_pairs).

Definition detection (self : t) (tag_seq : tag_seq_t float) (start_pos : Z)
    (bool_return_first : bool) : result (pairs_t float) :=
  if len tag_seq <=? start_pos then Ok []
  else
    '(semantic_units, pointers) ← semantic_unit_segment tag_seq;
    out ← for_in (zip semantic_units pointers)
             (body self start_pos bool_return_first) [];
    Ok (returned (fun err_su_pointer_pairs => err_su_pointer_pairs) out).
End Probability.
End ErrorDetectorProbability.

Module ErrorDetectorBayesDropout.
Record t := { stddev_threshold : float }.

Definition init (threshold : float) : t :=
  {| stddev_threshold := threshold |}.

Section BayesDropout.
(** [np_std] is numpy's [np.std] on the list of samples. *)
Context (np_std : list float -> float)
        (semantic_unit_segment : segmenter (list float)).

Definition body (self : t) (start_pos : Z) (bool_return_first : bool)
    (item : semantic_unit (list float) * Z)
    (err_su_pointer_pairs : pairs_t (list float))
    : result (flow (pairs_t (list float)) (pairs_t (list float))) :=
  let '(semantic_unit, pointer) := item in
  if pointer <? start_pos then Ok (Continue err_su_pointer_pairs)
  else
    let stddev := np_std (su_prob semantic_unit) in
    if PrimFloat.ltb (stddev_threshold self) stddev then
      let err_su_pointer_pairs :=
        err_su_pointer_pairs ++ [(semantic_unit, pointer)] in
      if bool_return_first then Ok (Return err_su_pointer_pairs)
      else Ok (Continue err_su_pointer_pairs)
    else Ok (Continue err_su_pointer_pairs).

Definition detection (self : t) (tag_seq : tag_seq_t (list float))
    (start_pos : Z) (bool_return_first : bool)
    : result (pairs_t (list float)) :=
  if len tag_seq <=? start_pos then Ok []
  else
    '(semantic_units, pointers) ← semantic_unit_segment tag_seq;
    out ← for_in (zip semantic_units pointers)
             (body self start_pos bool_return_first) [];
    Ok (returned (fun err_su_pointer_pairs => err_su_pointer_pairs) out).
End BayesDropout.
End ErrorDetectorBayesDropout.

(** ** numpy row vectors *)

(** [np.zeros((1, n))], as its single row. *)
Definition np_zeros (n : Z) : list float := replicate (Z.to_nat n) 0%float.

(** [x[0, i] = v]: a negative column counts from the end, a column out of
    range raises [IndexError]. *)
Definition np_setitem (x : list float) (i : Z) (v : float)
    : result (list float) :=
  let n := len x in
  let j := if i <? 0 then n + i else i in
  if (0 <=? j) && (j <? n) then Ok (<[Z.to_nat j := v]> x)
  else Err IndexError.

Module ErrorDetectorFNN.
(** [model] is the classifier as [detection] uses it: the row [x] is
    turned into a tensor, the network is applied and [.item()] reads the
    scalar it returns. *)
Record t := {
  indexer : gmap string Z;
  model : list float -> float;
  input_size : Z
}.

(** [mi.get_indexer()] and [mi.get_model()] are the two arguments. *)
Definition init (mi_indexer : gmap string Z)
    (mi_model : list float -> float) : t :=
  {| indexer := mi_indexer;
     model := mi_model;
     input_size := Z.of_nat (size mi_indexer) + 1 |}.

Section FNN.
Context (semantic_unit_segment : segmenter float).

(** Lines 143-150: the input of the model for one semantic unit. *)
Definition make_input (self : t) (tag_name : string) (prob : float)
    : result (list float) :=
  let x := np_zeros (input_size self) in
  col_idx ← dict_getitem (indexer self) tag_name;
  x ← np_setitem x (-1) prob;
  x ← np_setitem x col_idx 1%float;
  Ok x.

Definition body (self : t) (start_pos : Z) (bool_return_first : bool)
    (item : semantic_unit float * Z) (err_su_pointer_pairs : pairs_t float)
    : result (flow (pairs_t float) (pairs_t float)) :=
  let '(semantic_unit, pointer) := item in
  if pointer <? start_pos then Ok (Continue err_su_pointer_pairs)
  else
    let prob := su_prob semantic_unit in
    let tag_name := su_tag semantic_unit in
    x ← make_input self tag_name prob;
    let y := model self x in
    if PrimFloat.ltb y 0.5%float then
      let err_su_pointer_pairs :=
        err_su_pointer_pairs ++ [(semantic_unit, pointer)] in
      if bool_return_first then Ok (Return err_su_pointer_pairs)
      else Ok (Continue err_su_pointer_pairs)
    else Ok (Continue err_su_pointer_pairs).

Definition detection (self : t) (tag_seq : tag_seq_t float) (start_pos : Z)
    (bool_return_first : bool) : result (pairs_t float) :=
  if len tag_seq <=? start_pos then Ok []
  else
    '(semantic_units, pointers) ← semantic_unit_segment tag_seq;
    out ← for_in (zip semantic_units pointers)
             (body self start_pos bool_return_first) [];
    Ok (returned (fun err_su_pointer_pairs => err_su_pointer_pairs) out).
End FNN.
End ErrorDetectorFNN.

(** ** numpy's standard deviation

[np.std] of a list of floats (population standard deviation, no delta
degrees of freedom), in the order numpy evaluates it for a contiguous
array of fewer than eight samples: sum from left to right, division by
the count, deviations, squares, sum, division, square root.  From eight
samples on numpy adds the terms pairwise, and the last bit of the result
can differ from the one computed here; the properties below hold for
every standard deviation function, and only their examples, of three
samples each, use this one. *)

Definition float_of_nat (n : nat) : float :=
  PrimFloat.of_uint63 (Uint63.of_Z (Z.of_nat n)).

Definition np_sum (a : list float) : float :=
  fold_left PrimFloat.add a 0%float.

Definition np_mean (a : list float) : float :=
  PrimFloat.div (np_sum a) (float_of_nat (length a)).

Definition np_std (a : list float) : float :=
  let arrmean := np_mean a in
  let x := map (fun v => PrimFloat.sub v arrmean) a in
  let x := map (fun v => PrimFloat.mul v v) x in
  PrimFloat.sqrt (np_mean x).

(** ** A segmentation for the examples

    [semantic_unit_segment] itself (MISP_SQL/utils.py) is not among the
    sources and stays a parameter of the detectors.  The examples need one
    instance of its interface (two ordered sequences of equal length, the
    units and their positions): the one below takes every record as a
    unit, at its index. *)
Definition enumerate_segment {P} : segmenter P :=
  fun tag_seq => Ok (tag_seq, map Z.of_nat (seq 0 (length tag_seq))).

(** The ordering contract of the segmentation (section 5 of the spec:
    segmentation order matches the order of the decision sequence): the
    pointers it returns for [tag_seq] never decrease. *)
Definition ordered_segmentation {P} (seg : segmenter P)
    (tag_seq : tag_seq_t P) : Prop :=
  forall units pointers,
    seg tag_seq = Ok (units, pointers) -> Sorted Z.le pointers.

(** ** The shape the four loops share

  Each [detection] skips the units before [start_pos], applies its own
  test [judge] to the others, appends the units the test flags and leaves
  at the first one when [bool_return_first] is set. *)
Section Shape.
Context {P : Type} (judge : semantic_unit P -> Z -> result bool)
        (start_pos : Z).

Definition gen_body (bool_return_first : bool)
    (item : semantic_unit P * Z) (acc : pairs_t P)
    : result (flow (pairs_t P) (pairs_t P)) :=
  if item.2 <? start_pos then Ok (Continue acc)
  else
    b ← judge item.1 item.2;
    if b : bool then
      if bool_return_first then Ok (Return (acc ++ [item]))
      else Ok (Continue (acc ++ [item]))
    else Ok (Continue acc).

(** The units a full scan flags, in order; the first error stops it. *)
Fixpoint select (items : pairs_t P) : result (pairs_t P) :=
  match items with
  | [] => Ok []
  | item :: rest =>
      if item.2 <? start_pos then select rest
      else
        b ← judge item.1 item.2;
        r ← select rest;
        Ok (if b : bool then item :: r else r)
  end.

(** The first unit a scan flags. *)
Fixpoint select_first (items : pairs_t P)
    : result (option (semantic_unit P * Z)) :=
  match items with
  | [] => Ok None
  | item :: rest =>
      if item.2 <? start_pos then select_first rest
      else
        b ← judge item.1 item.2;
        if b : bool then Ok (Some item) else select_first rest
  end.

(** The units the loop reaches: those at or after [start_pos]. *)
Definition examined (items : pairs_t P) : pairs_t P :=
  filter (fun item => start_pos ≤ item.2) items.

(** The test says that the unit is erroneous. *)
Definition flagged (item : semantic_unit P * Z) : bool :=
  match judge item.1 item.2 with
  | Ok true => true
  | _ => false
  end.

(** The test returns, it does not raise. *)
Definition decided (item : semantic_unit P * Z) : Prop :=
  exists b, judge item.1 item.2 = Ok b.
End Shape.

(** The tests of the four detectors. *)
Definition judge_sim {P} (eval_tf : option (list bool))
    (u : semantic_unit P) (pointer : Z) : result bool :=
  bool_correct ← py_getitem_opt eval_tf pointer; Ok (negb bool_correct).

Definition judge_probability (self : ErrorDetectorProbability.t)
    (u : semantic_unit float) (pointer : Z) : result bool :=
  Ok (PrimFloat.ltb (su_prob u) (ErrorDetectorProbability.prob_threshold self)).

Definition judge_bayes (std : list float -> float)
    (self : ErrorDetectorBayesDropout.t)
    (u : semantic_unit (list float)) (pointer : Z) : result bool :=
  Ok (PrimFloat.ltb (ErrorDetectorBayesDropout.stddev_threshold self)
        (std (su_prob u))).

Definition judge_fnn (self : ErrorDetectorFNN.t)
    (u : semantic_unit float) (pointer : Z) : result bool :=
  x ← ErrorDetectorFNN.make_input self (su_tag u) (su_prob u);
  Ok (PrimFloat.ltb (ErrorDetectorFNN.model self x) 0.5%float).

(** The shape the four methods share. *)
Definition gen_detection {P} (seg : segmenter P)
    (judge : semantic_unit P -> Z -> result bool)
    (tag_seq : tag_seq_t P) (start_pos : Z) (bool_return_first : bool)
    : result (pairs_t P) :=
  if len tag_seq <=? start_pos then Ok []
  else
    '(semantic_units, pointers) ← seg tag_seq;
    out ← for_in (zip semantic_units pointers)
             (gen_body judge start_pos bool_return_first) [];
    Ok (returned (fun acc => acc) out).

(** ** The detectors over a store of Python objects

  The same four methods with the objects they work on made explicit: the
  decision sequence, the ground truth and the detector are references
  into a store, the list [err_su_pointer_pairs] and the array [x] are
  allocated in it, [append] and item assignment update it.  A call
  returns a reference to the list of pairs (or raises) and the store it
  leaves. *)
Module Heap.
Section Store.
Context {P : Type}.

Inductive obj :=
| OTagSeq (items : tag_seq_t P)
| OBools (bs : list bool)
| OPairs (ps : pairs_t P)
| OArray (row : list float)
| OSim
| OProbability (d : ErrorDetectorProbability.t)
| OBayesDropout (d : ErrorDetectorBayesDropout.t)
| OFNN (d : ErrorDetectorFNN.t).

Local Abbreviation store := (gmap positive obj).

Definition M (A : Type) : Type := store -> result A * store.

Definition ret {A} (a : A) : M A := fun h => (Ok a, h).

Definition bind {A B} (m : M A) (k : A -> M B) : M B :=
  fun h =>
    match m h with
    | (Ok a, h') => k a h'
    | (Err e, h') => (Err e, h')
    end.

Definition raise {A} (e : exn) : M A := fun h => (Err e, h).

Definition lift {A} (r : result A) : M A := fun h => (r, h).

(** A new object, at a reference the store does not use yet. *)
Definition new (o : obj) : M positive :=
  fun h => let l := fresh (dom h) in (Ok l, <[l := o]> h).

Definition load (l : positive) : M obj :=
  fun h =>
    match h !! l with
    | Some o => (Ok o, h)
    | None => (Err (Raised "dangling reference"), h)
    end.

Definition update (l : positive) (o : obj) : M unit :=
  fun h => (Ok tt, <[l := o]> h).
End Store.

Arguments obj : clear implicits.
Abbreviation store P := (gmap positive (obj P)).
Arguments M : clear implicits.

Notation "x ⇐ m ; k" := (bind m (fun x => k))
  (at level 20, m at level 100, k at level 200, only parsing).
Notation "m ;;; k" := (bind m (fun _ => k))
  (at level 100, k at level 200, only parsing, right associativity).

Section Operations.
Context {P : Type}.

(** The list behind [tag_seq]. *)
Definition load_tag_seq (l : positive) : M P (tag_seq_t P) :=
  o ⇐ load l;
  match o with
  | OTagSeq items => ret items
  | _ => raise TypeError
  end.

(** [pairs.append(item)] *)
Definition list_append (l : positive) (item : semantic_unit P * Z)
    : M P unit :=
  o ⇐ load l;
  match o with
  | OPairs ps => update l (OPairs (ps ++ [item]))
  | _ => raise TypeError
  end.

(** [eval_tf[i]], where [eval_tf] is [None] or a reference. *)
Definition getitem_eval_tf (eval_tf : option positive) (i : Z)
    : M P bool :=
  match eval_tf with
  | None => raise TypeError
  | Some l =>
      o ⇐ load l;
      match o with
      | OBools bs => lift (py_getitem bs i)
      | _ => raise TypeError
      end
  end.

(** [x[0, i] = v] *)
Definition array_setitem (l : positive) (i : Z) (v : float) : M P unit :=
  o ⇐ load l;
  match o with
  | OArray row => row' ⇐ lift (np_setitem row i v); update l (OArray row')
  | _ => raise TypeError
  end.

Definition load_array (l : positive) : M P (list float) :=
  o ⇐ load l;
  match o with
  | OArray row => ret row
  | _ => raise TypeError
  end.

Definition load_probability (l : positive)
    : M P ErrorDetectorProbability.t :=
  o ⇐ load l;
  match o with
  | OProbability d => ret d
  | _ => raise TypeError
  end.

Definition load_bayes (l : positive) : M P ErrorDetectorBayesDropout.t :=
  o ⇐ load l;
  match o with
  | OBayesDropout d => ret d
  | _ => raise TypeError
  end.

Definition load_fnn (l : positive) : M P ErrorDetectorFNN.t :=
  o ⇐ load l;
  match o with
  | OFNN d => ret d
  | _ => raise TypeError
  end.

(** The [for] loop, over the store. *)
Fixpoint for_in {A R} (xs : list A) (body : A -> M P (flow unit R))
    : M P (flow unit R) :=
  match xs with
  | [] => ret (Continue tt)
  | x :: xs' =>
      f ⇐ body x;
      match f with
      | Return r => ret (Return r)
      | Continue _ => for_in xs' body
      end
  end.

(** What a call returned, read in the store it left: the pairs of the
    list, or the exception. *)
Definition outcome (r : result positive * store P) : result (pairs_t P) :=
  match r.1 with
  | Err e => Err e
  | Ok l =>
      match r.2 !! l with
      | Some (OPairs ps) => Ok ps
      | _ => Err (Raised "not a list of pairs")
      end
  end.
End Operations.

Module Sim.
Section Sim.
Context {P : Type} (semantic_unit_segment : segmenter P).

Definition body (start_pos : Z) (bool_return_first : bool)
    (eval_tf : option positive) (err_su_pointer_pairs : positive)
    (item : semantic_unit P * Z) : M P (flow unit positive) :=
  let '(semantic_unit, pointer) := item in
  if pointer <? start_pos then ret (Continue tt)
  else
    bool_correct ⇐ getitem_eval_tf eval_tf pointer;
    if negb bool_correct then
      list_append err_su_pointer_pairs (semantic_unit, pointer) ;;;
      if bool_return_first then ret (Return err_su_pointer_pairs)
      else ret (Continue tt)
    else ret (Continue tt).

Definition detection (tag_seq : positive) (start_pos : Z)
    (bool_return_first : bool) (eval_tf : option positive)
    : M P positive :=
  items ⇐ load_tag_seq tag_seq;
  if len items <=? start_pos then new (OPairs [])
  else
    segments ⇐ lift (semantic_unit_segment items);
    err_su_pointer_pairs ⇐ new (OPairs []);
    out ⇐ for_in (zip segments.1 segments.2)
            (body start_pos bool_return_first eval_tf err_su_pointer_pairs);
    ret (returned (fun _ => err_su_pointer_pairs) out).
End Sim.
End Sim.

Module Probability.
Section Probability.
Context (semantic_unit_segment : segmenter float).

Definition body (self : positive) (start_pos : Z)
    (bool_return_first : bool) (err_su_pointer_pairs : positive)
    (item : semantic_unit float * Z) : M float (flow unit positive) :=
  let '(semantic_unit, pointer) := item in
  if pointer <? start_pos then ret (Continue tt)
  else
    let prob := su_prob semantic_unit in
    d ⇐ load_probability self;
    if PrimFloat.ltb prob (ErrorDetectorProbability.prob_threshold d) then
      list_append err_su_pointer_pairs (semantic_unit, pointer) ;;;
      if bool_return_first then ret (Return err_su_pointer_pairs)
      else ret (Continue tt)
    else ret (Continue tt).

Definition detection (self tag_seq : positive) (start_pos : Z)
    (bool_return_first : bool) : M float positive :=
  items ⇐ load_tag_seq tag_seq;
  if len items <=? start_pos then new (OPairs [])
  else
    segments ⇐ lift (semantic_unit_segment items);
    err_su_pointer_pairs ⇐ new (OPairs []);
    out ⇐ for_in (zip segments.1 segments.2)
            (body self start_pos bool_return_first err_su_pointer_pairs);
    ret (returned (fun _ => err_su_pointer_pairs) out).
End Probability.
End Probability.

Module BayesDropout.
Section BayesDropout.
Context (np_std : list float -> float)
        (semantic_unit_segment : segmenter (list float)).

Definition body (self : positive) (start_pos : Z)
    (bool_return_first : bool) (err_su_pointer_pairs : positive)
    (item : semantic_unit (list float) * Z)
    : M (list float) (flow unit positive) :=
  let '(semantic_unit, pointer) := item in
  if pointer <? start_pos then ret (Continue tt)
  else
    let stddev := np_std (su_prob semantic_unit) in
    d ⇐ load_bayes self;
    if PrimFloat.ltb (ErrorDetectorBayesDropout.stddev_threshold d) stddev
    then
      list_append err_su_pointer_pairs (semantic_unit, pointer) ;;;
      if bool_return_first then ret (Return err_su_pointer_pairs)
      else ret (Continue tt)
    else ret (Continue tt).

Definition detection (self tag_seq : positive) (start_pos : Z)
    (bool_return_first : bool) : M (list float) positive :=
  items ⇐ load_tag_seq tag_seq;
  if len items <=? start_pos then new (OPairs [])
  else
    segments ⇐ lift (semantic_unit_segment items);
    err_su_pointer_pairs ⇐ new (OPairs []);
    out ⇐ for_in (zip segments.1 segments.2)
            (body self start_pos bool_return_first err_su_pointer_pairs);
    ret (returned (fun _ => err_su_pointer_pairs) out).
End BayesDropout.
End BayesDropout.

Module FNN.
Section FNN.
Context (semantic_unit_segment : segmenter float).

Definition body (self : positive) (start_pos : Z)
    (bool_return_first : bool) (err_su_pointer_pairs : positive)
    (item : semantic_unit float * Z) : M float (flow unit positive) :=
  let '(semantic_unit, pointer) := item in
  if pointer <? start_pos then ret (Continue tt)
  else
    let prob := su_prob semantic_unit in
    let tag_name := su_tag semantic_unit in
    d ⇐ load_fnn self;
    x ⇐ new (OArray (np_zeros (ErrorDetectorFNN.input_size d)));
    col_idx ⇐ lift (dict_getitem (ErrorDetectorFNN.indexer d) tag_name);
    array_setitem x (-1) prob ;;;
    array_setitem x col_idx 1%float ;;;
    row ⇐ load_array x;
    tensor ⇐ new (OArray row);
    row ⇐ load_array tensor;
    let y := ErrorDetectorFNN.model d row in
    if PrimFloat.ltb y 0.5%float then
      list_append err_su_pointer_pairs (semantic_unit, pointer) ;;;
      if bool_return_first then ret (Return err_su_pointer_pairs)
      else ret (Continue tt)
    else ret (Continue tt).

Definition detection (self tag_seq : positive) (start_pos : Z)
    (bool_return_first : bool) : M float positive :=
  items ⇐ load_tag_seq tag_seq;
  if len items <=? start_pos then new (OPairs [])
  else
    segments ⇐ lift (semantic_unit_segment items);
    err_su_pointer_pairs ⇐ new (OPairs []);
    out ⇐ for_in (zip segments.1 segments.2)
            (body self start_pos bool_return_first err_su_pointer_pairs);
    ret (returned (fun _ => err_su_pointer_pairs) out).
End FNN.
End FNN.

(** The shape the four loops share, over the store. *)
Definition gen_body {P} (judge : semantic_unit P -> Z -> M P bool)
    (start_pos : Z) (bool_return_first : bool) (err : positive)
    (item : semantic_unit P * Z) : M P (flow unit positive) :=
  if item.2 <? start_pos then ret (Continue tt)
  else
    b ⇐ judge item.1 item.2;
    if b : bool then
      list_append err item ;;;
      if bool_return_first then ret (Return err) else ret (Continue tt)
    else ret (Continue tt).

(** The shape the four methods share, over the store, for a loop body. *)
Definition detection_with {P} (seg : segmenter P)
    (body : positive -> semantic_unit P * Z -> M P (flow unit positive))
    (tag_seq : positive) (start_pos : Z) : M P positive :=
  items ⇐ load_tag_seq tag_seq;
  if len items <=? start_pos then new (OPairs [])
  else
    segments ⇐ lift (seg items);
    err ⇐ new (OPairs []);
    out ⇐ for_in (zip segments.1 segments.2) (body err);
    ret (returned (fun _ => err) out).

Definition gen_detection {P} (seg : segmenter P)
    (judge : semantic_unit P -> Z -> M P bool)
    (tag_seq : positive) (start_pos : Z) (bool_return_first : bool)
    : M P positive :=
  detection_with seg (gen_body judge start_pos bool_return_first)
    tag_seq start_pos.

(** The tests of the four detectors, over the store. *)
Definition judge_sim {P} (eval_tf : option positive)
    (u : semantic_unit P) (pointer : Z) : M P bool :=
  bool_correct ⇐ getitem_eval_tf eval_tf pointer; ret (negb bool_correct).

Definition judge_probability (self : positive)
    (u : semantic_unit float) (pointer : Z) : M float bool :=
  d ⇐ load_probability self;
  ret (PrimFloat.ltb (su_prob u) (ErrorDetectorProbability.prob_threshold d)).

Definition judge_bayes (std : list float -> float) (self : positive)
    (u : semantic_unit (list float)) (pointer : Z) : M (list float) bool :=
  d ⇐ load_bayes self;
  ret (PrimFloat.ltb (ErrorDetectorBayesDropout.stddev_threshold d)
         (std (su_prob u))).

Definition judge_fnn (self : positive)
    (u : semantic_unit float) (pointer : Z) : M float bool :=
  d ⇐ load_fnn self;
  x ⇐ new (OArray (np_zeros (ErrorDetectorFNN.input_size d)));
  col_idx ⇐ lift (dict_getitem (ErrorDetectorFNN.indexer d) (su_tag u));
  array_setitem x (-1) (su_prob u) ;;;
  array_setitem x col_idx 1%float ;;;
  row ⇐ load_array x;
  tensor ⇐ new (OArray row);
  row ⇐ load_array tensor;
  ret (PrimFloat.ltb (ErrorDetectorFNN.model d row) 0.5%float).

(** A test over the store computes what the test without the store does,
    and only adds objects to the store it is run in. *)
Definition judge_refines {P} (h : store P)
    (judge_st : semantic_unit P -> Z -> M P bool)
    (judge : semantic_unit P -> Z -> result bool) : Prop :=
  forall u p h1, h ⊆ h1 ->
    exists h2, judge_st u p h1 = (judge u p, h2) /\ h1 ⊆ h2.

(** The ground truth a call is given, read in the store. *)
Definition holds_eval_tf {P} (h : store P) (ref : option positive)
    (eval_tf : option (list bool)) : Prop :=
  match ref with
  | None => eval_tf = None
  | Some l => exists bs, h !! l = Some (OBools bs) /\ eval_tf = Some bs
  end.

(** Two calls in a row, the second in the store the first one left: both
    have the outcome [expected], and each leaves every object of the store
    it started in as it was. *)
Definition repeatable {P} (call : M P positive) (h : store P)
    (expected : result (pairs_t P)) : Prop :=
  let r1 := call h in
  let r2 := call r1.2 in
  outcome r1 = expected /\ outcome r2 = expected /\
  h ⊆ r1.2 /\ r1.2 ⊆ r2.2.
End Heap.

(** ** Notions the properties use *)

(** What is asked of the pairs a call returns: pointers at or after
    [start_pos], the pairs a subsequence of the zipped segmentation, and
    pointers that never decrease. *)
Definition in_segmentation_order {P} (seg : segmenter P)
    (tag_seq : tag_seq_t P) (start_pos : Z) (r : result (pairs_t P))
    : Prop :=
  forall res, r = Ok res ->
    Forall (fun item => start_pos <= item.2) res /\
    (forall units pointers, seg tag_seq = Ok (units, pointers) ->
       res `sublist_of` zip units pointers) /\
    (ordered_segmentation seg tag_seq -> Sorted Z.le res.*2).

(** The loop visits every unit at or after [start_pos]: the call does not
    short-circuit, or every pointer of the segmentation is a position in
    the sequence (then a call that short-circuits has no such unit). *)
Definition scans {P} (tag_seq : tag_seq_t P) (start_pos : Z)
    (pointers : list Z) : Prop :=
  start_pos < len tag_seq \/ Forall (fun p => p < len tag_seq) pointers.

(** What is asked of a [detection] method when [start_pos] is at or after
    the end of the sequence: the empty list, whatever the segmentation
    [seg] would do; so on the empty sequence the empty list for every
    [start_pos] that is not negative, and for a negative one too as long
    as the segmentation finds no unit in the empty sequence. *)
Definition short_circuits {P} (seg : segmenter P)
    (detection : tag_seq_t P -> Z -> bool -> result (pairs_t P)) : Prop :=
  (forall tag_seq start_pos first,
     len tag_seq <= start_pos -> detection tag_seq start_pos first = Ok []) /\
  (forall start_pos first,
     0 <= start_pos -> detection [] start_pos first = Ok []) /\
  (forall start_pos first units pointers,
     seg [] = Ok (units, pointers) -> zip units pointers = [] ->
     detection [] start_pos first = Ok []).

(** The result with [bool_return_first] against the full result: when
    the full call returns, the other returns its prefix of length at most
    one; when the call with [bool_return_first] raises, so does the full
    call; and when the full call raises, the other raises the same
    exception or has returned one pair before. *)
Definition first_of {P} (first full : result (pairs_t P)) : Prop :=
  (forall l, full = Ok l ->
     first = Ok (take 1 l) /\ (take 1 l = [] <-> l = [])) /\
  (forall e, first = Err e -> full = Err e) /\
  (forall e, full = Err e ->
     first = Err e \/ exists item, first = Ok [item]).

(** The columns of a row that hold a nonzero value. *)
Definition nonzero_slots (x : list float) : list nat :=
  List.filter
    (fun i => match x !! i with
              | Some v => negb (PrimFloat.eqb v 0%float)
              | None => false
              end)
    (seq 0 (length x)).

(** The column an index addresses in a row of width [n]. *)
Definition column (n i : Z) : Z := if i <? 0 then n + i else i.

(** ** Example data *)

Definition example_units : tag_seq_t float :=
  [ SemanticUnit "SELECT_COL" [FTuple [FStr "flight"; FStr "airline"; FInt 3]]
      0.9%float (Some 0);
    SemanticUnit "WHERE_COL" [FTuple [FStr "flight"; FStr "stops"; FInt 7]]
      0.4%float (Some 1);
    SemanticUnit "WHERE_OP" [FStr "="] 0.6%float (Some 2) ].

Definition example_samples : tag_seq_t (list float) :=
  [ SemanticUnit "SELECT_COL" [FStr "airline"]
      [0.1; 0.1; 0.1]%float (Some 0);
    SemanticUnit "WHERE_COL" [FStr "stops"]
      [0.9; 0.1; 0.5]%float (Some 1) ].

Definition example_indexer : gmap string Z :=
  {[ "SELECT_COL" := 0; "WHERE_COL" := 1; "WHERE_OP" := 2 ]}.

(** A classifier for the examples: it returns the probability slot. *)
Definition example_model (x : list float) : float := List.last x 0%float.

(** A store for the examples: the decision sequence at reference 1, a
    probability detector at 2, a ground truth at 3. *)
Definition example_store : Heap.store float :=
  {[ 1%positive := Heap.OTagSeq example_units;
     2%positive :=
       Heap.OProbability (ErrorDetectorProbability.init 0.5%float);
     3%positive := Heap.OBools [true; false; true] ]}.

(** ** Further notions about [detection] *)

(** A later [start_pos] keeps, of the full result, the pairs at or after
    it. *)
Definition later_start_filters {P} (seg : segmenter P)
    (detection : tag_seq_t P -> Z -> bool -> result (pairs_t P)) : Prop :=
  forall tag_seq units pointers start_pos later l,
    seg tag_seq = Ok (units, pointers) ->
    scans tag_seq later pointers ->
    start_pos <= later ->
    detection tag_seq start_pos false = Ok l ->
    detection tag_seq later false =
    Ok (List.filter (fun item => later <=? item.2) l).

(** The pair returned with [bool_return_first] is the one of the full
    result with the smallest pointer. *)
Definition first_is_least {P} (seg : segmenter P)
    (detection : tag_seq_t P -> Z -> bool -> result (pairs_t P)) : Prop :=
  forall tag_seq start_pos item l,
    ordered_segmentation seg tag_seq ->
    detection tag_seq start_pos true = Ok [item] ->
    detection tag_seq start_pos false = Ok l ->
    item ∈ l /\ Forall (fun other => item.2 <= other.2) l.

(** An indexer that does not know the tag [WHERE_OP]. *)
Definition example_partial_indexer : gmap string Z :=
  {[ "SELECT_COL" := 0; "WHERE_COL" := 1 ]}.

(** The list a call returns is a new object: its reference is not in the
    store the call starts in, and a second call, in the store the first
    one left, returns another reference. *)
Definition returns_new_list {P} (call : Heap.M P positive)
    (h : Heap.store P) : Prop :=
  forall l h',
    call h = (Ok l, h') ->
    h !! l = None /\
    forall l2 h2, call h' = (Ok l2, h2) -> l2 <> l.

(** * Loading the data (src/EditSQL/data_util/atis_data.py) *)

(** [the_list[:stop]]: a negative [stop] counts from the end, and the
    bound is clipped to the list. *)
Definition py_slice_to {A} (the_list : list A) (stop : Z) : list A :=
  let stop := if stop <? 0 then stop + len the_list else stop in
  let stop :=
    if stop <? 0 then 0
    else if len the_list <? stop then len the_list else stop in
  take (Z.to_nat stop) the_list.

(** [enumerate(the_list)] *)
Definition enumerate {A} (the_list : list A) : list (nat * A) :=
  imap (fun i x => (i, x)) the_list.

(** [range(n)] *)
Definition range (n : Z) : list Z := map Z.of_nat (seq 0 (Z.to_nat n)).

(** [sum(the_list)] on integers *)
Definition py_sum (the_list : list Z) : Z := fold_left Z.add the_list 0.

(** [sorted(the_list, key=key)]: Python's sort is stable, and a stable
    sort by an integer key has one possible result; it is computed here
    by insertion. *)
Fixpoint insert_sorted {A} (key : A -> Z) (x : A) (sorted : list A)
    : list A :=
  match sorted with
  | [] => [x]
  | y :: rest =>
      if key x <=? key y then x :: y :: rest
      else y :: insert_sorted key x rest
  end.

Definition py_sorted {A} (key : A -> Z) (the_list : list A) : list A :=
  foldr (insert_sorted key) [] the_list.

(** [collapse_list] of [ATISDataset.__init__]:
    [[s for i in the_list for s in i]]. *)
Definition collapse_list {A} (the_list : list (list A)) : list A :=
  i ← the_list; s ← i; [s].

(** Lines 86-89 of [ATISDataset.__init__]: the output sequences built from
    the ordered vocabulary, [out_vocab_ordered[:i+1]] for every [i]. *)
Definition all_output_seqs_of (out_vocab_ordered : list string)
    : list (list string) :=
  fold_left
    (fun all_output_seqs i =>
       all_output_seqs ++ [py_slice_to out_vocab_ordered (i + 1)])
    (range (len out_vocab_ordered)) [].

(** The ordered vocabulary of line 87. *)
Definition out_vocab_ordered : list string :=
  ["select"; "value"; ")"; "("; "where"; "="; ","; "count"; "group_by";
   "order_by"; "limit_value"; "desc"; ">"; "distinct"; "avg"; "and";
   "having"; "<"; "in"; "max"; "sum"; "asc"; "like"; "not"; "or"; "min";
   "intersect"; "except"; "!="; "union"; "between"; "-"; "+"].

(** The loop that fills the batches, the same in [get_utterance_batches]
    (lines 285-293) and [get_interaction_batches] (lines 322-330).  A
    batch ([UtteranceBatch], [InteractionBatch] of atis_batch.py, which is
    not among the sources) is given by the list of its items, and its
    length is their number. *)
Definition batch_step {A} (batch_size : Z)
    (state : list (list A) * list A) (item : A) : list (list A) * list A :=
  let '(batches, current_batch_items) := state in
  let '(batches, current_batch_items) :=
    if batch_size <=? len current_batch_items
    then (batches ++ [current_batch_items], [])
    else (batches, current_batch_items) in
  (batches, current_batch_items ++ [item]).

Definition batch_loop {A} (batch_size : Z) (items : list A)
    : list (list A) :=
  let '(batches, current_batch_items) :=
    fold_left (batch_step batch_size) items ([], []) in
  batches ++ [current_batch_items].

(** [assert sum([len(batch) for batch in batches]) == len(items)] *)
Definition assert_all_items {A} (batches : list (list A)) (items : list A)
    : result (list (list A)) :=
  if py_sum (map len batches) =? len items then Ok batches
  else Err (Raised "AssertionError").

Module ATISDataset.
Section Schema.
(** [str.lower] and [str.split] *)
Context (lower : string -> string) (split : string -> list string).

(** An entry of the schema file, with the keys the two readers use. *)
Record table_schema := TableSchema {
  db_id : string;
  column_names : list (Z * string);
  column_names_original : list (Z * string);
  table_names : list string;
  table_names_original : list string
}.

(** The three values a reader returns. *)
Definition schema_result : Type :=
  gmap string table_schema * list string * list (list string).

(** [read_database_schema_simple], from the parsed file on. *)
Definition read_database_schema_simple (database_schema : list table_schema)
    : schema_result :=
  fold_left
    (fun '(database_schema_dict, column_names_surface_form,
           column_names_embedder_input) table_schema =>
       let database_schema_dict :=
         <[db_id table_schema := table_schema]> database_schema_dict in
       let column_names_surface_form :=
         fold_left
           (fun surface '(table_id, column_name) =>
              surface ++ [lower column_name])
           (column_names_original table_schema) column_names_surface_form in
       let column_names_surface_form :=
         fold_left
           (fun surface table_name => surface ++ [lower table_name])
           (table_names_original table_schema) column_names_surface_form in
       let column_names_embedder_input :=
         fold_left
           (fun embedder '(table_id, column_name) =>
              embedder ++ [split column_name])
           (column_names table_schema) column_names_embedder_input in
       let column_names_embedder_input :=
         fold_left
           (fun embedder table_name => embedder ++ [split table_name])
           (table_names table_schema) column_names_embedder_input in
       (database_schema_dict, column_names_surface_form,
        column_names_embedder_input))
    database_schema (∅, [], []).

(** A loop whose body may raise. *)
Fixpoint for_each {A S} (xs : list A) (body : S -> A -> result S) (s : S)
    : result S :=
  match xs with
  | [] => Ok s
  | x :: xs' =>
      match body s x with
      | Ok s' => for_each xs' body s'
      | Err e => Err e
      end
  end.

(** [read_database_schema], from the parsed file on. *)
Definition read_database_schema (database_schema : list table_schema)
    : result schema_result :=
  for_each database_schema
    (fun '(database_schema_dict, column_names_surface_form,
           column_names_embedder_input) table_schema =>
       let database_schema_dict :=
         <[db_id table_schema := table_schema]> database_schema_dict in
       column_names_surface_form ←
         for_each (column_names_original table_schema)
           (fun surface '(table_id, column_name) =>
              if 0 <=? table_id then
                table_name ←
                  py_getitem (table_names_original table_schema) table_id;
                Ok (surface ++
                    [lower (String.append table_name
                              (String.append "." column_name))])
              else Ok (surface ++ [lower column_name]))
           column_names_surface_form;
       let column_names_surface_form :=
         fold_left
           (fun surface table_name =>
              surface ++ [String.append (lower table_name) ".*"])
           (table_names_original table_schema) column_names_surface_form in
       column_names_embedder_input ←
         for_each (column_names table_schema)
           (fun embedder '(table_id, column_name) =>
              if 0 <=? table_id then
                table_name ← py_getitem (table_names table_schema) table_id;
                Ok (embedder ++
                    [split (String.append table_name
                              (String.append " . " column_name))])
              else Ok (embedder ++ [split column_name]))
           column_names_embedder_input;
       let column_names_embedder_input :=
         fold_left
           (fun embedder table_name =>
              embedder ++ [split (String.append table_name " . *")])
           (table_names table_schema) column_names_embedder_input in
       Ok (database_schema_dict, column_names_surface_form,
           column_names_embedder_input))
    (∅, [], []).
End Schema.

Section Items.
(** An interaction, its utterances and its length
    ([interaction.utterances], [len(interaction)]); the bounds on lengths
    (an integer or [float('inf')]) with [utterance.length_valid]; the items
    of atis_batch.py with their length; [random.shuffle]. *)
Context {Interaction Utterance Bound Entities Item : Type}
        (utterances : Interaction -> list Utterance)
        (interaction_len : Interaction -> Z)
        (length_valid : Utterance -> Bound -> Bound -> bool)
        (InteractionItem :
           Interaction -> Bound -> Bound -> Entities -> Bound -> Item)
        (item_len : Item -> Z)
        (shuffle : forall A, list A -> list A).

(** [UtteranceItem(interaction, i)] *)
Definition UtteranceItem (interaction : Interaction) (i : nat)
    : Interaction * nat := (interaction, i).

(** A dataset split is given by its [examples]. *)
Definition get_all_utterances (dataset : list Interaction)
    (max_input_length max_output_length : Bound)
    : list (Interaction * nat) :=
  fold_left
    (fun items interaction =>
       fold_left
         (fun items '(i, utterance) =>
            if length_valid utterance max_input_length max_output_length
            then items ++ [UtteranceItem interaction i]
            else items)
         (enumerate (utterances interaction)) items)
    dataset [].

Definition get_all_interactions (entities_dictionary : Entities)
    (dataset : list Interaction)
    (max_interaction_length max_input_length max_output_length : Bound)
    (sorted_by_length : bool) : list Item :=
  let ints :=
    map (fun interaction =>
           InteractionItem interaction max_input_length max_output_length
             entities_dictionary max_interaction_length)
        dataset in
  if sorted_by_length then reverse (py_sorted item_len ints) else ints.

Definition get_utterance_batches (train_data : list Interaction)
    (batch_size : Z) (max_input_length max_output_length : Bound)
    (randomize : bool) : result (list (list (Interaction * nat))) :=
  let items :=
    get_all_utterances train_data max_input_length max_output_length in
  let items := if randomize then shuffle _ items else items in
  let batches := batch_loop batch_size items in
  assert_all_items batches items.

Definition get_interaction_batches (entities_dictionary : Entities)
    (train_data : list Interaction) (batch_size : Z)
    (max_interaction_length max_input_length max_output_length : Bound)
    (randomize : bool) : result (list (list Item)) :=
  let items :=
    get_all_interactions entities_dictionary train_data
      max_interaction_length max_input_length max_output_length
      (negb randomize) in
  let items := if randomize then shuffle _ items else items in
  let batches := batch_loop batch_size items in
  assert_all_items batches items.

Definition get_random_utterances (train_data : list Interaction)
    (num_samples : Z) (max_input_length max_output_length : Bound)
    : list (Interaction * nat) :=
  let items :=
    get_all_utterances train_data max_input_length max_output_length in
  let items := shuffle _ items in
  py_slice_to items num_samples.

Definition get_random_interactions (entities_dictionary : Entities)
    (train_data : list Interaction) (num_samples : Z)
    (max_interaction_length max_input_length max_output_length : Bound)
    : list Item :=
  let items :=
    get_all_interactions entities_dictionary train_data
      max_interaction_length max_input_length max_output_length false in
  let items := shuffle _ items in
  py_slice_to items num_samples.

(** [num_utterances(dataset)] *)
Definition num_utterances (dataset : list Interaction) : Z :=
  py_sum (map interaction_len dataset).
End Items.
End ATISDataset.

(** The items of one interaction: the positions of its valid
    utterances, in order. *)
Definition valid_items {Interaction Utterance Bound : Type}
    (utterances : Interaction -> list Utterance)
    (length_valid : Utterance -> Bound -> Bound -> bool)
    (max_input_length max_output_length : Bound)
    (interaction : Interaction) : list (Interaction * nat) :=
  omap (fun p : nat * Utterance =>
          if length_valid p.2 max_input_length max_output_length
          then Some (interaction, p.1) else None)
       (enumerate (utterances interaction)).

(** What one schema adds to the two lists of
    [read_database_schema_simple]: its columns, then its tables. *)
Definition simple_surface_forms (lower : string -> string)
    (ts : ATISDataset.table_schema) : list string :=
  map (fun c => lower c.2) (ATISDataset.column_names_original ts) ++
  map lower (ATISDataset.table_names_original ts).

Definition simple_embedder_inputs (split : string -> list string)
    (ts : ATISDataset.table_schema) : list (list string) :=
  map (fun c => split c.2) (ATISDataset.column_names ts) ++
  map split (ATISDataset.table_names ts).

(** The table of every column exists: its table identifier is negative
    (no table) or below the number of tables. *)
Definition tables_exist (names : list string) (columns : list (Z * string))
    : Prop :=
  Forall (fun c => c.1 < len names) columns.

Definition schema_tables_exist (ts : ATISDataset.table_schema) : Prop :=
  tables_exist (ATISDataset.table_names_original ts)
    (ATISDataset.column_names_original ts) /\
  tables_exist (ATISDataset.table_names ts) (ATISDataset.column_names ts).

(** Two schemas of the same database, for the examples. *)
Definition example_schemas : list ATISDataset.table_schema :=
  [ ATISDataset.TableSchema "flights"
      [(-1, "*"); (0, "flight id"); (1, "name")]
      [(-1, "*"); (0, "Flight_ID"); (1, "Name")]
      ["flight"; "airline"] ["Flight"; "Airline"];
    ATISDataset.TableSchema "flights"
      [(-1, "*"); (0, "city")] [(-1, "*"); (0, "City")]
      ["airport"] ["Airport"] ].

(** The body of the two loops over the columns in
    [read_database_schema]: an entry made of the table and the column when
    the column has a table, of the column alone otherwise. *)
Definition column_body {B} (names : list string)
    (with_table : string -> string -> B) (alone : string -> B)
    (acc : list B) (c : Z * string) : result (list B) :=
  let '(table_id, column_name) := c in
  if 0 <=? table_id then
    table_name ← py_getitem names table_id;
    Ok (acc ++ [with_table table_name column_name])
  else Ok (acc ++ [alone column_name]).

(** The body of the loop over the schemas in [read_database_schema]. *)
Definition read_schema_step (lower : string -> string)
    (split : string -> list string)
    (state : ATISDataset.schema_result)
    (table_schema : ATISDataset.table_schema)
    : result ATISDataset.schema_result :=
  let '(database_schema_dict, column_names_surface_form,
        column_names_embedder_input) := state in
  let database_schema_dict :=
    <[ATISDataset.db_id table_schema := table_schema]>
      database_schema_dict in
  column_names_surface_form ←
    ATISDataset.for_each (ATISDataset.column_names_original table_schema)
      (column_body (ATISDataset.table_names_original table_schema)
         (fun table_name column_name =>
            lower (String.append table_name (String.append "." column_name)))
         lower)
      column_names_surface_form;
  let column_names_surface_form :=
    fold_left
      (fun surface table_name =>
         surface ++ [String.append (lower table_name) ".*"])
      (ATISDataset.table_names_original table_schema)
      column_names_surface_form in
  column_names_embedder_input ←
    ATISDataset.for_each (ATISDataset.column_names table_schema)
      (column_body (ATISDataset.table_names table_schema)
         (fun table_name column_name =>
            split (String.append table_name
                     (String.append " . " column_name)))
         split)
      column_names_embedder_input;
  let column_names_embedder_input :=
    fold_left
      (fun embedder table_name =>
         embedder ++ [split (String.append table_name " . *")])
      (ATISDataset.table_names table_schema) column_names_embedder_input in
  Ok (database_schema_dict, column_names_surface_form,
      column_names_embedder_input).

(** * Properties *)

(** ** The loop *)

Lemma for_in_ext {A S R} (f g : A -> S -> result (flow S R)) xs s :
  (forall x s', f x s' = g x s') -> for_in xs f s = for_in xs g s.
Proof.
  intros Hfg. revert s.
  induction xs as [|x xs IH]; intros s; simpl; [reflexivity|].
  rewrite Hfg. destruct (g x s) as [[s'|r]|e]; auto.
Qed.

Section ShapeFacts.
Context {P : Type} (judge : semantic_unit P -> Z -> result bool)
        (start_pos : Z).
Implicit Types (items acc : pairs_t P) (item : semantic_unit P * Z).

(** Without [bool_return_first] the loop appends the selected units. *)
Lemma for_in_all items acc :
  for_in items (gen_body judge start_pos false) acc =
  r ← select judge start_pos items; Ok (Continue (acc ++ r)).
Proof.
  revert acc.
  induction items as [|item rest IH]; intros acc; simpl.
  - by rewrite app_nil_r.
  - unfold gen_body at 1.
    destruct (item.2 <? start_pos); [apply IH|].
    destruct (judge item.1 item.2) as [[|]|e]; simpl; [| |reflexivity].
    + rewrite IH. destruct (select judge start_pos rest); simpl;
        [by rewrite <- app_assoc | reflexivity].
    + rewrite IH. by destruct (select judge start_pos rest).
Qed.

(** With [bool_return_first] it returns at the first selected unit. *)
Lemma for_in_first items acc :
  for_in items (gen_body judge start_pos true) acc =
  o ← select_first judge start_pos items;
  Ok (match o with
      | Some item => Return (acc ++ [item])
      | None => Continue acc
      end).
Proof.
  induction items as [|item rest IH]; simpl; [reflexivity|].
  unfold gen_body at 1.
  destruct (item.2 <? start_pos); [apply IH|].
  destruct (judge item.1 item.2) as [[|]|e]; simpl; auto.
Qed.

(** The first selected unit is the head of the selected units. *)
Lemma select_first_head items l :
  select judge start_pos items = Ok l ->
  select_first judge start_pos items = Ok (head l).
Proof.
  revert l. induction items as [|item rest IH]; intros l; simpl.
  - by intros [= <-].
  - destruct (item.2 <? start_pos); [apply IH|].
    destruct (judge item.1 item.2) as [b|e]; simpl; [|done].
    destruct (select judge start_pos rest) as [r|e]; simpl; [|done].
    intros [= <-]. destruct b; [reflexivity|]. by apply IH.
Qed.

Lemma select_first_err items e :
  select_first judge start_pos items = Err e ->
  select judge start_pos items = Err e.
Proof.
  induction items as [|item rest IH]; simpl; [done|].
  destruct (item.2 <? start_pos); [apply IH|].
  destruct (judge item.1 item.2) as [[|]|e']; simpl;
    intros H; try discriminate.
  - by rewrite (IH H).
  - by injection H as ->.
Qed.
End ShapeFacts.

Lemma sublist_snd {A} (l1 l2 : list (A * Z)) :
  l1 `sublist_of` l2 -> l1.*2 `sublist_of` l2.*2.
Proof. induction 1; simpl; by constructor. Qed.

Lemma zip_snd_sublist {A} (l : list A) (k : list Z) :
  (zip l k).*2 `sublist_of` k.
Proof.
  revert k. induction l as [|a l IH]; intros [|z k]; simpl;
    try apply sublist_nil_l.
  by constructor.
Qed.

Lemma StronglySorted_sublist (l1 l2 : list Z) :
  l1 `sublist_of` l2 -> StronglySorted Z.le l2 -> StronglySorted Z.le l1.
Proof.
  induction 1 as [|x l1 l2 Hsub IH|x l1 l2 Hsub IH]; intros Hs; [done| |].
  - apply StronglySorted_inv in Hs as [Hs Hall]. constructor; [by apply IH|].
    rewrite Forall_forall in *. intros y Hy. apply Hall.
    by eapply elem_of_sublist.
  - apply StronglySorted_inv in Hs as [Hs _]. by apply IH.
Qed.

Lemma Sorted_sublist (l1 l2 : list Z) :
  l1 `sublist_of` l2 -> Sorted Z.le l2 -> Sorted Z.le l1.
Proof.
  intros Hsub Hs. apply StronglySorted_Sorted.
  eapply StronglySorted_sublist; [done|].
  apply Sorted_StronglySorted; [|done]. intros x y z. apply Z.le_trans.
Qed.

Section SelectFacts.
Context {P : Type} (judge : semantic_unit P -> Z -> result bool)
        (start_pos : Z).
Implicit Types (items acc : pairs_t P) (item : semantic_unit P * Z).

Lemma examined_cons item items :
  examined start_pos (item :: items) =
  if item.2 <? start_pos then examined start_pos items
  else item :: examined start_pos items.
Proof.
  unfold examined. rewrite filter_cons.
  destruct (Z.ltb_spec item.2 start_pos); case_decide; done || lia.
Qed.

Lemma examined_none items :
  (forall item, item ∈ items -> item.2 < start_pos) ->
  examined start_pos items = [].
Proof.
  induction items as [|item rest IH]; intros H; [done|].
  rewrite examined_cons.
  replace (item.2 <? start_pos) with true
    by (symmetry; apply Z.ltb_lt, H; left).
  apply IH. intros x Hx. apply H. by right.
Qed.

Lemma examined_sublist items : examined start_pos items `sublist_of` items.
Proof. apply sublist_filter. Qed.

Lemma examined_Forall items :
  Forall (fun item => start_pos <= item.2) (examined start_pos items).
Proof.
  apply Forall_forall. intros item Hin.
  by apply list_elem_of_filter in Hin as [? _].
Qed.

Lemma select_sublist items l :
  select judge start_pos items = Ok l ->
  l `sublist_of` examined start_pos items.
Proof.
  revert l. induction items as [|item rest IH]; intros l; simpl.
  - by intros [= <-].
  - rewrite examined_cons. destruct (item.2 <? start_pos); [apply IH|].
    destruct (judge item.1 item.2) as [b|e]; simpl; [|done].
    destruct (select judge start_pos rest) as [r|e]; simpl; [|done].
    intros [= <-]. destruct b; constructor; by apply IH.
Qed.

Lemma select_first_sublist items o :
  select_first judge start_pos items = Ok o ->
  option_list o `sublist_of` examined start_pos items.
Proof.
  induction items as [|item rest IH]; simpl.
  - intros [= <-]. constructor.
  - rewrite examined_cons. destruct (item.2 <? start_pos); [apply IH|].
    destruct (judge item.1 item.2) as [[|]|e]; simpl; [| |done].
    + intros [= <-]. simpl. constructor. apply sublist_nil_l.
    + intros H. constructor. by apply IH.
Qed.

(** A full scan keeps exactly the units at or after [start_pos] that the
    test flags. *)
Lemma select_filter items l :
  select judge start_pos items = Ok l ->
  l = List.filter
        (fun item => (start_pos <=? item.2) && flagged judge item) items.
Proof.
  revert l. induction items as [|item rest IH]; intros l; simpl.
  - by intros [= <-].
  - unfold flagged at 1.
    destruct (Z.ltb_spec item.2 start_pos) as [Hlt|Hge].
    + replace (start_pos <=? item.2) with false by (symmetry; lia).
      apply IH.
    + replace (start_pos <=? item.2) with true by (symmetry; lia).
      destruct (judge item.1 item.2) as [b|e]; simpl; [|done].
      destruct (select judge start_pos rest) as [r|e]; simpl; [|done].
      intros [= <-]. destruct b; by rewrite (IH r).
Qed.

Lemma select_elem_of items l item :
  select judge start_pos items = Ok l ->
  item ∈ l <->
  item ∈ items /\ start_pos <= item.2 /\ judge item.1 item.2 = Ok true.
Proof.
  intros ->%select_filter.
  rewrite !list_elem_of_In, filter_In, andb_true_iff, Z.leb_le.
  unfold flagged. destruct (judge item.1 item.2) as [[|]|e];
    intuition (discriminate || auto).
Qed.

(** The scan returns when the test decides every unit it reaches. *)
Lemma select_total items :
  Forall (decided judge) (examined start_pos items) ->
  exists l, select judge start_pos items = Ok l.
Proof.
  induction items as [|item rest IH]; simpl; [by eexists|].
  rewrite examined_cons. destruct (item.2 <? start_pos); [apply IH|].
  intros [[b Hb] Hrest]%Forall_cons. rewrite Hb. simpl.
  destruct (IH Hrest) as [l ->]. simpl. by eexists.
Qed.

(** The scan raises what the test raises at the first unit it cannot
    decide. *)
Lemma select_raises pre item post e :
  Forall (decided judge) (examined start_pos pre) ->
  start_pos <= item.2 ->
  judge item.1 item.2 = Err e ->
  select judge start_pos (pre ++ item :: post) = Err e.
Proof.
  intros Hpre Hpos Herr.
  induction pre as [|x pre IH]; simpl.
  - replace (item.2 <? start_pos) with false by (symmetry; lia).
    by rewrite Herr.
  - rewrite examined_cons in Hpre.
    destruct (x.2 <? start_pos); [by apply IH|].
    apply Forall_cons in Hpre as [[b Hb] Hpre]. rewrite Hb. simpl.
    by rewrite (IH Hpre).
Qed.

Lemma select_first_raises pre item post e :
  Forall (fun x => judge x.1 x.2 = Ok false) (examined start_pos pre) ->
  start_pos <= item.2 ->
  judge item.1 item.2 = Err e ->
  select_first judge start_pos (pre ++ item :: post) = Err e.
Proof.
  intros Hpre Hpos Herr.
  induction pre as [|x pre IH]; simpl.
  - replace (item.2 <? start_pos) with false by (symmetry; lia).
    by rewrite Herr.
  - rewrite examined_cons in Hpre.
    destruct (x.2 <? start_pos); [by apply IH|].
    apply Forall_cons in Hpre as [Hb Hpre]. rewrite Hb. simpl.
    by apply IH.
Qed.

Lemma select_nil items :
  examined start_pos items = [] -> select judge start_pos items = Ok [].
Proof.
  induction items as [|item rest IH]; simpl; [done|].
  rewrite examined_cons. by destruct (item.2 <? start_pos).
Qed.

Lemma select_first_nil items :
  examined start_pos items = [] ->
  select_first judge start_pos items = Ok None.
Proof.
  induction items as [|item rest IH]; simpl; [done|].
  rewrite examined_cons. by destruct (item.2 <? start_pos).
Qed.
End SelectFacts.

(** ** The shared shape of [detection] *)

Section DetectionFacts.
Context {P : Type} (seg : segmenter P)
        (judge : semantic_unit P -> Z -> result bool).
Implicit Types (tag_seq : tag_seq_t P) (res : pairs_t P).

Lemma gen_detection_short tag_seq start_pos first :
  len tag_seq <= start_pos ->
  gen_detection seg judge tag_seq start_pos first = Ok [].
Proof.
  intros H. unfold gen_detection.
  by replace (len tag_seq <=? start_pos) with true by (symmetry; lia).
Qed.

Lemma gen_detection_seg_err tag_seq start_pos first e :
  start_pos < len tag_seq ->
  seg tag_seq = Err e ->
  gen_detection seg judge tag_seq start_pos first = Err e.
Proof.
  intros H Hseg. unfold gen_detection.
  replace (len tag_seq <=? start_pos) with false by (symmetry; lia).
  by rewrite Hseg.
Qed.

Lemma gen_detection_all tag_seq start_pos units ptrs :
  start_pos < len tag_seq ->
  seg tag_seq = Ok (units, ptrs) ->
  gen_detection seg judge tag_seq start_pos false =
  select judge start_pos (zip units ptrs).
Proof.
  intros H Hseg. unfold gen_detection.
  replace (len tag_seq <=? start_pos) with false by (symmetry; lia).
  rewrite Hseg. simpl. rewrite for_in_all.
  by destruct (select judge start_pos (zip units ptrs)).
Qed.

Lemma gen_detection_scan tag_seq start_pos units ptrs :
  scans tag_seq start_pos ptrs ->
  seg tag_seq = Ok (units, ptrs) ->
  gen_detection seg judge tag_seq start_pos false =
  select judge start_pos (zip units ptrs).
Proof.
  intros [Hlt|Hrange] Hseg; [by apply gen_detection_all|].
  destruct (Z_le_gt_dec (len tag_seq) start_pos) as [Hle|Hgt];
    [|apply gen_detection_all; [lia|done]].
  rewrite gen_detection_short by done. symmetry. apply select_nil.
  apply examined_none. intros [u p] Hin. simpl.
  apply elem_of_zip_r in Hin. rewrite Forall_forall in Hrange.
  specialize (Hrange p Hin). lia.
Qed.

Lemma gen_detection_first tag_seq start_pos units ptrs :
  start_pos < len tag_seq ->
  seg tag_seq = Ok (units, ptrs) ->
  gen_detection seg judge tag_seq start_pos true =
  o ← select_first judge start_pos (zip units ptrs); Ok (option_list o).
Proof.
  intros H Hseg. unfold gen_detection.
  replace (len tag_seq <=? start_pos) with false by (symmetry; lia).
  rewrite Hseg. simpl. rewrite for_in_first.
  by destruct (select_first judge start_pos (zip units ptrs)) as [[?|]|].
Qed.

(** Either the call short-circuits, or segmentation raises, or the loop
    runs over the zipped segmentation. *)
Lemma gen_detection_cases tag_seq start_pos first :
  (len tag_seq <= start_pos /\
   gen_detection seg judge tag_seq start_pos first = Ok []) \/
  (start_pos < len tag_seq /\ exists e,
   seg tag_seq = Err e /\
   gen_detection seg judge tag_seq start_pos first = Err e) \/
  (start_pos < len tag_seq /\ exists units ptrs,
   seg tag_seq = Ok (units, ptrs) /\
   gen_detection seg judge tag_seq start_pos first =
   if first
   then o ← select_first judge start_pos (zip units ptrs);
        Ok (option_list o)
   else select judge start_pos (zip units ptrs)).
Proof.
  destruct (Z_le_gt_dec (len tag_seq) start_pos) as [Hle|Hgt].
  { left. split; [done|]. by apply gen_detection_short. }
  right. assert (start_pos < len tag_seq) as Hlt by lia.
  destruct (seg tag_seq) as [[units ptrs]|e] eqn:Hseg.
  - right. split; [done|]. exists units, ptrs. split; [done|].
    destruct first;
      [by apply gen_detection_first | by apply gen_detection_all].
  - left. split; [done|]. exists e. split; [done|].
    by apply gen_detection_seg_err.
Qed.

(** With [bool_return_first] the result is the prefix of length one (or
    zero) of the full result. *)
Lemma gen_detection_prefix tag_seq start_pos l :
  gen_detection seg judge tag_seq start_pos false = Ok l ->
  gen_detection seg judge tag_seq start_pos true = Ok (take 1 l).
Proof.
  destruct (gen_detection_cases tag_seq start_pos false)
    as [[Hle ->]|[(Hlt & e & Hseg & ->)|(Hlt & units & ptrs & Hseg & ->)]].
  - intros [= <-]. by apply gen_detection_short.
  - done.
  - intros Hsel. rewrite (gen_detection_first _ _ units ptrs) by done.
    rewrite (select_first_head _ _ _ _ Hsel). simpl.
    by destruct l.
Qed.

Lemma gen_detection_first_err tag_seq start_pos e :
  gen_detection seg judge tag_seq start_pos true = Err e ->
  gen_detection seg judge tag_seq start_pos false = Err e.
Proof.
  destruct (gen_detection_cases tag_seq start_pos true)
    as [[Hle ->]|[(Hlt & e' & Hseg & ->)|(Hlt & units & ptrs & Hseg & ->)]].
  - done.
  - intros [= <-]. by apply gen_detection_seg_err.
  - rewrite (gen_detection_all _ _ units ptrs) by done.
    destruct (select_first judge start_pos (zip units ptrs)) as [o|e']
      eqn:Hsel; simpl; [done|].
    intros [= <-]. by apply select_first_err.
Qed.

(** The result is a subsequence of the units the loop reaches. *)
Lemma gen_detection_sublist tag_seq start_pos first res units ptrs :
  gen_detection seg judge tag_seq start_pos first = Ok res ->
  seg tag_seq = Ok (units, ptrs) ->
  res `sublist_of` examined start_pos (zip units ptrs).
Proof.
  intros Hres Hseg.
  destruct (gen_detection_cases tag_seq start_pos first)
    as [[Hle H]|[(Hlt & e & Hseg' & H)|(Hlt & u & p & Hseg' & H)]];
    rewrite H in Hres; clear H.
  - injection Hres as <-. apply sublist_nil_l.
  - done.
  - rewrite Hseg in Hseg'. injection Hseg' as <- <-.
    destruct first.
    + destruct (select_first judge start_pos (zip units ptrs)) as [o|e]
        eqn:Hsel; simpl in Hres; [|done].
      injection Hres as <-. by eapply select_first_sublist.
    + by eapply select_sublist.
Qed.

Lemma gen_detection_pointers tag_seq start_pos first res :
  gen_detection seg judge tag_seq start_pos first = Ok res ->
  Forall (fun item => start_pos <= item.2) res.
Proof.
  intros Hres.
  destruct (seg tag_seq) as [[units ptrs]|e] eqn:Hseg.
  - apply Forall_forall. intros item Hin.
    pose proof (gen_detection_sublist _ _ _ _ _ _ Hres Hseg) as Hsub.
    pose proof (examined_Forall start_pos (zip units ptrs)) as Hall.
    rewrite Forall_forall in Hall. apply Hall.
    by eapply elem_of_sublist.
  - destruct (gen_detection_cases tag_seq start_pos first)
      as [[Hle H]|[(Hlt & e' & Hseg' & H)|(Hlt & u & p & Hseg' & H)]];
      rewrite H in Hres.
    + by injection Hres as <-.
    + done.
    + by rewrite Hseg in Hseg'.
Qed.

Lemma gen_detection_sorted tag_seq start_pos first res units ptrs :
  gen_detection seg judge tag_seq start_pos first = Ok res ->
  seg tag_seq = Ok (units, ptrs) ->
  Sorted Z.le ptrs ->
  Sorted Z.le res.*2.
Proof.
  intros Hres Hseg Hsorted.
  eapply Sorted_sublist; [|exact Hsorted].
  etrans; [|apply (zip_snd_sublist units ptrs)].
  apply sublist_snd. etrans; [|apply examined_sublist].
  by eapply gen_detection_sublist.
Qed.
End DetectionFacts.

(** ** Each detector has the shared shape *)

Lemma sim_body_shape {P} start_pos first eval_tf
    (item : semantic_unit P * Z) acc :
  ErrorDetectorSim.body start_pos first eval_tf item acc =
  gen_body (judge_sim eval_tf) start_pos first item acc.
Proof.
  destruct item as [u p]. unfold ErrorDetectorSim.body, gen_body, judge_sim.
  simpl. destruct (p <? start_pos); [reflexivity|].
  by destruct (py_getitem_opt eval_tf p) as [[|]|e].
Qed.

Lemma sim_detection_shape {P} (seg : segmenter P) tag_seq start_pos first
    eval_tf :
  ErrorDetectorSim.detection seg tag_seq start_pos first eval_tf =
  gen_detection seg (judge_sim eval_tf) tag_seq start_pos first.
Proof.
  unfold ErrorDetectorSim.detection, gen_detection.
  destruct (len tag_seq <=? start_pos); [reflexivity|].
  destruct (seg tag_seq) as [[units ptrs]|e]; simpl; [|reflexivity].
  by rewrite (for_in_ext _ _ _ _ (sim_body_shape start_pos first eval_tf)).
Qed.

Lemma probability_body_shape self start_pos first
    (item : semantic_unit float * Z) acc :
  ErrorDetectorProbability.body self start_pos first item acc =
  gen_body (judge_probability self) start_pos first item acc.
Proof.
  destruct item as [u p].
  unfold ErrorDetectorProbability.body, gen_body, judge_probability.
  simpl. destruct (p <? start_pos); reflexivity.
Qed.

Lemma probability_detection_shape seg self tag_seq start_pos first :
  ErrorDetectorProbability.detection seg self tag_seq start_pos first =
  gen_detection seg (judge_probability self) tag_seq start_pos first.
Proof.
  unfold ErrorDetectorProbability.detection, gen_detection.
  destruct (len tag_seq <=? start_pos); [reflexivity|].
  destruct (seg tag_seq) as [[units ptrs]|e]; simpl; [|reflexivity].
  by rewrite (for_in_ext _ _ _ _ (probability_body_shape self start_pos first)).
Qed.

Lemma bayes_body_shape std self start_pos first
    (item : semantic_unit (list float) * Z) acc :
  ErrorDetectorBayesDropout.body std self start_pos first item acc =
  gen_body (judge_bayes std self) start_pos first item acc.
Proof.
  destruct item as [u p].
  unfold ErrorDetectorBayesDropout.body, gen_body, judge_bayes.
  simpl. destruct (p <? start_pos); reflexivity.
Qed.

Lemma bayes_detection_shape std seg self tag_seq start_pos first :
  ErrorDetectorBayesDropout.detection std seg self tag_seq start_pos first =
  gen_detection seg (judge_bayes std self) tag_seq start_pos first.
Proof.
  unfold ErrorDetectorBayesDropout.detection, gen_detection.
  destruct (len tag_seq <=? start_pos); [reflexivity|].
  destruct (seg tag_seq) as [[units ptrs]|e]; simpl; [|reflexivity].
  by rewrite (for_in_ext _ _ _ _ (bayes_body_shape std self start_pos first)).
Qed.

Lemma fnn_body_shape self start_pos first
    (item : semantic_unit float * Z) acc :
  ErrorDetectorFNN.body self start_pos first item acc =
  gen_body (judge_fnn self) start_pos first item acc.
Proof.
  destruct item as [u p].
  unfold ErrorDetectorFNN.body, gen_body, judge_fnn.
  simpl. destruct (p <? start_pos); [reflexivity|].
  by destruct (ErrorDetectorFNN.make_input self (su_tag u) (su_prob u)).
Qed.

Lemma fnn_detection_shape seg self tag_seq start_pos first :
  ErrorDetectorFNN.detection seg self tag_seq start_pos first =
  gen_detection seg (judge_fnn self) tag_seq start_pos first.
Proof.
  unfold ErrorDetectorFNN.detection, gen_detection.
  destruct (len tag_seq <=? start_pos); [reflexivity|].
  destruct (seg tag_seq) as [[units ptrs]|e]; simpl; [|reflexivity].
  by rewrite (for_in_ext _ _ _ _ (fnn_body_shape self start_pos first)).
Qed.

(** ** Order of the result (C1) *)

Lemma gen_detection_in_order {P} (seg : segmenter P) judge tag_seq
    start_pos first :
  in_segmentation_order seg tag_seq start_pos
    (gen_detection seg judge tag_seq start_pos first).
Proof.
  intros res Hres. split; [by eapply gen_detection_pointers|]. split.
  - intros units ptrs Hseg. etrans; [|apply examined_sublist].
    by eapply gen_detection_sublist.
  - intros Hord.
    destruct (seg tag_seq) as [[units ptrs]|e] eqn:Hseg.
    + eapply gen_detection_sorted; [done..|]. by eapply Hord.
    + destruct (gen_detection_cases seg judge tag_seq start_pos first)
        as [[Hle H]|[(Hlt & e' & Hseg' & H)|(Hlt & u & p & Hseg' & H)]];
        rewrite H in Hres.
      * injection Hres as <-. constructor.
      * done.
      * by rewrite Hseg in Hseg'.
Qed.

(** C1. For each of the four detectors, every decision sequence and every
    [start_pos]: the pairs a call of [detection] returns have a pointer at
    or after [start_pos], they are a subsequence of the zipped result of
    the segmentation (its order is kept), and their pointers never
    decrease when those of the segmentation do not. *)
Theorem C1_pointers_in_segmentation_order :
  (forall P (seg : segmenter P) tag_seq start_pos first eval_tf,
     in_segmentation_order seg tag_seq start_pos
       (ErrorDetectorSim.detection seg tag_seq start_pos first eval_tf)) /\
  (forall seg self tag_seq start_pos first,
     in_segmentation_order seg tag_seq start_pos
       (ErrorDetectorProbability.detection seg self tag_seq start_pos first))
  /\
  (forall std seg self tag_seq start_pos first,
     in_segmentation_order seg tag_seq start_pos
       (ErrorDetectorBayesDropout.detection std seg self tag_seq start_pos
          first)) /\
  (forall seg self tag_seq start_pos first,
     in_segmentation_order seg tag_seq start_pos
       (ErrorDetectorFNN.detection seg self tag_seq start_pos first)).
Proof.
  split; [|split; [|split]]; intros.
  - rewrite sim_detection_shape. apply gen_detection_in_order.
  - rewrite probability_detection_shape. apply gen_detection_in_order.
  - rewrite bayes_detection_shape. apply gen_detection_in_order.
  - rewrite fnn_detection_shape. apply gen_detection_in_order.
Qed.

Lemma enumerate_segment_ordered {P} (tag_seq : tag_seq_t P) :
  ordered_segmentation enumerate_segment tag_seq.
Proof.
  intros units ptrs [= _ <-].
  apply StronglySorted_Sorted.
  generalize 0%nat. induction (length tag_seq) as [|n IH]; intros k; simpl.
  - constructor.
  - constructor; [apply IH|]. apply Forall_forall. intros z Hz.
    apply list_elem_of_fmap in Hz as (i & -> & Hi).
    apply elem_of_seq in Hi. lia.
Qed.

Lemma C1_witness :
  Forall (fun item : semantic_unit float * Z => 1 <= item.2)
    (drop 1 (zip example_units [0; 1; 2])) /\
  Sorted Z.le [1; 2].
Proof.
  pose proof (proj1 (proj2 C1_pointers_in_segmentation_order)
    enumerate_segment (ErrorDetectorProbability.init 1%float)
    example_units 1 false _ eq_refl) as (Hptr & _ & Hsorted).
  split; [exact Hptr|]. apply Hsorted, enumerate_segment_ordered.
Defined.

(** ** The short-circuit (C6) *)

Lemma gen_detection_short_circuits {P} (seg : segmenter P) judge :
  short_circuits seg (gen_detection seg judge).
Proof.
  split; [|split].
  - intros. by apply gen_detection_short.
  - intros. by apply gen_detection_short.
  - intros start_pos first units ptrs Hseg Hzip.
    destruct (gen_detection_cases seg judge [] start_pos first)
      as [[Hle ->]|[(Hlt & e & Hseg' & ->)|(Hlt & u & p & Hseg' & ->)]].
    + done.
    + by rewrite Hseg in Hseg'.
    + rewrite Hseg in Hseg'. injection Hseg' as <- <-. rewrite Hzip.
      by destruct first.
Qed.

(** C6. For each of the four detectors: when [start_pos >= len(tag_seq)]
    the call returns the empty list, whatever the segmentation would do
    (also when it would raise: it is not run); in particular a call on the
    empty sequence returns the empty list, for every [start_pos] that is
    not negative, and for a negative one when the segmentation finds no
    unit in the empty sequence. *)
Theorem C6_short_circuit :
  (forall P (seg : segmenter P) eval_tf,
     short_circuits seg
       (fun tag_seq start_pos first =>
          ErrorDetectorSim.detection seg tag_seq start_pos first eval_tf)) /\
  (forall seg self,
     short_circuits seg (ErrorDetectorProbability.detection seg self)) /\
  (forall std seg self,
     short_circuits seg (ErrorDetectorBayesDropout.detection std seg self))
  /\
  (forall seg self,
     short_circuits seg (ErrorDetectorFNN.detection seg self)).
Proof.
  split; [|split; [|split]]; intros.
  - pose proof (gen_detection_short_circuits seg (judge_sim eval_tf)) as H.
    unfold short_circuits in *.
    by setoid_rewrite sim_detection_shape.
  - pose proof (gen_detection_short_circuits seg (judge_probability self))
      as H.
    unfold short_circuits in *.
    by setoid_rewrite probability_detection_shape.
  - pose proof (gen_detection_short_circuits seg (judge_bayes std self))
      as H.
    unfold short_circuits in *.
    by setoid_rewrite bayes_detection_shape.
  - pose proof (gen_detection_short_circuits seg (judge_fnn self)) as H.
    unfold short_circuits in *.
    by setoid_rewrite fnn_detection_shape.
Qed.

(** A segmentation that always raises. *)
Lemma C6_witness :
  ErrorDetectorFNN.detection (fun _ => Err (Raised "segmentation"))
    (ErrorDetectorFNN.init example_indexer example_model)
    example_units 3 false = Ok [] /\
  ErrorDetectorSim.detection (fun _ => Err (Raised "segmentation"))
    (@nil (semantic_unit float)) 0 true None = Ok [] /\
  ErrorDetectorProbability.detection enumerate_segment
    (ErrorDetectorProbability.init 0.5%float) [] (-1) false = Ok [].
Proof.
  split; [|split].
  - apply (proj1 (proj2 (proj2 (proj2 C6_short_circuit)) _ _)).
    vm_compute. discriminate.
  - apply (proj1 (proj2 (proj1 C6_short_circuit float _ None))). lia.
  - apply (proj2 (proj2 (proj1 (proj2 C6_short_circuit) enumerate_segment _))
      (-1) false [] []); reflexivity.
Defined.

(** ** First match only (C7) *)

Lemma select_err_first {P} (judge : semantic_unit P -> Z -> result bool)
    start_pos items e :
  select judge start_pos items = Err e ->
  select_first judge start_pos items = Err e \/
  exists item, select_first judge start_pos items = Ok (Some item).
Proof.
  induction items as [|item rest IH]; simpl; [done|].
  destruct (item.2 <? start_pos); [apply IH|].
  destruct (judge item.1 item.2) as [[|]|e']; simpl.
  - intros _. right. by exists item.
  - destruct (select judge start_pos rest) as [r|e'] eqn:Hrest; simpl;
      [done|].
    intros [= <-]. by apply IH.
  - intros [= <-]. by left.
Qed.

Lemma gen_detection_full_err {P} (seg : segmenter P) judge tag_seq
    start_pos e :
  gen_detection seg judge tag_seq start_pos false = Err e ->
  gen_detection seg judge tag_seq start_pos true = Err e \/
  exists item, gen_detection seg judge tag_seq start_pos true = Ok [item].
Proof.
  destruct (gen_detection_cases seg judge tag_seq start_pos false)
    as [[Hle ->]|[(Hlt & e' & Hseg & ->)|(Hlt & units & ptrs & Hseg & ->)]].
  - done.
  - intros [= <-]. left. by apply gen_detection_seg_err.
  - intros Hsel. rewrite (gen_detection_first _ _ _ _ units ptrs) by done.
    destruct (select_err_first _ _ _ _ Hsel) as [->|[item ->]]; simpl.
    + by left.
    + right. by exists item.
Qed.

Lemma gen_detection_first_of {P} (seg : segmenter P) judge tag_seq
    start_pos :
  first_of (gen_detection seg judge tag_seq start_pos true)
           (gen_detection seg judge tag_seq start_pos false).
Proof.
  split; [|split].
  - intros l Hl. split; [by apply gen_detection_prefix|].
    by destruct l.
  - intros e. apply gen_detection_first_err.
  - intros e. apply gen_detection_full_err.
Qed.

(** C7. For each of the four detectors and every input: when the call
    without [bool_return_first] returns [l], the call with it returns the
    prefix of [l] of length at most one, which is empty exactly when [l]
    is; when the call with [bool_return_first] raises, so does the other,
    with the same exception; and when the call without it raises, the call
    with it raises the same exception or returns a list of one pair. *)
Theorem C7_first_only_is_prefix :
  (forall P (seg : segmenter P) tag_seq start_pos eval_tf,
     first_of
       (ErrorDetectorSim.detection seg tag_seq start_pos true eval_tf)
       (ErrorDetectorSim.detection seg tag_seq start_pos false eval_tf)) /\
  (forall seg self tag_seq start_pos,
     first_of
       (ErrorDetectorProbability.detection seg self tag_seq start_pos true)
       (ErrorDetectorProbability.detection seg self tag_seq start_pos false))
  /\
  (forall std seg self tag_seq start_pos,
     first_of
       (ErrorDetectorBayesDropout.detection std seg self tag_seq start_pos
          true)
       (ErrorDetectorBayesDropout.detection std seg self tag_seq start_pos
          false)) /\
  (forall seg self tag_seq start_pos,
     first_of
       (ErrorDetectorFNN.detection seg self tag_seq start_pos true)
       (ErrorDetectorFNN.detection seg self tag_seq start_pos false)).
Proof.
  split; [|split; [|split]]; intros.
  - rewrite !sim_detection_shape. apply gen_detection_first_of.
  - rewrite !probability_detection_shape. apply gen_detection_first_of.
  - rewrite !bayes_detection_shape. apply gen_detection_first_of.
  - rewrite !fnn_detection_shape. apply gen_detection_first_of.
Qed.

Lemma C7_witness :
  ErrorDetectorProbability.detection enumerate_segment
    (ErrorDetectorProbability.init 1%float) example_units 0 true =
  Ok (take 1 (zip example_units [0; 1; 2])).
Proof.
  apply (proj1 (proj1 (proj2 C7_first_only_is_prefix) enumerate_segment
    (ErrorDetectorProbability.init 1%float) example_units 0) _ eq_refl).
Defined.

(** The call with [bool_return_first] can return a pair where the call
    without it raises: it leaves the loop at the first unit it flags, and
    the other goes on to a unit whose tag the indexer does not know (or
    whose pointer is not an index of the ground truth).  There the full
    call has no result of which the pair could be a prefix. *)
Lemma C7_counterexample :
  ErrorDetectorFNN.detection enumerate_segment
    (ErrorDetectorFNN.init example_partial_indexer example_model)
    example_units 0 true =
  Ok [(SemanticUnit "WHERE_COL"
         [FTuple [FStr "flight"; FStr "stops"; FInt 7]] 0.4%float (Some 1),
       1)] /\
  ErrorDetectorFNN.detection enumerate_segment
    (ErrorDetectorFNN.init example_partial_indexer example_model)
    example_units 0 false = Err (KeyError "WHERE_OP") /\
  ErrorDetectorSim.detection enumerate_segment example_units 0 true
    (Some [true; false]) =
  Ok [(SemanticUnit "WHERE_COL"
         [FTuple [FStr "flight"; FStr "stops"; FInt 7]] 0.4%float (Some 1),
       1)] /\
  ErrorDetectorSim.detection enumerate_segment example_units 0 false
    (Some [true; false]) = Err IndexError /\
  ~ (forall (seg : segmenter float) self tag_seq start_pos,
       exists l,
         ErrorDetectorFNN.detection seg self tag_seq start_pos false = Ok l
         /\
         ErrorDetectorFNN.detection seg self tag_seq start_pos true =
         Ok (take 1 l)) /\
  ~ (forall (seg : segmenter float) tag_seq start_pos eval_tf,
       exists l,
         ErrorDetectorSim.detection seg tag_seq start_pos false eval_tf =
         Ok l /\
         ErrorDetectorSim.detection seg tag_seq start_pos true eval_tf =
         Ok (take 1 l)).
Proof.
  assert (ErrorDetectorFNN.detection enumerate_segment
            (ErrorDetectorFNN.init example_partial_indexer example_model)
            example_units 0 false = Err (KeyError "WHERE_OP")) as Hfnn.
  { vm_compute. reflexivity. }
  assert (ErrorDetectorSim.detection enumerate_segment example_units 0 false
            (Some [true; false]) = Err IndexError) as Hsim.
  { vm_compute. reflexivity. }
  split; [vm_compute; reflexivity|]. split; [exact Hfnn|].
  split; [vm_compute; reflexivity|]. split; [exact Hsim|]. split.
  - intros Hall.
    destruct (Hall enumerate_segment
      (ErrorDetectorFNN.init example_partial_indexer example_model)
      example_units 0) as (l & Hfull & _).
    rewrite Hfnn in Hfull. discriminate Hfull.
  - intros Hall.
    destruct (Hall enumerate_segment example_units 0 (Some [true; false]))
      as (l & Hfull & _).
    rewrite Hsim in Hfull. discriminate Hfull.
Qed.

(** ** The ground truth is read only for a unit the loop reaches (C10) *)

Section NoGroundTruth.
Context {P : Type} (start_pos : Z).
Implicit Types (items : pairs_t P).

(** Without a ground truth the loop raises at the first unit it
    reaches. *)
Lemma select_no_eval_tf items :
  examined start_pos items <> [] ->
  select (judge_sim None) start_pos items = Err TypeError.
Proof.
  induction items as [|item rest IH]; simpl; [done|].
  rewrite examined_cons. by destruct (item.2 <? start_pos).
Qed.

Lemma select_first_no_eval_tf items :
  examined start_pos items <> [] ->
  select_first (judge_sim None) start_pos items = Err TypeError.
Proof.
  induction items as [|item rest IH]; simpl; [done|].
  rewrite examined_cons. by destruct (item.2 <? start_pos).
Qed.
End NoGroundTruth.

(** C10. For the simulated detector: when [start_pos >= len(tag_seq)] the
    call returns the empty list also when [eval_tf] is [None]; more
    generally, when no unit of the zipped segmentation has a pointer at or
    after [start_pos], the call returns the empty list for every
    [eval_tf], [None] included; when [eval_tf] is [None] and the call
    raises [TypeError], some unit of the zipped segmentation has a pointer
    at or after [start_pos]; and a call that reaches the loop does raise
    [TypeError] then, when [eval_tf] is [None]. *)
Theorem C10_eval_tf_not_read :
  forall P (seg : segmenter P) tag_seq start_pos first,
    (len tag_seq <= start_pos ->
     ErrorDetectorSim.detection seg tag_seq start_pos first None = Ok []) /\
    (forall units ptrs eval_tf,
       seg tag_seq = Ok (units, ptrs) ->
       examined start_pos (zip units ptrs) = [] ->
       ErrorDetectorSim.detection seg tag_seq start_pos first eval_tf =
       Ok []) /\
    (forall units ptrs,
       seg tag_seq = Ok (units, ptrs) ->
       ErrorDetectorSim.detection seg tag_seq start_pos first None =
       Err TypeError ->
       exists unit pointer,
         (unit, pointer) ∈ zip units ptrs /\ start_pos <= pointer) /\
    (forall units ptrs unit pointer,
       start_pos < len tag_seq ->
       seg tag_seq = Ok (units, ptrs) ->
       (unit, pointer) ∈ zip units ptrs -> start_pos <= pointer ->
       ErrorDetectorSim.detection seg tag_seq start_pos first None =
       Err TypeError).
Proof.
  intros P seg tag_seq start_pos first. split; [|split; [|split]].
  - intros Hle. rewrite sim_detection_shape. by apply gen_detection_short.
  - intros units ptrs eval_tf Hseg Hnone. rewrite sim_detection_shape.
    destruct (gen_detection_cases seg (judge_sim eval_tf) tag_seq start_pos
      first) as [[Hle ->]|[(Hlt & e & Hseg' & ->)|(Hlt & u & p & Hseg' & ->)]].
    + done.
    + by rewrite Hseg in Hseg'.
    + rewrite Hseg in Hseg'. injection Hseg' as <- <-.
      destruct first.
      * by rewrite select_first_nil.
      * by rewrite select_nil.
  - intros units ptrs Hseg Herr.
    destruct (examined start_pos (zip units ptrs)) as [|[u p] rest] eqn:Hex.
    + rewrite sim_detection_shape in Herr.
      destruct (gen_detection_cases seg (judge_sim (P:=P) None) tag_seq
        start_pos first)
        as [[Hle H]|[(Hlt & e & Hseg' & H)|(Hlt & us & ps & Hseg' & H)]];
        rewrite H in Herr; clear H.
      * done.
      * by rewrite Hseg in Hseg'.
      * rewrite Hseg in Hseg'. injection Hseg' as <- <-.
        destruct first.
        -- by rewrite select_first_nil in Herr.
        -- by rewrite select_nil in Herr.
    + exists u, p.
      assert ((u, p) ∈ examined start_pos (zip units ptrs)) as Hin
        by (rewrite Hex; left).
      by apply list_elem_of_filter in Hin as [? ?].
  - intros units ptrs unit pointer Hlt Hseg Hin Hpos.
    assert (examined start_pos (zip units ptrs) <> []) as Hne.
    { intros Hnil.
      assert ((unit, pointer) ∈ examined start_pos (zip units ptrs)) as Hex
        by (by apply list_elem_of_filter).
      rewrite Hnil in Hex. by apply elem_of_nil in Hex. }
    rewrite sim_detection_shape. destruct first.
    + rewrite (gen_detection_first _ _ _ _ units ptrs) by done.
      by rewrite select_first_no_eval_tf.
    + rewrite (gen_detection_all _ _ _ _ units ptrs) by done.
      by rewrite select_no_eval_tf.
Qed.

Lemma C10_witness :
  ErrorDetectorSim.detection enumerate_segment example_units 3 false None =
  Ok [] /\
  ErrorDetectorSim.detection enumerate_segment example_units (-1) false None
  = Err TypeError.
Proof.
  split.
  - apply (proj1 (C10_eval_tf_not_read float enumerate_segment example_units
      3 false)). vm_compute. discriminate.
  - reflexivity.
Defined.

Lemma filter_none {A} (f : A -> bool) (l : list A) :
  (forall x, x ∈ l -> f x = false) -> List.filter f l = [].
Proof.
  induction l as [|a l IH]; intros H; simpl; [done|].
  rewrite (H a) by left. apply IH. intros x Hx. apply H. by right.
Qed.

(** ** Comparisons of floats *)

Lemma SFcompare_refl (x : spec_float) :
  SFcompare x x = Some Eq \/ SFcompare x x = None.
Proof.
  destruct x as [s|s| |s m e]; simpl; auto.
  - destruct s; auto.
  - rewrite Z.compare_refl, Pos.compare_refl. destruct s; auto.
Qed.

(** [x < x] is false, also for a NaN. *)
Lemma float_ltb_irrefl (x : float) : PrimFloat.ltb x x = false.
Proof.
  rewrite ltb_spec. unfold SFltb.
  by destruct (SFcompare_refl (Prim2SF x)) as [-> | ->].
Qed.

(** [0 <= x] excludes [x < 0]. *)
Lemma float_nonneg_not_ltb (x : float) :
  PrimFloat.leb 0%float x = true -> PrimFloat.ltb x 0%float = false.
Proof.
  rewrite leb_spec, ltb_spec. unfold SFleb, SFltb.
  change (Prim2SF 0%float) with (S754_zero false).
  destruct (Prim2SF x) as [s|s| |s m e]; simpl; try done.
  all: by destruct s.
Qed.

(** ** The probability threshold (C2) *)

Section ProbabilityFacts.
Context (seg : segmenter float) (threshold : float).
Let self := ErrorDetectorProbability.init threshold.

Lemma probability_decided items :
  Forall (decided (judge_probability self)) items.
Proof. apply Forall_forall. intros item _. by eexists. Qed.

(** The full result: the units at or after [start_pos] whose probability
    is below the threshold. *)
Lemma probability_detection_all tag_seq start_pos units ptrs :
  scans tag_seq start_pos ptrs ->
  seg tag_seq = Ok (units, ptrs) ->
  ErrorDetectorProbability.detection seg self tag_seq start_pos false =
  Ok (List.filter
        (fun item => (start_pos <=? item.2) &&
                     PrimFloat.ltb (su_prob item.1) threshold)
        (zip units ptrs)).
Proof.
  intros Hlt Hseg. rewrite probability_detection_shape.
  rewrite (gen_detection_scan _ _ _ _ units ptrs) by done.
  destruct (select_total (judge_probability self) start_pos
    (zip units ptrs) (probability_decided _)) as [l Hl].
  rewrite Hl. f_equal. rewrite (select_filter _ _ _ _ Hl).
  apply filter_ext. intros item. unfold flagged, judge_probability. simpl.
  by destruct (PrimFloat.ltb _ _).
Qed.
End ProbabilityFacts.

(** C2. For the probability detector with threshold [threshold], on a call
    that reaches the loop (or with pointers that are positions in the
    sequence): the full result holds exactly the units of the
    zipped segmentation with a pointer at or after [start_pos] and a
    probability strictly below the threshold.  With threshold 0 no unit is
    flagged when the probabilities are at least 0.  With three units of
    probabilities 0.9, 0.4 and 0.6 at or after [start_pos] and threshold
    0.5, the result is the second unit alone. *)
Theorem C2_probability_threshold :
  forall (seg : segmenter float) tag_seq start_pos units ptrs,
    scans tag_seq start_pos ptrs ->
    seg tag_seq = Ok (units, ptrs) ->
    (forall threshold, exists res,
       ErrorDetectorProbability.detection seg
         (ErrorDetectorProbability.init threshold) tag_seq start_pos false =
       Ok res /\
       forall unit pointer,
         (unit, pointer) ∈ res <->
         (unit, pointer) ∈ zip units ptrs /\ start_pos <= pointer /\
         PrimFloat.ltb (su_prob unit) threshold = true) /\
    (forall first,
       Forall (fun unit => PrimFloat.leb 0%float (su_prob unit) = true) units
       ->
       ErrorDetectorProbability.detection seg
         (ErrorDetectorProbability.init 0%float) tag_seq start_pos first =
       Ok []) /\
    (forall u0 u1 u2 p0 p1 p2,
       units = [u0; u1; u2] -> ptrs = [p0; p1; p2] ->
       su_prob u0 = 0.9%float -> su_prob u1 = 0.4%float ->
       su_prob u2 = 0.6%float ->
       start_pos <= p0 -> start_pos <= p1 -> start_pos <= p2 ->
       ErrorDetectorProbability.detection seg
         (ErrorDetectorProbability.init 0.5%float) tag_seq start_pos false =
       Ok [(u1, p1)]).
Proof.
  intros seg tag_seq start_pos units ptrs Hlt Hseg. split; [|split].
  - intros threshold. eexists. split.
    { by apply probability_detection_all. }
    intros unit pointer.
    rewrite !list_elem_of_In, filter_In, andb_true_iff, Z.leb_le.
    simpl. tauto.
  - intros first Hall.
    assert (ErrorDetectorProbability.detection seg
      (ErrorDetectorProbability.init 0%float) tag_seq start_pos false = Ok [])
      as Hfull.
    { rewrite (probability_detection_all _ _ _ _ units ptrs) by done.
      f_equal. apply filter_none. intros [u p] Hin. simpl.
      apply elem_of_zip_l in Hin. rewrite Forall_forall in Hall.
      rewrite (float_nonneg_not_ltb _ (Hall u Hin)). apply andb_false_r. }
    destruct first; [|done].
    rewrite probability_detection_shape in *.
    by rewrite (gen_detection_prefix _ _ _ _ _ Hfull).
  - intros u0 u1 u2 p0 p1 p2 -> -> H0 H1 H2 Hp0 Hp1 Hp2.
    rewrite (probability_detection_all _ _ _ _ [u0; u1; u2] [p0; p1; p2])
      by done.
    simpl. rewrite H0, H1, H2.
    by rewrite !(proj2 (Z.leb_le _ _)) by done.
Qed.

Lemma C2_witness :
  ErrorDetectorProbability.detection enumerate_segment
    (ErrorDetectorProbability.init 0.5%float) example_units 0 false =
  Ok [(SemanticUnit "WHERE_COL"
         [FTuple [FStr "flight"; FStr "stops"; FInt 7]] 0.4%float (Some 1),
       1)].
Proof.
  apply (proj2 (proj2 (C2_probability_threshold enumerate_segment
    example_units 0 example_units [0; 1; 2] (or_introl eq_refl) eq_refl))
    _ _ _ 0 1 2 eq_refl eq_refl eq_refl eq_refl eq_refl);
    vm_compute; discriminate.
Defined.

(** ** The standard deviation threshold (C3) *)

Section BayesDropoutFacts.
Context (std : list float -> float) (seg : segmenter (list float))
        (threshold : float).
Let self := ErrorDetectorBayesDropout.init threshold.

Lemma bayes_decided items : Forall (decided (judge_bayes std self)) items.
Proof. apply Forall_forall. intros item _. by eexists. Qed.

(** The full result: the units at or after [start_pos] whose samples
    have a standard deviation above the threshold. *)
Lemma bayes_detection_all tag_seq start_pos units ptrs :
  scans tag_seq start_pos ptrs ->
  seg tag_seq = Ok (units, ptrs) ->
  ErrorDetectorBayesDropout.detection std seg self tag_seq start_pos false
  = Ok (List.filter
          (fun item => (start_pos <=? item.2) &&
                       PrimFloat.ltb threshold (std (su_prob item.1)))
          (zip units ptrs)).
Proof.
  intros Hlt Hseg. rewrite bayes_detection_shape.
  rewrite (gen_detection_scan _ _ _ _ units ptrs) by done.
  destruct (select_total (judge_bayes std self) start_pos
    (zip units ptrs) (bayes_decided _)) as [l Hl].
  rewrite Hl. f_equal. rewrite (select_filter _ _ _ _ Hl).
  apply filter_ext. intros item. unfold flagged, judge_bayes. simpl.
  by destruct (PrimFloat.ltb _ _).
Qed.
End BayesDropoutFacts.

(** C3. For the dropout detector with threshold [threshold], whatever
    function [std] computes the standard deviation, on a call that reaches
    the loop (or with pointers that are positions in the sequence): the
    full result holds exactly the units of the zipped
    segmentation with a pointer at or after [start_pos] whose samples have
    a standard deviation strictly above the threshold; a unit whose
    standard deviation is the threshold is not in it.  With numpy's
    standard deviation, two units of samples [0.1, 0.1, 0.1] and
    [0.9, 0.1, 0.5] at or after [start_pos] and threshold 0.1, the result
    is the second unit alone. *)
Theorem C3_stddev_threshold :
  forall (seg : segmenter (list float)) tag_seq start_pos units ptrs,
    scans tag_seq start_pos ptrs ->
    seg tag_seq = Ok (units, ptrs) ->
    (forall std threshold, exists res,
       ErrorDetectorBayesDropout.detection std seg
         (ErrorDetectorBayesDropout.init threshold) tag_seq start_pos false =
       Ok res /\
       (forall unit pointer,
          (unit, pointer) ∈ res <->
          (unit, pointer) ∈ zip units ptrs /\ start_pos <= pointer /\
          PrimFloat.ltb threshold (std (su_prob unit)) = true) /\
       (forall unit pointer,
          std (su_prob unit) = threshold -> (unit, pointer) ∉ res)) /\
    (forall u0 u1 p0 p1,
       units = [u0; u1] -> ptrs = [p0; p1] ->
       su_prob u0 = [0.1; 0.1; 0.1]%float ->
       su_prob u1 = [0.9; 0.1; 0.5]%float ->
       start_pos <= p0 -> start_pos <= p1 ->
       ErrorDetectorBayesDropout.detection np_std seg
         (ErrorDetectorBayesDropout.init 0.1%float) tag_seq start_pos false =
       Ok [(u1, p1)]).
Proof.
  intros seg tag_seq start_pos units ptrs Hlt Hseg. split.
  - intros std threshold. eexists. split; [|split].
    + by apply bayes_detection_all.
    + intros unit pointer.
      rewrite !list_elem_of_In, filter_In, andb_true_iff, Z.leb_le.
      simpl. tauto.
    + intros unit pointer Heq.
      rewrite list_elem_of_In, filter_In, andb_true_iff. simpl.
      rewrite Heq, float_ltb_irrefl. intros (_ & _ & ?). done.
  - intros u0 u1 p0 p1 -> -> H0 H1 Hp0 Hp1.
    rewrite (bayes_detection_all _ _ _ _ _ [u0; u1] [p0; p1]) by done.
    simpl. rewrite H0, H1.
    by rewrite !(proj2 (Z.leb_le _ _)) by done.
Qed.

Lemma C3_witness :
  ErrorDetectorBayesDropout.detection np_std enumerate_segment
    (ErrorDetectorBayesDropout.init 0.1%float) example_samples 0 false =
  Ok [(SemanticUnit "WHERE_COL" [FStr "stops"] [0.9; 0.1; 0.5]%float (Some 1),
       1)].
Proof.
  apply (proj2 (C3_stddev_threshold enumerate_segment
    example_samples 0 example_samples [0; 1] (or_introl eq_refl) eq_refl)
    _ _ 0 1 eq_refl eq_refl eq_refl eq_refl);
    vm_compute; discriminate.
Defined.

(** ** The ground truth (C5) *)

Section SimFacts.
Context {P : Type} (seg : segmenter P) (eval_tf : list bool).

(** The full result, when [eval_tf] can be read at every pointer the
    loop reaches: the units at or after [start_pos] whose entry of
    [eval_tf] is false. *)
Lemma sim_detection_all tag_seq start_pos units ptrs :
  scans tag_seq start_pos ptrs ->
  seg tag_seq = Ok (units, ptrs) ->
  Forall (fun item => exists b, py_getitem eval_tf item.2 = Ok b)
    (examined start_pos (zip units ptrs)) ->
  ErrorDetectorSim.detection seg tag_seq start_pos false (Some eval_tf) =
  Ok (List.filter
        (fun item => (start_pos <=? item.2) &&
           match py_getitem eval_tf item.2 with
           | Ok b => negb b
           | Err _ => false
           end)
        (zip units ptrs)).
Proof.
  intros Hlt Hseg Hread. rewrite sim_detection_shape.
  rewrite (gen_detection_scan _ _ _ _ units ptrs) by done.
  destruct (select_total (judge_sim (Some eval_tf)) start_pos
    (zip units ptrs)) as [l Hl].
  { eapply Forall_impl; [exact Hread|]. intros item [b Hb].
    exists (negb b). unfold judge_sim. simpl. by rewrite Hb. }
  rewrite Hl. f_equal. rewrite (select_filter _ _ _ _ Hl).
  apply filter_ext. intros item. unfold flagged, judge_sim. simpl.
  by destruct (py_getitem eval_tf item.2) as [[|]|].
Qed.
End SimFacts.

(** C5. For the simulated detector given the list [eval_tf], on a call
    that reaches the loop (or with pointers that are positions in the
    sequence) and can read [eval_tf] at every pointer it reaches: the full
    result holds exactly the units of the zipped
    segmentation with a pointer at or after [start_pos] whose entry
    [eval_tf[pointer]] is false, whatever the type and the value of their
    probability field.  With [eval_tf = [True, False, True]] and three
    units at the pointers 0, 1 and 2, the result is the second unit
    alone. *)
Theorem C5_ground_truth :
  forall P (seg : segmenter P) tag_seq start_pos units ptrs,
    scans tag_seq start_pos ptrs ->
    seg tag_seq = Ok (units, ptrs) ->
    (forall eval_tf,
       Forall (fun item => exists b, py_getitem eval_tf item.2 = Ok b)
         (examined start_pos (zip units ptrs)) ->
       exists res,
         ErrorDetectorSim.detection seg tag_seq start_pos false (Some eval_tf)
         = Ok res /\
         forall unit pointer,
           (unit, pointer) ∈ res <->
           (unit, pointer) ∈ zip units ptrs /\ start_pos <= pointer /\
           py_getitem eval_tf pointer = Ok false) /\
    (forall u0 u1 u2,
       units = [u0; u1; u2] -> ptrs = [0; 1; 2] -> start_pos <= 0 ->
       ErrorDetectorSim.detection seg tag_seq start_pos false
         (Some [true; false; true]) = Ok [(u1, 1)]).
Proof.
  intros P seg tag_seq start_pos units ptrs Hlt Hseg. split.
  - intros eval_tf Hread. eexists. split.
    { by apply sim_detection_all. }
    intros unit pointer.
    rewrite !list_elem_of_In, filter_In, andb_true_iff, Z.leb_le. simpl.
    destruct (py_getitem eval_tf pointer) as [[|]|]; simpl;
      intuition (discriminate || auto).
  - intros u0 u1 u2 -> -> Hpos.
    rewrite (sim_detection_all _ _ _ _ [u0; u1; u2] [0; 1; 2]); [|done..|].
    + simpl. by rewrite !(proj2 (Z.leb_le _ _)) by lia.
    + apply Forall_forall. intros [u p] Hin.
      apply list_elem_of_filter in Hin as [_ Hin]. simpl.
      repeat (apply elem_of_cons in Hin as [[= -> ->]|Hin]; [by eexists|]).
      by apply elem_of_nil in Hin.
Qed.

Lemma C5_witness :
  ErrorDetectorSim.detection enumerate_segment example_units 0 false
    (Some [true; false; true]) =
  Ok [(SemanticUnit "WHERE_COL"
         [FTuple [FStr "flight"; FStr "stops"; FInt 7]] 0.4%float (Some 1),
       1)].
Proof.
  apply (proj2 (C5_ground_truth float enumerate_segment example_units 0
    example_units [0; 1; 2] (or_introl eq_refl) eq_refl)
    _ _ _ eq_refl eq_refl).
  vm_compute. discriminate.
Defined.

(** ** The input of the classifier (C4) *)

Lemma elem_of_nonzero_slots (x : list float) (i : nat) :
  i ∈ nonzero_slots x <->
  exists v, x !! i = Some v /\ PrimFloat.eqb v 0%float = false.
Proof.
  unfold nonzero_slots. rewrite list_elem_of_In, filter_In, in_seq.
  split.
  - intros [_ H]. destruct (x !! i) as [v|]; [|done].
    exists v. split; [done|]. by apply negb_true_iff.
  - intros (v & Hv & Hnz). split.
    + apply lookup_lt_Some in Hv. lia.
    + rewrite Hv. by apply negb_true_iff.
Qed.

(** A comparison of integers, or a conjunction of two, holds. *)
Ltac test_true :=
  symmetry; rewrite ?andb_true_iff, ?Z.leb_le, ?Z.ltb_lt; lia.

Lemma np_setitem_column x i v :
  np_setitem x i v =
  let j := column (len x) i in
  if (0 <=? j) && (j <? len x) then Ok (<[Z.to_nat j := v]> x)
  else Err IndexError.
Proof. reflexivity. Qed.

Lemma np_setitem_last x v (k : nat) :
  length x = S k -> np_setitem x (-1) v = Ok (<[k := v]> x).
Proof.
  intros Hlen. unfold np_setitem, len. rewrite Hlen.
  replace (-1 <? 0) with true by done.
  replace ((0 <=? Z.of_nat (S k) + -1) && (Z.of_nat (S k) + -1 <? Z.of_nat (S k)))
    with true by test_true.
  by replace (Z.to_nat (Z.of_nat (S k) + -1)) with k by lia.
Qed.

Section MakeInput.
Context (mi_indexer : gmap string Z) (mi_model : list float -> float).
Let self := ErrorDetectorFNN.init mi_indexer mi_model.
Let n := size mi_indexer.

Lemma make_input_unknown tag_name prob :
  mi_indexer !! tag_name = None ->
  ErrorDetectorFNN.make_input self tag_name prob = Err (KeyError tag_name).
Proof.
  intros H. unfold ErrorDetectorFNN.make_input, dict_getitem. simpl.
  by rewrite H.
Qed.

(** The row for a known tag: zeros, then the probability in the last
    column, then 1 in the column of the tag. *)
Lemma make_input_known tag_name prob col_idx :
  mi_indexer !! tag_name = Some col_idx ->
  ErrorDetectorFNN.make_input self tag_name prob =
  let j := column (Z.of_nat n + 1) col_idx in
  if (0 <=? j) && (j <? Z.of_nat n + 1)
  then Ok (<[Z.to_nat j := 1%float]>
             (<[n := prob]> (replicate (S n) 0%float)))
  else Err IndexError.
Proof.
  intros H. unfold ErrorDetectorFNN.make_input, dict_getitem.
  unfold self at 2. unfold ErrorDetectorFNN.init at 1.
  unfold ErrorDetectorFNN.indexer at 1. rewrite H.
  unfold mbind at 1, result_bind at 1.
  unfold self, ErrorDetectorFNN.init, ErrorDetectorFNN.input_size, np_zeros.
  fold n. replace (Z.to_nat (Z.of_nat n + 1)) with (S n) by lia.
  rewrite (np_setitem_last _ prob n) by apply length_replicate.
  unfold mbind, result_bind. rewrite np_setitem_column.
  unfold len. rewrite length_insert, length_replicate.
  replace (Z.of_nat (S n)) with (Z.of_nat n + 1) by lia.
  cbv zeta. by destruct (_ && _).
Qed.

(** The row when the tag has one of the columns [0 .. n-1]. *)
Lemma make_input_one_hot tag_name prob col_idx :
  mi_indexer !! tag_name = Some col_idx ->
  0 <= col_idx < Z.of_nat n ->
  ErrorDetectorFNN.make_input self tag_name prob =
  Ok (<[Z.to_nat col_idx := 1%float]>
        (<[n := prob]> (replicate (S n) 0%float))).
Proof.
  intros H Hrange. rewrite (make_input_known _ _ col_idx) by done.
  unfold column. simpl.
  replace (col_idx <? 0) with false by (symmetry; lia).
  by replace ((0 <=? col_idx) && (col_idx <? Z.of_nat n + 1))
    with true by test_true.
Qed.

Lemma one_hot_lookup (c : nat) prob (i : nat) :
  (c < n)%nat ->
  <[c := 1%float]> (<[n := prob]> (replicate (S n) 0%float)) !! i =
  if decide (i = c) then Some 1%float
  else if decide (i = n) then Some prob
  else if decide (i < n)%nat then Some 0%float
  else None.
Proof.
  intros Hc. repeat case_decide; subst.
  - apply list_lookup_insert_eq.
    rewrite length_insert, length_replicate. lia.
  - rewrite list_lookup_insert_ne by done.
    apply list_lookup_insert_eq. rewrite length_replicate. lia.
  - rewrite !list_lookup_insert_ne by done.
    apply lookup_replicate. split; [done|lia].
  - rewrite !list_lookup_insert_ne by done.
    apply lookup_ge_None. rewrite length_replicate. lia.
Qed.
End MakeInput.

Section FNNFacts.
Context (seg : segmenter float) (self : ErrorDetectorFNN.t).

(** The full result, when the row can be built for every unit the loop
    reaches: the units at or after [start_pos] for which the classifier
    returns less than 0.5 on their row. *)
Lemma fnn_detection_all tag_seq start_pos units ptrs :
  scans tag_seq start_pos ptrs ->
  seg tag_seq = Ok (units, ptrs) ->
  Forall (fun item => exists x,
            ErrorDetectorFNN.make_input self (su_tag item.1)
              (su_prob item.1) = Ok x)
    (examined start_pos (zip units ptrs)) ->
  ErrorDetectorFNN.detection seg self tag_seq start_pos false =
  Ok (List.filter
        (fun item => (start_pos <=? item.2) &&
           match ErrorDetectorFNN.make_input self (su_tag item.1)
                   (su_prob item.1) with
           | Ok x => PrimFloat.ltb (ErrorDetectorFNN.model self x) 0.5%float
           | Err _ => false
           end)
        (zip units ptrs)).
Proof.
  intros Hlt Hseg Hbuilt. rewrite fnn_detection_shape.
  rewrite (gen_detection_scan _ _ _ _ units ptrs) by done.
  destruct (select_total (judge_fnn self) start_pos (zip units ptrs))
    as [l Hl].
  { eapply Forall_impl; [exact Hbuilt|]. intros item [x Hx].
    eexists. unfold judge_fnn. by rewrite Hx. }
  rewrite Hl. f_equal. rewrite (select_filter _ _ _ _ Hl).
  apply filter_ext. intros item. unfold flagged, judge_fnn.
  destruct (ErrorDetectorFNN.make_input _ _ _) as [x|]; simpl; [|done].
  by destruct (PrimFloat.ltb _ _).
Qed.
End FNNFacts.

(** C4, as the code has it. For the learned detector built from an indexer
    of [n] tags, and a tag that the indexer sends to one of the one-hot
    columns [0 .. n-1]: the row handed to the classifier has width [n + 1];
    it is the row of zeros with the probability of the unit stored in the
    last column and 1 stored in the column of the tag; so the column of
    the tag holds 1, the last column holds the probability and every other
    column holds 0, and the nonzero columns are the column of the tag and,
    when the probability is not zero, the last one.  On a call that
    reaches the loop (or with pointers that are positions in the sequence)
    and can build the row of every unit it reaches, the
    full result holds exactly the units at or after [start_pos] for which
    the classifier returns strictly less than 0.5 on their row; a unit for
    which it returns 0.5 is not in it. *)
Theorem C4_classifier_input :
  (forall mi_indexer mi_model tag_name prob col_idx,
     mi_indexer !! tag_name = Some col_idx ->
     0 <= col_idx < Z.of_nat (size mi_indexer) ->
     exists x,
       ErrorDetectorFNN.make_input
         (ErrorDetectorFNN.init mi_indexer mi_model) tag_name prob = Ok x /\
       x = <[Z.to_nat col_idx := 1%float]>
             (<[size mi_indexer := prob]>
                (replicate (S (size mi_indexer)) 0%float)) /\
       length x = S (size mi_indexer) /\
       x !! Z.to_nat col_idx = Some 1%float /\
       x !! size mi_indexer = Some prob /\
       (forall i, i <> Z.to_nat col_idx -> i <> size mi_indexer ->
          (i < S (size mi_indexer))%nat -> x !! i = Some 0%float) /\
       (forall i, i ∈ nonzero_slots x <->
          i = Z.to_nat col_idx \/
          (i = size mi_indexer /\ PrimFloat.eqb prob 0%float = false))) /\
  (forall (seg : segmenter float) self tag_seq start_pos units ptrs,
     scans tag_seq start_pos ptrs ->
     seg tag_seq = Ok (units, ptrs) ->
     Forall (fun item => exists x,
               ErrorDetectorFNN.make_input self (su_tag item.1)
                 (su_prob item.1) = Ok x)
       (examined start_pos (zip units ptrs)) ->
     exists res,
       ErrorDetectorFNN.detection seg self tag_seq start_pos false = Ok res /\
       (forall unit pointer,
          (unit, pointer) ∈ res <->
          (unit, pointer) ∈ zip units ptrs /\ start_pos <= pointer /\
          exists x,
            ErrorDetectorFNN.make_input self (su_tag unit) (su_prob unit) =
            Ok x /\
            PrimFloat.ltb (ErrorDetectorFNN.model self x) 0.5%float = true) /\
       (forall unit pointer x,
          ErrorDetectorFNN.make_input self (su_tag unit) (su_prob unit) = Ok x
          -> ErrorDetectorFNN.model self x = 0.5%float ->
          (unit, pointer) ∉ res)).
Proof.
  split.
  - intros mi_indexer mi_model tag_name prob col_idx Hidx Hrange.
    set (n := size mi_indexer) in *.
    assert (Z.to_nat col_idx < n)%nat as Hc by lia.
    pose proof (one_hot_lookup mi_indexer (Z.to_nat col_idx) prob) as Hlook.
    fold n in Hlook.
    eexists. split; [by apply make_input_one_hot|]. split; [done|].
    split; [by rewrite !length_insert, length_replicate|].
    split; [by rewrite Hlook, decide_True|].
    split.
    { rewrite Hlook by done. rewrite decide_False by lia.
      by rewrite decide_True. }
    split.
    { intros i Hi1 Hi2 Hi3. rewrite Hlook by done.
      rewrite !decide_False by done. rewrite decide_True by lia. done. }
    intros i. rewrite elem_of_nonzero_slots, Hlook by done.
    repeat case_decide; subst.
    + split; [auto|]. intros _. by eexists.
    + split.
      * intros (v & [= <-] & Hnz). auto.
      * intros [?|[_ Hnz]]; [done|]. by eexists.
    + split.
      * by intros (v & [= <-] & Hnz).
      * intros [?|[? _]]; done.
    + split.
      * by intros (v & [=] & _).
      * intros [?|[? _]]; done.
  - intros seg self tag_seq start_pos units ptrs Hlt Hseg Hbuilt.
    eexists. split; [by apply fnn_detection_all|]. split.
    + intros unit pointer.
      rewrite !list_elem_of_In, filter_In, andb_true_iff, Z.leb_le. simpl.
      destruct (ErrorDetectorFNN.make_input self _ _) as [x|e].
      * split.
        -- intros (? & ? & ?). eauto.
        -- intros (? & ? & x' & [= <-] & ?). auto.
      * split.
        -- by intros (_ & _ & ?).
        -- by intros (_ & _ & x' & ? & _).
    + intros unit pointer x Hx Hy.
      rewrite list_elem_of_In, filter_In, andb_true_iff. simpl.
      rewrite Hx, Hy. by intros (_ & _ & ?).
Qed.

Lemma C4_witness :
  exists x,
    ErrorDetectorFNN.make_input
      (ErrorDetectorFNN.init example_indexer example_model)
      "WHERE_COL" 0.4%float = Ok x /\
    x !! 1%nat = Some 1%float /\ x !! 3%nat = Some 0.4%float.
Proof.
  destruct (proj1 C4_classifier_input example_indexer example_model
    "WHERE_COL" 0.4%float 1 eq_refl) as (x & Hx & _ & _ & H1 & H3 & _).
  { vm_compute. split; [discriminate|reflexivity]. }
  exists x. split; [exact Hx|]. split; [exact H1|exact H3].
Defined.

(** With a probability of zero the last column is zero too: the column of
    the tag is the only nonzero one. *)
Lemma C4_counterexample :
  ErrorDetectorFNN.make_input
    (ErrorDetectorFNN.init example_indexer example_model)
    "WHERE_COL" 0%float = Ok [0; 1; 0; 0]%float /\
  nonzero_slots [0; 1; 0; 0]%float = [1%nat] /\
  ~ (forall mi_indexer mi_model tag_name prob col_idx x,
       mi_indexer !! tag_name = Some col_idx ->
       0 <= col_idx < Z.of_nat (size mi_indexer) ->
       ErrorDetectorFNN.make_input
         (ErrorDetectorFNN.init mi_indexer mi_model) tag_name prob = Ok x ->
       nonzero_slots x = [Z.to_nat col_idx; size mi_indexer]).
Proof.
  split; [reflexivity|]. split; [reflexivity|].
  intros H.
  specialize (H example_indexer example_model "WHERE_COL" 0%float 1
    [0; 1; 0; 0]%float eq_refl).
  discriminate H; [|reflexivity].
  vm_compute. split; [discriminate|reflexivity].
Qed.

(** ** A tag the indexer does not know (C8) *)

Lemma for_in_app {A S R} (xs ys : list A)
    (body : A -> S -> result (flow S R)) s :
  for_in (xs ++ ys) body s =
  match for_in xs body s with
  | Ok (Continue s') => for_in ys body s'
  | r => r
  end.
Proof.
  revert s. induction xs as [|x xs IH]; intros s; simpl; [done|].
  destruct (body x s) as [[s'|r]|e]; auto.
Qed.

(** C8. For the learned detector, on a call that reaches the loop: when
    the loop reaches a unit (it has run over the units before it and has
    neither returned nor raised) that has a pointer at or after
    [start_pos] and a tag that is not in the indexer, the call raises
    [KeyError] for this tag; it returns no list. *)
Theorem C8_unknown_tag_raises :
  forall (seg : segmenter float) mi_indexer mi_model tag_seq start_pos first
         units ptrs before unit pointer after acc,
    let self := ErrorDetectorFNN.init mi_indexer mi_model in
    start_pos < len tag_seq ->
    seg tag_seq = Ok (units, ptrs) ->
    zip units ptrs = before ++ (unit, pointer) :: after ->
    for_in before (ErrorDetectorFNN.body self start_pos first) [] =
      Ok (Continue acc) ->
    start_pos <= pointer ->
    mi_indexer !! su_tag unit = None ->
    ErrorDetectorFNN.detection seg self tag_seq start_pos first =
    Err (KeyError (su_tag unit)).
Proof.
  intros seg mi_indexer mi_model tag_seq start_pos first units ptrs before
    unit pointer after acc self Hlt Hseg Hzip Hbefore Hpos Hnone.
  unfold ErrorDetectorFNN.detection.
  replace (len tag_seq <=? start_pos) with false by (symmetry; lia).
  rewrite Hseg. simpl. rewrite Hzip, for_in_app, Hbefore. simpl.
  replace (pointer <? start_pos) with false by (symmetry; lia).
  unfold self. by rewrite make_input_unknown.
Qed.

Lemma C8_witness :
  ErrorDetectorFNN.detection enumerate_segment
    (ErrorDetectorFNN.init {[ "SELECT_COL" := 0; "WHERE_COL" := 1 ]}
       example_model)
    example_units 0 false = Err (KeyError "WHERE_OP").
Proof.
  apply (C8_unknown_tag_raises enumerate_segment
    {[ "SELECT_COL" := 0; "WHERE_COL" := 1 ]} example_model example_units
    0 false example_units [0; 1; 2] (take 2 (zip example_units [0; 1; 2]))
    (SemanticUnit "WHERE_OP" [FStr "="] 0.6%float (Some 2)) 2 []
    (drop 1 (take 2 (zip example_units [0; 1; 2])))).
  - reflexivity.
  - reflexivity.
  - reflexivity.
  - vm_compute. reflexivity.
  - vm_compute. discriminate.
  - reflexivity.
Defined.

(** ** Calls over the store (C9) *)

Section StoreFacts.
Context {P : Type}.
Implicit Types (h : Heap.store P) (l : positive).

Lemma bind_run {A B} (m : Heap.M P A) (k : A -> Heap.M P B) h :
  Heap.bind m k h =
  match m h with
  | (Ok a, h') => k a h'
  | (Err e, h') => (Err e, h')
  end.
Proof. reflexivity. Qed.

Lemma load_run h l o : h !! l = Some o -> Heap.load l h = (Ok o, h).
Proof. intros H. unfold Heap.load. by rewrite H. Qed.

Lemma fresh_unused h : h !! fresh (dom h) = None.
Proof. apply not_elem_of_dom, is_fresh. Qed.

Lemma new_extends h o : h ⊆ <[fresh (dom h) := o]> h.
Proof. apply insert_subseteq, fresh_unused. Qed.

Lemma heap_for_in_ext {A R} (f g : A -> Heap.M P (flow unit R)) xs :
  (forall x h, f x h = g x h) ->
  forall h, Heap.for_in xs f h = Heap.for_in xs g h.
Proof.
  intros Hfg. induction xs as [|x xs IH]; intros h; simpl; [done|].
  rewrite !bind_run, Hfg.
  destruct (g x h) as [[[[]|r]|e] h']; auto.
Qed.

(** The loop over the store does what the loop on values does; it
    changes the list of pairs and nothing of the store [h]. *)
Lemma heap_for_in_refines h judge_st judge start_pos first err :
  Heap.judge_refines h judge_st judge ->
  h !! err = None ->
  forall items acc h1,
    h ⊆ h1 -> h1 !! err = Some (Heap.OPairs acc) ->
    exists r h2,
      Heap.for_in items (Heap.gen_body judge_st start_pos first err) h1 =
      (r, h2) /\
      h ⊆ h2 /\
      match for_in items (gen_body judge start_pos first) acc with
      | Ok (Continue a) =>
          r = Ok (Continue tt) /\ h2 !! err = Some (Heap.OPairs a)
      | Ok (Return a) =>
          r = Ok (Return err) /\ h2 !! err = Some (Heap.OPairs a)
      | Err e => r = Err e
      end.
Proof.
  intros Hjudge Hfresh.
  induction items as [|item rest IH]; intros acc h1 Hsub Herr; simpl.
  { exists (Ok (Continue tt)), h1. auto. }
  rewrite bind_run. unfold gen_body at 1, Heap.gen_body at 1.
  destruct (item.2 <? start_pos).
  { by apply IH. }
  rewrite bind_run.
  destruct (Hjudge item.1 item.2 h1 Hsub) as (h2 & -> & Hsub2).
  assert (h ⊆ h2) as Hsub' by (by etrans).
  pose proof (lookup_weaken _ _ _ _ Herr Hsub2) as Herr2.
  destruct (judge item.1 item.2) as [[|]|e]; simpl.
  - rewrite bind_run. unfold Heap.list_append.
    rewrite bind_run, (load_run _ _ _ Herr2). unfold Heap.update.
    set (h3 := <[err := Heap.OPairs (acc ++ [item])]> h2).
    assert (h ⊆ h3) as Hsub3 by (by apply insert_subseteq_r).
    assert (h3 !! err = Some (Heap.OPairs (acc ++ [item]))) as Herr3
      by apply lookup_insert_eq.
    destruct first; simpl.
    + exists (Ok (Return err)), h3. auto.
    + by apply IH.
  - by apply IH.
  - exists (Err e), h2. auto.
Qed.

(** A call over the store has the outcome of the call on values, and
    keeps every object of the store it starts in. *)
Lemma heap_gen_detection_refines h (seg : segmenter P) judge_st judge
    tag_seq items start_pos first :
  h !! tag_seq = Some (Heap.OTagSeq items) ->
  Heap.judge_refines h judge_st judge ->
  exists r h',
    Heap.gen_detection seg judge_st tag_seq start_pos first h = (r, h') /\
    Heap.outcome (r, h') = gen_detection seg judge items start_pos first /\
    h ⊆ h'.
Proof.
  intros Hseq Hjudge.
  unfold Heap.gen_detection, Heap.detection_with, gen_detection.
  rewrite bind_run. unfold Heap.load_tag_seq.
  rewrite bind_run, (load_run _ _ _ Hseq). unfold Heap.ret at 1.
  destruct (len items <=? start_pos).
  { eexists _, _. split; [reflexivity|].
    unfold Heap.outcome. simpl. rewrite lookup_insert_eq.
    split; [done|apply new_extends]. }
  rewrite bind_run. unfold Heap.lift at 1.
  destruct (seg items) as [[units ptrs]|e]; simpl.
  2: { eexists _, _. split; [reflexivity|]. by split. }
  rewrite bind_run. unfold Heap.new at 1.
  set (err := fresh (dom h)). set (h1 := <[err := Heap.OPairs []]> h).
  rewrite bind_run.
  destruct (heap_for_in_refines h judge_st judge start_pos first err
    Hjudge (fresh_unused h) (zip units ptrs) [] h1)
    as (r & h2 & -> & Hsub & Hloop).
  { apply new_extends. }
  { apply lookup_insert_eq. }
  destruct (for_in (zip units ptrs) (gen_body judge start_pos first) [])
    as [[a|a]|e].
  - destruct Hloop as [-> Ha]. eexists _, _. split; [reflexivity|].
    unfold Heap.outcome. simpl. by rewrite Ha.
  - destruct Hloop as [-> Ha]. eexists _, _. split; [reflexivity|].
    unfold Heap.outcome. simpl. by rewrite Ha.
  - subst r. eexists _, _. split; [reflexivity|]. by split.
Qed.

(** Two calls in a row. *)
Lemma heap_gen_detection_repeatable h (seg : segmenter P) judge_st judge
    tag_seq items start_pos first :
  h !! tag_seq = Some (Heap.OTagSeq items) ->
  (forall h', h ⊆ h' -> Heap.judge_refines h' judge_st judge) ->
  Heap.repeatable
    (Heap.gen_detection seg judge_st tag_seq start_pos first) h
    (gen_detection seg judge items start_pos first).
Proof.
  intros Hseq Hjudge. unfold Heap.repeatable.
  destruct (heap_gen_detection_refines h seg judge_st judge tag_seq items
    start_pos first Hseq (Hjudge h (reflexivity h)))
    as (r1 & h1 & -> & Hout & Hsub).
  simpl.
  destruct (heap_gen_detection_refines h1 seg judge_st judge tag_seq
    items start_pos first (lookup_weaken _ _ _ _ Hseq Hsub)
    (Hjudge _ Hsub)) as (r2 & h2 & -> & Hout2 & Hsub2).
  auto.
Qed.

Lemma detection_with_ext (seg : segmenter P) b1 b2 tag_seq start_pos :
  (forall err item h, b1 err item h = b2 err item h) ->
  forall h,
    Heap.detection_with seg b1 tag_seq start_pos h =
    Heap.detection_with seg b2 tag_seq start_pos h.
Proof.
  intros Hb h. unfold Heap.detection_with. rewrite !bind_run.
  destruct (Heap.load_tag_seq tag_seq h) as [[items|e] h0]; [|done].
  destruct (len items <=? start_pos); [done|].
  rewrite !bind_run.
  destruct (Heap.lift (seg items) h0) as [[segments|e] h1]; [|done].
  rewrite !bind_run.
  destruct (Heap.new (Heap.OPairs []) h1) as [[err|e] h2]; [|done].
  rewrite !bind_run.
  by rewrite (heap_for_in_ext (b1 err) (b2 err) _ (Hb err)).
Qed.

Lemma judge_refines_mono h h' judge_st judge :
  Heap.judge_refines h judge_st judge -> h ⊆ h' ->
  Heap.judge_refines h' judge_st judge.
Proof.
  intros Hj Hsub u p h1 Hsub1. apply Hj. by etrans.
Qed.

(** What holds of a call in the general shape holds of a method whose
    loop body has this shape. *)
Lemma detection_with_repeatable h (seg : segmenter P) body judge_st judge
    tag_seq items start_pos first :
  (forall err item h', body err item h' =
     Heap.gen_body judge_st start_pos first err item h') ->
  h !! tag_seq = Some (Heap.OTagSeq items) ->
  Heap.judge_refines h judge_st judge ->
  Heap.repeatable (Heap.detection_with seg body tag_seq start_pos) h
    (gen_detection seg judge items start_pos first).
Proof.
  intros Hbody Hseq Hjudge.
  pose proof (heap_gen_detection_repeatable h seg judge_st judge tag_seq
    items start_pos first Hseq
    (fun h' => judge_refines_mono h h' _ _ Hjudge)) as Hrep.
  unfold Heap.repeatable, Heap.gen_detection in *.
  by rewrite !(detection_with_ext seg body _ _ _ Hbody).
Qed.

Lemma sim_judge_refines h ref eval_tf :
  Heap.holds_eval_tf h ref eval_tf ->
  Heap.judge_refines h (Heap.judge_sim ref) (judge_sim eval_tf).
Proof.
  intros Hev u p h1 Hsub. exists h1. split; [|done].
  unfold Heap.judge_sim, judge_sim, Heap.getitem_eval_tf.
  rewrite bind_run.
  destruct ref as [l|]; simpl in Hev.
  - destruct Hev as (bs & Hl & ->).
    rewrite bind_run, (load_run _ _ _ (lookup_weaken _ _ _ _ Hl Hsub)).
    unfold Heap.lift. simpl. by destruct (py_getitem bs p).
  - by subst eval_tf.
Qed.

Lemma sim_body_store start_pos first ref err (item : semantic_unit P * Z)
    h :
  Heap.Sim.body start_pos first ref err item h =
  Heap.gen_body (Heap.judge_sim ref) start_pos first err item h.
Proof.
  destruct item as [u p].
  unfold Heap.Sim.body, Heap.gen_body, Heap.judge_sim. simpl.
  destruct (p <? start_pos); [done|]. rewrite !bind_run.
  destruct (Heap.getitem_eval_tf ref p h) as [[[|]|e] h']; done.
Qed.
End StoreFacts.

Section StoreDetectors.
Implicit Types (self tag_seq err : positive).

Lemma probability_judge_refines (h : Heap.store float) self d :
  h !! self = Some (Heap.OProbability d) ->
  Heap.judge_refines h (Heap.judge_probability self)
    (judge_probability d).
Proof.
  intros Hself u p h1 Hsub. exists h1. split; [|done].
  unfold Heap.judge_probability, Heap.load_probability.
  by rewrite !bind_run, (load_run _ _ _ (lookup_weaken _ _ _ _ Hself Hsub)).
Qed.

Lemma probability_body_store self start_pos first err
    (item : semantic_unit float * Z) h :
  Heap.Probability.body self start_pos first err item h =
  Heap.gen_body (Heap.judge_probability self) start_pos first err item h.
Proof.
  destruct item as [u p].
  unfold Heap.Probability.body, Heap.gen_body, Heap.judge_probability.
  simpl. destruct (p <? start_pos); [done|]. rewrite !bind_run.
  destruct (Heap.load_probability self h) as [[d|e] h']; [|done].
  unfold Heap.ret at 1. by destruct (PrimFloat.ltb _ _).
Qed.

Lemma bayes_judge_refines std (h : Heap.store (list float)) self d :
  h !! self = Some (Heap.OBayesDropout d) ->
  Heap.judge_refines h (Heap.judge_bayes std self) (judge_bayes std d).
Proof.
  intros Hself u p h1 Hsub. exists h1. split; [|done].
  unfold Heap.judge_bayes, Heap.load_bayes.
  by rewrite !bind_run, (load_run _ _ _ (lookup_weaken _ _ _ _ Hself Hsub)).
Qed.

Lemma bayes_body_store std self start_pos first err
    (item : semantic_unit (list float) * Z) h :
  Heap.BayesDropout.body std self start_pos first err item h =
  Heap.gen_body (Heap.judge_bayes std self) start_pos first err item h.
Proof.
  destruct item as [u p].
  unfold Heap.BayesDropout.body, Heap.gen_body, Heap.judge_bayes.
  simpl. destruct (p <? start_pos); [done|]. rewrite !bind_run.
  destruct (Heap.load_bayes self h) as [[d|e] h']; [|done].
  unfold Heap.ret at 1. by destruct (PrimFloat.ltb _ _).
Qed.

Lemma array_setitem_run (h : Heap.store float) l row i v :
  h !! l = Some (Heap.OArray row) ->
  Heap.array_setitem l i v h =
  match np_setitem row i v with
  | Ok row' => (Ok tt, <[l := Heap.OArray row']> h)
  | Err e => (Err e, h)
  end.
Proof.
  intros Hl. unfold Heap.array_setitem.
  rewrite bind_run, (load_run _ _ _ Hl), bind_run. unfold Heap.lift.
  by destruct (np_setitem row i v).
Qed.

Lemma load_array_run (h : Heap.store float) l row :
  h !! l = Some (Heap.OArray row) -> Heap.load_array l h = (Ok row, h).
Proof.
  intros Hl. unfold Heap.load_array. by rewrite bind_run, (load_run _ _ _ Hl).
Qed.

Lemma fnn_judge_refines (h : Heap.store float) self d :
  h !! self = Some (Heap.OFNN d) ->
  Heap.judge_refines h (Heap.judge_fnn self) (judge_fnn d).
Proof.
  intros Hself u p h1 Hsub.
  unfold Heap.judge_fnn, judge_fnn, ErrorDetectorFNN.make_input.
  unfold Heap.load_fnn.
  rewrite !bind_run, (load_run _ _ _ (lookup_weaken _ _ _ _ Hself Hsub)).
  unfold Heap.ret at 1. rewrite bind_run. unfold Heap.new at 1.
  set (x := fresh (dom h1)).
  set (zeros := np_zeros (ErrorDetectorFNN.input_size d)).
  set (h2 := <[x := Heap.OArray zeros]> h1).
  assert (h1 !! x = None) as Hx by apply fresh_unused.
  assert (h1 ⊆ h2) as Hsub2 by apply new_extends.
  rewrite bind_run. unfold Heap.lift at 1.
  destruct (dict_getitem (ErrorDetectorFNN.indexer d) (su_tag u))
    as [col_idx|e]; simpl; [|by exists h2].
  rewrite bind_run, (array_setitem_run h2 x zeros)
    by apply lookup_insert_eq.
  destruct (np_setitem zeros (-1) (su_prob u)) as [row1|e]; simpl;
    [|by exists h2].
  set (h3 := <[x := Heap.OArray row1]> h2).
  rewrite bind_run, (array_setitem_run h3 x row1)
    by apply lookup_insert_eq.
  destruct (np_setitem row1 col_idx 1%float) as [row2|e]; simpl.
  2: { exists h3. split; [done|]. by apply insert_subseteq_r. }
  set (h4 := <[x := Heap.OArray row2]> h3).
  assert (h1 ⊆ h4) as Hsub4
    by (apply insert_subseteq_r; [done|]; by apply insert_subseteq_r).
  rewrite bind_run, (load_array_run h4 x row2) by apply lookup_insert_eq.
  rewrite bind_run. unfold Heap.new at 1.
  set (t := fresh (dom h4)). set (h5 := <[t := Heap.OArray row2]> h4).
  rewrite bind_run, (load_array_run h5 t row2) by apply lookup_insert_eq.
  exists h5. split; [done|]. etrans; [exact Hsub4|apply new_extends].
Qed.

Lemma fnn_body_store self start_pos first err
    (item : semantic_unit float * Z) h :
  Heap.FNN.body self start_pos first err item h =
  Heap.gen_body (Heap.judge_fnn self) start_pos first err item h.
Proof.
  destruct item as [u p].
  unfold Heap.FNN.body, Heap.gen_body, Heap.judge_fnn.
  simpl. destruct (p <? start_pos); [done|].
  repeat (rewrite !bind_run;
          match goal with
          | |- context [match ?m ?s with (_, _) => _ end] =>
              destruct (m s) as [[?|?] ?]; try done
          end).
Qed.
End StoreDetectors.

(** C9. For each of the four detectors, two calls of [detection] in a row
    with the same arguments, the second in the store the first one left:
    both have the outcome that the method computes from the values of its
    arguments alone (the decision sequence, [start_pos],
    [bool_return_first], the ground truth, the configuration of the
    detector), so the two outcomes are the same; and each call leaves every
    object of the store it started in as it was, the decision sequence and
    the detector among them: a call only adds objects. *)
Theorem C9_deterministic_without_side_effects :
  (forall P (seg : segmenter P) (h : Heap.store P) tag_seq items start_pos
          first ref eval_tf,
     h !! tag_seq = Some (Heap.OTagSeq items) ->
     Heap.holds_eval_tf h ref eval_tf ->
     Heap.repeatable
       (Heap.Sim.detection seg tag_seq start_pos first ref) h
       (ErrorDetectorSim.detection seg items start_pos first eval_tf)) /\
  (forall seg (h : Heap.store float) self d tag_seq items start_pos first,
     h !! tag_seq = Some (Heap.OTagSeq items) ->
     h !! self = Some (Heap.OProbability d) ->
     Heap.repeatable
       (Heap.Probability.detection seg self tag_seq start_pos first) h
       (ErrorDetectorProbability.detection seg d items start_pos first)) /\
  (forall std seg (h : Heap.store (list float)) self d tag_seq items
          start_pos first,
     h !! tag_seq = Some (Heap.OTagSeq items) ->
     h !! self = Some (Heap.OBayesDropout d) ->
     Heap.repeatable
       (Heap.BayesDropout.detection std seg self tag_seq start_pos first) h
       (ErrorDetectorBayesDropout.detection std seg d items start_pos first))
  /\
  (forall seg (h : Heap.store float) self d tag_seq items start_pos first,
     h !! tag_seq = Some (Heap.OTagSeq items) ->
     h !! self = Some (Heap.OFNN d) ->
     Heap.repeatable
       (Heap.FNN.detection seg self tag_seq start_pos first) h
       (ErrorDetectorFNN.detection seg d items start_pos first)).
Proof.
  split; [|split; [|split]].
  - intros P seg h tag_seq items start_pos first ref eval_tf Hseq Hev.
    rewrite sim_detection_shape.
    apply (detection_with_repeatable h seg
      (Heap.Sim.body start_pos first ref) (Heap.judge_sim ref)); [|done|].
    + intros err item h'. apply sim_body_store.
    + by apply sim_judge_refines.
  - intros seg h self d tag_seq items start_pos first Hseq Hself.
    rewrite probability_detection_shape.
    apply (detection_with_repeatable h seg
      (Heap.Probability.body self start_pos first)
      (Heap.judge_probability self)); [|done|].
    + intros err item h'. apply probability_body_store.
    + by apply probability_judge_refines.
  - intros std seg h self d tag_seq items start_pos first Hseq Hself.
    rewrite bayes_detection_shape.
    apply (detection_with_repeatable h seg
      (Heap.BayesDropout.body std self start_pos first)
      (Heap.judge_bayes std self)); [|done|].
    + intros err item h'. apply bayes_body_store.
    + by apply bayes_judge_refines.
  - intros seg h self d tag_seq items start_pos first Hseq Hself.
    rewrite fnn_detection_shape.
    apply (detection_with_repeatable h seg
      (Heap.FNN.body self start_pos first) (Heap.judge_fnn self)); [|done|].
    + intros err item h'. apply fnn_body_store.
    + by apply fnn_judge_refines.
Qed.

Lemma C9_witness :
  Heap.repeatable
    (Heap.Probability.detection enumerate_segment 2 1 0 false)
    example_store
    (ErrorDetectorProbability.detection enumerate_segment
       (ErrorDetectorProbability.init 0.5%float) example_units 0 false) /\
  Heap.repeatable
    (Heap.Sim.detection enumerate_segment 1 0 false (Some 3%positive))
    example_store
    (ErrorDetectorSim.detection enumerate_segment example_units 0 false
       (Some [true; false; true])).
Proof.
  split.
  - apply (proj1 (proj2 C9_deterministic_without_side_effects)
      enumerate_segment example_store 2%positive
      (ErrorDetectorProbability.init 0.5%float) 1%positive example_units
      0 false); reflexivity.
  - apply (proj1 C9_deterministic_without_side_effects float
      enumerate_segment example_store 1%positive example_units 0 false
      (Some 3%positive) (Some [true; false; true])); [reflexivity|].
    exists [true; false; true]. split; reflexivity.
Defined.

(** * Further properties of the detectors *)

(** ** A later start position *)

Section SelectMore.
Context {P : Type} (judge : semantic_unit P -> Z -> result bool).
Implicit Types (items : pairs_t P) (item : semantic_unit P * Z).

Lemma select_later start_pos later items l :
  start_pos <= later ->
  select judge start_pos items = Ok l ->
  select judge later items =
  Ok (List.filter (fun item => later <=? item.2) l).
Proof.
  intros Hle. revert l.
  induction items as [|item rest IH]; intros l; simpl.
  { by intros [= <-]. }
  destruct (Z.ltb_spec item.2 start_pos) as [Hlt|Hge].
  { replace (item.2 <? later) with true by (symmetry; lia). apply IH. }
  destruct (judge item.1 item.2) as [b|e]; simpl; [|done].
  destruct (select judge start_pos rest) as [r|e]; simpl; [|done].
  intros [= <-]. rewrite (IH r eq_refl).
  destruct (Z.ltb_spec item.2 later) as [Hlt'|Hge'].
  - destruct b; simpl; [|done].
    by replace (later <=? item.2) with false by (symmetry; lia).
  - simpl. destruct b; simpl; [|done].
    by replace (later <=? item.2) with true by (symmetry; lia).
Qed.

(** An exception of the scan is the one of the test at a unit the scan
    reaches. *)
Lemma select_err_inv start_pos items e :
  select judge start_pos items = Err e ->
  exists item,
    item ∈ items /\ start_pos <= item.2 /\ judge item.1 item.2 = Err e.
Proof.
  induction items as [|item rest IH]; simpl; [done|].
  destruct (Z.ltb_spec item.2 start_pos) as [Hlt|Hge].
  { intros (x & Hin & Hx)%IH. exists x. split; [by right|done]. }
  destruct (judge item.1 item.2) as [b|e'] eqn:Hj; simpl.
  - destruct (select judge start_pos rest) as [r|e'']; simpl; [done|].
    intros [= ->]. destruct (IH eq_refl) as (x & Hin & Hx).
    exists x. split; [by right|done].
  - intros [= ->]. exists item. split; [left|done].
Qed.

Lemma select_first_err_inv start_pos items e :
  select_first judge start_pos items = Err e ->
  exists item,
    item ∈ items /\ start_pos <= item.2 /\ judge item.1 item.2 = Err e.
Proof.
  intros H. apply select_err_inv. by apply select_first_err.
Qed.
End SelectMore.

Section DetectionMore.
Context {P : Type} (seg : segmenter P)
        (judge : semantic_unit P -> Z -> result bool).

Lemma gen_detection_later_start_filters :
  later_start_filters seg (gen_detection seg judge).
Proof.
  intros tag_seq units ptrs start_pos later l Hseg Hscan Hle Hl.
  assert (scans tag_seq start_pos ptrs) as Hscan'.
  { destruct Hscan as [Hlt|Hrange]; [left; lia|by right]. }
  rewrite (gen_detection_scan _ _ _ _ units ptrs) in Hl by done.
  rewrite (gen_detection_scan _ _ _ _ units ptrs) by done.
  by apply (select_later _ start_pos).
Qed.

Lemma gen_detection_first_is_least :
  first_is_least seg (gen_detection seg judge).
Proof.
  intros tag_seq start_pos item l Hord Hfirst Hfull.
  pose proof (gen_detection_prefix _ _ _ _ _ Hfull) as Hpre.
  rewrite Hfirst in Hpre. injection Hpre as Hpre.
  destruct l as [|x l']; [done|]. simpl in Hpre. injection Hpre as ->.
  split; [left|].
  destruct (gen_detection_in_order seg judge tag_seq start_pos false _ Hfull)
    as (_ & _ & Hsorted).
  specialize (Hsorted Hord).
  apply Sorted_StronglySorted in Hsorted;
    [|intros a b c; apply Z.le_trans].
  simpl in Hsorted. apply StronglySorted_inv in Hsorted as [_ Hall].
  constructor; [lia|].
  apply Forall_forall. intros other Hin.
  rewrite Forall_forall in Hall. apply Hall.
  by apply list_elem_of_fmap_2.
Qed.

(** An exception of a call comes from the segmentation or from the test
    at a unit at or after [start_pos]. *)
Lemma gen_detection_err_inv tag_seq start_pos first e :
  gen_detection seg judge tag_seq start_pos first = Err e ->
  start_pos < len tag_seq /\
  (seg tag_seq = Err e \/
   exists units ptrs item,
     seg tag_seq = Ok (units, ptrs) /\ item ∈ zip units ptrs /\
     start_pos <= item.2 /\ judge item.1 item.2 = Err e).
Proof.
  destruct (gen_detection_cases seg judge tag_seq start_pos first)
    as [[Hle ->]|[(Hlt & e' & Hseg & ->)|(Hlt & units & ptrs & Hseg & ->)]].
  - done.
  - intros [= ->]. auto.
  - intros Herr. split; [done|]. right. exists units, ptrs.
    destruct first.
    + destruct (select_first judge start_pos (zip units ptrs)) as [o|e']
        eqn:Hsel; simpl in Herr; [done|]. injection Herr as ->.
      destruct (select_first_err_inv _ _ _ _ Hsel) as (item & ? & ? & ?).
      by exists item.
    + destruct (select_err_inv _ _ _ _ Herr) as (item & ? & ? & ?).
      by exists item.
Qed.
End DetectionMore.

(** X1. For each of the four detectors, on a call whose loop visits every
    unit at or after the later start position: when the full call from
    [start_pos] returns [l], the full call from a later start position
    returns the pairs of [l] whose pointer is at or after it, in the same
    order. *)
Theorem X1_later_start_filters :
  (forall P (seg : segmenter P) eval_tf,
     later_start_filters seg
       (fun tag_seq start_pos first =>
          ErrorDetectorSim.detection seg tag_seq start_pos first eval_tf)) /\
  (forall seg self,
     later_start_filters seg (ErrorDetectorProbability.detection seg self))
  /\
  (forall std seg self,
     later_start_filters seg
       (ErrorDetectorBayesDropout.detection std seg self)) /\
  (forall seg self,
     later_start_filters seg (ErrorDetectorFNN.detection seg self)).
Proof.
  split; [|split; [|split]]; intros.
  - pose proof (gen_detection_later_start_filters seg (judge_sim eval_tf))
      as H.
    unfold later_start_filters in *.
    by setoid_rewrite sim_detection_shape.
  - pose proof (gen_detection_later_start_filters seg
      (judge_probability self)) as H.
    unfold later_start_filters in *.
    by setoid_rewrite probability_detection_shape.
  - pose proof (gen_detection_later_start_filters seg
      (judge_bayes std self)) as H.
    unfold later_start_filters in *.
    by setoid_rewrite bayes_detection_shape.
  - pose proof (gen_detection_later_start_filters seg (judge_fnn self)) as H.
    unfold later_start_filters in *.
    by setoid_rewrite fnn_detection_shape.
Qed.

Lemma X1_witness :
  ErrorDetectorProbability.detection enumerate_segment
    (ErrorDetectorProbability.init 1%float) example_units 2 false =
  Ok (List.filter (fun item : semantic_unit float * Z => 2 <=? item.2)
        (zip example_units [0; 1; 2])).
Proof.
  apply (proj1 (proj2 X1_later_start_filters) enumerate_segment
    (ErrorDetectorProbability.init 1%float) example_units example_units
    [0; 1; 2] 0 2 _ eq_refl (or_introl eq_refl)); [|reflexivity].
  vm_compute. discriminate.
Defined.

(** X2. For each of the four detectors, when the pointers of the
    segmentation never decrease: the pair a call with [bool_return_first]
    returns is a pair of the full result, and no pair of the full result
    has a smaller pointer. *)
Theorem X2_first_is_least :
  (forall P (seg : segmenter P) eval_tf,
     first_is_least seg
       (fun tag_seq start_pos first =>
          ErrorDetectorSim.detection seg tag_seq start_pos first eval_tf)) /\
  (forall seg self,
     first_is_least seg (ErrorDetectorProbability.detection seg self)) /\
  (forall std seg self,
     first_is_least seg (ErrorDetectorBayesDropout.detection std seg self))
  /\
  (forall seg self,
     first_is_least seg (ErrorDetectorFNN.detection seg self)).
Proof.
  split; [|split; [|split]]; intros.
  - pose proof (gen_detection_first_is_least seg (judge_sim eval_tf)) as H.
    unfold first_is_least in *.
    by setoid_rewrite sim_detection_shape.
  - pose proof (gen_detection_first_is_least seg (judge_probability self))
      as H.
    unfold first_is_least in *.
    by setoid_rewrite probability_detection_shape.
  - pose proof (gen_detection_first_is_least seg (judge_bayes std self))
      as H.
    unfold first_is_least in *.
    by setoid_rewrite bayes_detection_shape.
  - pose proof (gen_detection_first_is_least seg (judge_fnn self)) as H.
    unfold first_is_least in *.
    by setoid_rewrite fnn_detection_shape.
Qed.

Lemma X2_witness :
  Forall (fun other : semantic_unit float * Z => 1 <= other.2)
    (drop 1 (zip example_units [0; 1; 2])).
Proof.
  apply (proj2 (proj1 (proj2 X2_first_is_least) enumerate_segment
    (ErrorDetectorProbability.init 1%float) example_units 1
    (SemanticUnit "WHERE_COL"
       [FTuple [FStr "flight"; FStr "stops"; FInt 7]] 0.4%float (Some 1), 1)
    _ (enumerate_segment_ordered _) eq_refl eq_refl)).
Defined.

(** ** Thresholds *)

(** Case analysis on the comparisons of exponents and mantissas. *)
Ltac cmp_cases :=
  repeat match goal with
  | H : context [Z.compare ?a ?b] |- _ => destruct (Z.compare_spec a b)
  | |- context [Z.compare ?a ?b] => destruct (Z.compare_spec a b)
  | H : context [Pos.compare_cont Eq ?a ?b] |- _ =>
      change (Pos.compare_cont Eq a b) with (Pos.compare a b) in *;
      destruct (Pos.compare_spec a b)
  | |- context [Pos.compare_cont Eq ?a ?b] =>
      change (Pos.compare_cont Eq a b) with (Pos.compare a b) in *;
      destruct (Pos.compare_spec a b)
  end.

Lemma SFltb_leb_trans x y z :
  SFltb x y = true -> SFleb y z = true -> SFltb x z = true.
Proof.
  unfold SFltb, SFleb.
  destruct x as [sx|sx| |sx mx ex], y as [sy|sy| |sy my ey],
    z as [sz|sz| |sz mz ez]; simpl;
    try destruct sx; try destruct sy; try destruct sz; simpl;
    try discriminate; try reflexivity;
    cmp_cases; simpl in *; try discriminate; try reflexivity; lia.
Qed.

Lemma SFleb_ltb_trans x y z :
  SFleb x y = true -> SFltb y z = true -> SFltb x z = true.
Proof.
  unfold SFltb, SFleb.
  destruct x as [sx|sx| |sx mx ex], y as [sy|sy| |sy my ey],
    z as [sz|sz| |sz mz ez]; simpl;
    try destruct sx; try destruct sy; try destruct sz; simpl;
    try discriminate; try reflexivity;
    cmp_cases; simpl in *; try discriminate; try reflexivity; lia.
Qed.

(** [x < y] and [y <= z] give [x < z], on floats. *)
Lemma float_ltb_leb_trans (x y z : float) :
  PrimFloat.ltb x y = true -> PrimFloat.leb y z = true ->
  PrimFloat.ltb x z = true.
Proof. rewrite !ltb_spec, leb_spec. apply SFltb_leb_trans. Qed.

Lemma float_leb_ltb_trans (x y z : float) :
  PrimFloat.leb x y = true -> PrimFloat.ltb y z = true ->
  PrimFloat.ltb x z = true.
Proof. rewrite !ltb_spec, leb_spec. apply SFleb_ltb_trans. Qed.

Lemma filter_sublist_impl {A} (f g : A -> bool) (l : list A) :
  (forall x, f x = true -> g x = true) ->
  List.filter f l `sublist_of` List.filter g l.
Proof.
  intros Hfg. induction l as [|a l IH]; simpl; [constructor|].
  destruct (f a) eqn:Hf.
  - rewrite (Hfg a Hf). by constructor.
  - destruct (g a); [by constructor|done].
Qed.

(** X3. On a call whose loop visits every unit at or after [start_pos]:
    raising the threshold of the probability detector only adds pairs to
    the full result, and raising the threshold of the dropout detector only
    removes pairs from it; in both cases the pairs that stay keep their
    order. *)
Theorem X3_threshold_monotone :
  (forall (seg : segmenter float) tag_seq start_pos units ptrs low high,
     scans tag_seq start_pos ptrs ->
     seg tag_seq = Ok (units, ptrs) ->
     PrimFloat.leb low high = true ->
     exists l_low l_high,
       ErrorDetectorProbability.detection seg
         (ErrorDetectorProbability.init low) tag_seq start_pos false =
       Ok l_low /\
       ErrorDetectorProbability.detection seg
         (ErrorDetectorProbability.init high) tag_seq start_pos false =
       Ok l_high /\
       l_low `sublist_of` l_high) /\
  (forall std (seg : segmenter (list float)) tag_seq start_pos units ptrs
          low high,
     scans tag_seq start_pos ptrs ->
     seg tag_seq = Ok (units, ptrs) ->
     PrimFloat.leb low high = true ->
     exists l_low l_high,
       ErrorDetectorBayesDropout.detection std seg
         (ErrorDetectorBayesDropout.init low) tag_seq start_pos false =
       Ok l_low /\
       ErrorDetectorBayesDropout.detection std seg
         (ErrorDetectorBayesDropout.init high) tag_seq start_pos false =
       Ok l_high /\
       l_high `sublist_of` l_low).
Proof.
  split.
  - intros seg tag_seq start_pos units ptrs low high Hscan Hseg Hle.
    eexists _, _. split; [by apply probability_detection_all|].
    split; [by apply probability_detection_all|].
    apply filter_sublist_impl. intros item.
    rewrite !andb_true_iff. intros [? Hlt]. split; [done|].
    by eapply float_ltb_leb_trans.
  - intros std seg tag_seq start_pos units ptrs low high Hscan Hseg Hle.
    eexists _, _. split; [by apply bayes_detection_all|].
    split; [by apply bayes_detection_all|].
    apply filter_sublist_impl. intros item.
    rewrite !andb_true_iff. intros [? Hlt]. split; [done|].
    by eapply float_leb_ltb_trans.
Qed.

Lemma X3_witness :
  exists l_low l_high,
    ErrorDetectorProbability.detection enumerate_segment
      (ErrorDetectorProbability.init 0.5%float) example_units 0 false =
    Ok l_low /\
    ErrorDetectorProbability.detection enumerate_segment
      (ErrorDetectorProbability.init 0.7%float) example_units 0 false =
    Ok l_high /\
    l_low `sublist_of` l_high.
Proof.
  apply (proj1 X3_threshold_monotone enumerate_segment example_units 0
    example_units [0; 1; 2] 0.5%float 0.7%float (or_introl eq_refl) eq_refl
    eq_refl).
Defined.

(** ** Exceptions *)

Lemma py_getitem_ok {A} (seq : list A) (i : Z) :
  - len seq <= i < len seq -> exists a, py_getitem seq i = Ok a.
Proof.
  intros Hrange. unfold py_getitem. fold (len seq).
  set (j := if i <? 0 then len seq + i else i).
  assert (0 <= j < len seq) as Hj.
  { unfold j. destruct (Z.ltb_spec i 0); lia. }
  replace ((0 <=? j) && (j <? len seq)) with true by test_true.
  destruct (seq !! Z.to_nat j) as [a|] eqn:Hlook; [by eexists|].
  apply lookup_ge_None in Hlook. unfold len in Hj. lia.
Qed.

Lemma py_getitem_err {A} (seq : list A) (i : Z) e :
  py_getitem seq i = Err e ->
  e = IndexError /\ ~ (- len seq <= i < len seq).
Proof.
  intros Herr.
  destruct (decide (- len seq <= i < len seq)) as [Hin|Hout].
  - destruct (py_getitem_ok seq i Hin) as [a Ha]. by rewrite Ha in Herr.
  - split; [|done]. unfold py_getitem in Herr.
    destruct (_ && _); [|by injection Herr].
    destruct (seq !! _); [done|by injection Herr].
Qed.

Lemma py_getitem_out {A} (seq : list A) (i : Z) :
  ~ (- len seq <= i < len seq) -> py_getitem seq i = Err IndexError.
Proof.
  intros Hout. unfold py_getitem. fold (len seq).
  destruct (Z.ltb_spec i 0).
  - by replace ((0 <=? len seq + i) && (len seq + i <? len seq))
      with false by (symmetry; apply andb_false_iff; lia).
  - by replace ((0 <=? i) && (i <? len seq))
      with false by (symmetry; apply andb_false_iff; lia).
Qed.

Section MakeInputOutcome.
Context (mi_indexer : gmap string Z) (mi_model : list float -> float).
Let self := ErrorDetectorFNN.init mi_indexer mi_model.
Let n := size mi_indexer.

Lemma column_in_range (c : Z) :
  0 <= column (Z.of_nat n + 1) c < Z.of_nat n + 1 <->
  - (Z.of_nat n + 1) <= c < Z.of_nat n + 1.
Proof. unfold column. destruct (Z.ltb_spec c 0); lia. Qed.

Lemma make_input_outcome tag_name prob :
  ErrorDetectorFNN.make_input self tag_name prob =
  match mi_indexer !! tag_name with
  | None => Err (KeyError tag_name)
  | Some col_idx =>
      if (- (Z.of_nat n + 1) <=? col_idx) && (col_idx <? Z.of_nat n + 1)
      then Ok (<[Z.to_nat (column (Z.of_nat n + 1) col_idx) := 1%float]>
                 (<[n := prob]> (replicate (S n) 0%float)))
      else Err IndexError
  end.
Proof.
  unfold self.
  destruct (mi_indexer !! tag_name) as [col_idx|] eqn:Hidx;
    [|by apply make_input_unknown].
  rewrite (make_input_known _ _ _ _ col_idx) by done. cbv zeta. fold n.
  pose proof (column_in_range col_idx) as Hcol.
  destruct (decide (- (Z.of_nat n + 1) <= col_idx < Z.of_nat n + 1))
    as [Hin|Hout].
  - replace ((- (Z.of_nat n + 1) <=? col_idx) && (col_idx <? Z.of_nat n + 1))
      with true by test_true.
    by replace ((0 <=? column (Z.of_nat n + 1) col_idx) &&
                (column (Z.of_nat n + 1) col_idx <? Z.of_nat n + 1))
      with true by test_true.
  - replace ((- (Z.of_nat n + 1) <=? col_idx) && (col_idx <? Z.of_nat n + 1))
      with false by (symmetry; apply andb_false_iff; lia).
    by replace ((0 <=? column (Z.of_nat n + 1) col_idx) &&
                (column (Z.of_nat n + 1) col_idx <? Z.of_nat n + 1))
      with false by (symmetry; apply andb_false_iff; lia).
Qed.

Lemma insert_last_replicate (k : nat) (v : float) :
  <[k := v]> (replicate (S k) 0%float) = replicate k 0%float ++ [v].
Proof. induction k as [|k IH]; simpl; [done|]. f_equal. apply IH. Qed.

Lemma make_input_last tag_name prob col_idx :
  mi_indexer !! tag_name = Some col_idx ->
  col_idx = Z.of_nat n \/ col_idx = -1 ->
  ErrorDetectorFNN.make_input self tag_name prob =
  Ok (replicate n 0%float ++ [1%float]).
Proof.
  intros Hidx Hcol. rewrite make_input_outcome, Hidx.
  replace ((- (Z.of_nat n + 1) <=? col_idx) && (col_idx <? Z.of_nat n + 1))
    with true by test_true.
  replace (Z.to_nat (column (Z.of_nat n + 1) col_idx)) with n
    by (unfold column; destruct (Z.ltb_spec col_idx 0); lia).
  by rewrite list_insert_insert_eq, insert_last_replicate.
Qed.
End MakeInputOutcome.

(** X5. For the learned detector built from an indexer of [n] tags, the
    row of a unit is built or not as follows: a tag that is not in the
    indexer raises [KeyError]; a tag whose column is outside
    [-(n+1) .. n] raises [IndexError]; every other tag gives the row of
    zeros with the probability stored in the last column and then 1
    stored in the column of the tag, a negative column counting from the
    end.  Storing the probability itself never fails. *)
Theorem X5_make_input_outcome :
  forall mi_indexer mi_model tag_name prob,
    ErrorDetectorFNN.make_input
      (ErrorDetectorFNN.init mi_indexer mi_model) tag_name prob =
    match mi_indexer !! tag_name with
    | None => Err (KeyError tag_name)
    | Some col_idx =>
        if (- (Z.of_nat (size mi_indexer) + 1) <=? col_idx) &&
           (col_idx <? Z.of_nat (size mi_indexer) + 1)
        then Ok (<[Z.to_nat (column (Z.of_nat (size mi_indexer) + 1) col_idx)
                   := 1%float]>
                   (<[size mi_indexer := prob]>
                      (replicate (S (size mi_indexer)) 0%float)))
        else Err IndexError
    end.
Proof. intros. apply make_input_outcome. Qed.

(** X6. For the learned detector built from an indexer of [n] tags: when
    the indexer sends a tag to the last column ([n], or [-1]), the 1 of
    the tag overwrites the probability, and the row is [n] zeros followed
    by 1 whatever the probability of the unit; so the classifier is asked
    the same question for every unit of this tag. *)
Theorem X6_probability_overwritten :
  forall mi_indexer mi_model tag_name col_idx,
    mi_indexer !! tag_name = Some col_idx ->
    col_idx = Z.of_nat (size mi_indexer) \/ col_idx = -1 ->
    (forall prob,
       ErrorDetectorFNN.make_input
         (ErrorDetectorFNN.init mi_indexer mi_model) tag_name prob =
       Ok (replicate (size mi_indexer) 0%float ++ [1%float])) /\
    (forall (u1 u2 : semantic_unit float) p1 p2,
       su_tag u1 = tag_name -> su_tag u2 = tag_name ->
       judge_fnn (ErrorDetectorFNN.init mi_indexer mi_model) u1 p1 =
       judge_fnn (ErrorDetectorFNN.init mi_indexer mi_model) u2 p2).
Proof.
  intros mi_indexer mi_model tag_name col_idx Hidx Hcol. split.
  - intros prob. by eapply make_input_last.
  - intros u1 u2 p1 p2 H1 H2. unfold judge_fnn. rewrite H1, H2.
    by rewrite !(make_input_last _ _ _ _ col_idx).
Qed.

Lemma X6_witness :
  ErrorDetectorFNN.make_input
    (ErrorDetectorFNN.init {[ "SELECT_COL" := 0; "WHERE_COL" := 2 ]}
       example_model) "WHERE_COL" 0.4%float =
  Ok [0; 0; 1]%float.
Proof.
  refine (proj1 (X6_probability_overwritten
    {[ "SELECT_COL" := 0; "WHERE_COL" := 2 ]} example_model "WHERE_COL" 2
    _ _) 0.4%float).
  - vm_compute. reflexivity.
  - left. vm_compute. reflexivity.
Defined.

(** X8. For the simulated detector: when the loop reaches a unit (it has
    run over the units before it and has neither returned nor raised) with
    a pointer at or after [start_pos] that is not an index of the list
    [eval_tf] (it is at or after its length, or below minus its length),
    the call raises [IndexError].  And when a call raises, it has reached
    the segmentation, and either the segmentation raised this exception,
    or some unit of the zipped segmentation has a pointer at or after
    [start_pos] and [eval_tf] is [None] (the exception is [TypeError]) or
    the pointer is not an index of [eval_tf] (the exception is
    [IndexError]). *)
Theorem X8_sim_exceptions :
  forall P (seg : segmenter P) tag_seq start_pos first,
    (forall eval_tf units ptrs before unit pointer after acc,
       start_pos < len tag_seq ->
       seg tag_seq = Ok (units, ptrs) ->
       zip units ptrs = before ++ (unit, pointer) :: after ->
       for_in before
         (ErrorDetectorSim.body start_pos first (Some eval_tf)) [] =
         Ok (Continue acc) ->
       start_pos <= pointer ->
       ~ (- len eval_tf <= pointer < len eval_tf) ->
       ErrorDetectorSim.detection seg tag_seq start_pos first (Some eval_tf)
       = Err IndexError) /\
    (forall eval_tf e,
       ErrorDetectorSim.detection seg tag_seq start_pos first eval_tf = Err e
       ->
       start_pos < len tag_seq /\
       (seg tag_seq = Err e \/
        exists units ptrs unit pointer,
          seg tag_seq = Ok (units, ptrs) /\
          (unit, pointer) ∈ zip units ptrs /\ start_pos <= pointer /\
          ((eval_tf = None /\ e = TypeError) \/
           (exists l, eval_tf = Some l /\
              ~ (- len l <= pointer < len l) /\ e = IndexError)))).
Proof.
  intros P seg tag_seq start_pos first. split.
  - intros eval_tf units ptrs before unit pointer after acc Hlt Hseg Hzip
      Hbefore Hpos Hout.
    unfold ErrorDetectorSim.detection.
    replace (len tag_seq <=? start_pos) with false by (symmetry; lia).
    rewrite Hseg. simpl. rewrite Hzip, for_in_app, Hbefore. simpl.
    replace (pointer <? start_pos) with false by (symmetry; lia).
    by rewrite py_getitem_out.
  - intros eval_tf e. rewrite sim_detection_shape.
    intros [Hlt [Hseg|(units & ptrs & [unit pointer] & Hseg & Hin & Hpos & Hj)]]
      %gen_detection_err_inv; (split; [done|]); [by left|].
    right. exists units, ptrs, unit, pointer. repeat (split; [done|]).
    unfold judge_sim in Hj. simpl in Hj.
    destruct eval_tf as [l|]; simpl in Hj.
    + right. exists l. split; [done|].
      destruct (py_getitem l pointer) as [b|e'] eqn:Hget; simpl in Hj;
        [done|].
      injection Hj as <-. apply py_getitem_err in Hget as [-> Hout]. done.
    + left. by injection Hj as <-.
Qed.

Lemma X8_witness :
  ErrorDetectorSim.detection enumerate_segment example_units 0 false
    (Some [true; false]) = Err IndexError.
Proof.
  apply (proj1 (X8_sim_exceptions float enumerate_segment example_units 0
    false) [true; false] example_units [0; 1; 2]
    (take 2 (zip example_units [0; 1; 2]))
    (SemanticUnit "WHERE_OP" [FStr "="] 0.6%float (Some 2)) 2 []
    (drop 1 (take 2 (zip example_units [0; 1; 2])))).
  - reflexivity.
  - reflexivity.
  - reflexivity.
  - reflexivity.
  - vm_compute. discriminate.
  - vm_compute. intros [_ H]. discriminate H.
Defined.

(** ** Return at the first match *)

(** X9. For the learned detector called with [bool_return_first]: when
    the loop reaches a unit at or after [start_pos] (it has run over the
    units before it and has neither returned nor raised) for which the
    classifier returns less than 0.5, the call returns this unit alone,
    whatever comes after it in the segmentation: a later unit is not
    examined, also when its tag is not in the indexer. *)
Theorem X9_first_match_stops :
  forall (seg : segmenter float) self tag_seq start_pos units ptrs before
         unit pointer after acc x,
    start_pos < len tag_seq ->
    seg tag_seq = Ok (units, ptrs) ->
    zip units ptrs = before ++ (unit, pointer) :: after ->
    for_in before (ErrorDetectorFNN.body self start_pos true) [] =
      Ok (Continue acc) ->
    start_pos <= pointer ->
    ErrorDetectorFNN.make_input self (su_tag unit) (su_prob unit) = Ok x ->
    PrimFloat.ltb (ErrorDetectorFNN.model self x) 0.5%float = true ->
    acc = [] /\
    ErrorDetectorFNN.detection seg self tag_seq start_pos true =
    Ok [(unit, pointer)].
Proof.
  intros seg self tag_seq start_pos units ptrs before unit pointer after acc
    x Hlt Hseg Hzip Hbefore Hpos Hx Hy.
  assert (acc = []) as ->.
  { rewrite (for_in_ext _ _ _ _ (fnn_body_shape self start_pos true))
      in Hbefore.
    rewrite for_in_first in Hbefore.
    destruct (select_first (judge_fnn self) start_pos before) as [[?|]|];
      simpl in Hbefore; [done| |done].
    by injection Hbefore as <-. }
  split; [done|].
  unfold ErrorDetectorFNN.detection.
  replace (len tag_seq <=? start_pos) with false by (symmetry; lia).
  rewrite Hseg. simpl. rewrite Hzip, for_in_app, Hbefore. simpl.
  replace (pointer <? start_pos) with false by (symmetry; lia).
  by rewrite Hx; simpl; rewrite Hy.
Qed.

Lemma X9_witness :
  ErrorDetectorFNN.detection enumerate_segment
    (ErrorDetectorFNN.init example_partial_indexer example_model)
    example_units 0 true =
  Ok [(SemanticUnit "WHERE_COL"
         [FTuple [FStr "flight"; FStr "stops"; FInt 7]] 0.4%float (Some 1),
       1)].
Proof.
  refine (proj2 (X9_first_match_stops enumerate_segment
    (ErrorDetectorFNN.init example_partial_indexer example_model)
    example_units 0 example_units [0; 1; 2]
    (take 1 (zip example_units [0; 1; 2]))
    (SemanticUnit "WHERE_COL"
       [FTuple [FStr "flight"; FStr "stops"; FInt 7]] 0.4%float (Some 1)) 1
    (drop 2 (zip example_units [0; 1; 2])) [] [0; 1; 0.4]%float
    _ _ _ _ _ _ _)).
  - reflexivity.
  - reflexivity.
  - reflexivity.
  - vm_compute. reflexivity.
  - vm_compute. discriminate.
  - vm_compute. reflexivity.
  - vm_compute. reflexivity.
Defined.

(** ** The returned list is a new object *)

Section FreshList.
Context {P : Type}.
Implicit Types (h : Heap.store P) (l : positive).

Lemma heap_gen_detection_fresh h (seg : segmenter P) judge_st judge
    tag_seq items start_pos first l h' :
  h !! tag_seq = Some (Heap.OTagSeq items) ->
  Heap.judge_refines h judge_st judge ->
  Heap.gen_detection seg judge_st tag_seq start_pos first h = (Ok l, h') ->
  l = fresh (dom h) /\ h ⊆ h' /\ exists ps, h' !! l = Some (Heap.OPairs ps).
Proof.
  intros Hseq Hjudge.
  unfold Heap.gen_detection, Heap.detection_with.
  rewrite bind_run. unfold Heap.load_tag_seq.
  rewrite bind_run, (load_run _ _ _ Hseq). unfold Heap.ret at 1.
  destruct (len items <=? start_pos).
  { unfold Heap.new. intros [= <- <-]. split; [done|].
    split; [apply new_extends|]. exists []. apply lookup_insert_eq. }
  rewrite bind_run. unfold Heap.lift at 1.
  destruct (seg items) as [[units ptrs]|e]; simpl; [|done].
  rewrite bind_run. unfold Heap.new at 1.
  set (err := fresh (dom h)). set (h1 := <[err := Heap.OPairs []]> h).
  rewrite bind_run.
  destruct (heap_for_in_refines h judge_st judge start_pos first err
    Hjudge (fresh_unused h) (zip units ptrs) [] h1)
    as (r & h2 & -> & Hsub & Hloop).
  { apply new_extends. }
  { apply lookup_insert_eq. }
  destruct (for_in (zip units ptrs) (gen_body judge start_pos first) [])
    as [[a|a]|e].
  - destruct Hloop as [-> Ha]. unfold Heap.ret. simpl.
    intros [= <- <-]. eauto.
  - destruct Hloop as [-> Ha]. unfold Heap.ret. simpl.
    intros [= <- <-]. eauto.
  - by subst r.
Qed.

Lemma detection_with_new_list h (seg : segmenter P) body judge_st judge
    tag_seq items start_pos first :
  (forall err item h', body err item h' =
     Heap.gen_body judge_st start_pos first err item h') ->
  h !! tag_seq = Some (Heap.OTagSeq items) ->
  Heap.judge_refines h judge_st judge ->
  returns_new_list (Heap.detection_with seg body tag_seq start_pos) h.
Proof.
  intros Hbody Hseq Hjudge l h' Hrun.
  rewrite (detection_with_ext seg body
    (Heap.gen_body judge_st start_pos first) tag_seq start_pos Hbody) in Hrun.
  destruct (heap_gen_detection_fresh h seg judge_st judge tag_seq items
    start_pos first l h' Hseq Hjudge Hrun) as (-> & Hsub & ps & Hl).
  split; [apply fresh_unused|].
  intros l2 h2 Hrun2.
  rewrite (detection_with_ext seg body
    (Heap.gen_body judge_st start_pos first) tag_seq start_pos Hbody)
    in Hrun2.
  destruct (heap_gen_detection_fresh h' seg judge_st judge tag_seq items
    start_pos first l2 h2 (lookup_weaken _ _ _ _ Hseq Hsub)
    (judge_refines_mono _ _ _ _ Hjudge Hsub) Hrun2) as (-> & _).
  intros Heq. pose proof (fresh_unused h') as Hfresh.
  rewrite Heq, Hl in Hfresh. done.
Qed.
End FreshList.

(** X10. For each of the four detectors, in a store that holds the
    decision sequence (and the ground truth, or the detector): the list a
    call returns is a new object, whose reference the store did not hold
    before the call, also when the call short-circuits; and a second call
    in the store the first one left returns another list. *)
Theorem X10_returned_list_is_new :
  (forall P (seg : segmenter P) (h : Heap.store P) tag_seq items start_pos
          first ref eval_tf,
     h !! tag_seq = Some (Heap.OTagSeq items) ->
     Heap.holds_eval_tf h ref eval_tf ->
     returns_new_list
       (Heap.Sim.detection seg tag_seq start_pos first ref) h) /\
  (forall seg (h : Heap.store float) self d tag_seq items start_pos first,
     h !! tag_seq = Some (Heap.OTagSeq items) ->
     h !! self = Some (Heap.OProbability d) ->
     returns_new_list
       (Heap.Probability.detection seg self tag_seq start_pos first) h) /\
  (forall std seg (h : Heap.store (list float)) self d tag_seq items
          start_pos first,
     h !! tag_seq = Some (Heap.OTagSeq items) ->
     h !! self = Some (Heap.OBayesDropout d) ->
     returns_new_list
       (Heap.BayesDropout.detection std seg self tag_seq start_pos first) h)
  /\
  (forall seg (h : Heap.store float) self d tag_seq items start_pos first,
     h !! tag_seq = Some (Heap.OTagSeq items) ->
     h !! self = Some (Heap.OFNN d) ->
     returns_new_list
       (Heap.FNN.detection seg self tag_seq start_pos first) h).
Proof.
  split; [|split; [|split]].
  - intros P seg h tag_seq items start_pos first ref eval_tf Hseq Hev.
    apply (detection_with_new_list h seg
      (Heap.Sim.body start_pos first ref) (Heap.judge_sim ref)
      (judge_sim eval_tf) tag_seq items start_pos first); [|done|].
    + intros err item h'. apply sim_body_store.
    + by apply sim_judge_refines.
  - intros seg h self d tag_seq items start_pos first Hseq Hself.
    apply (detection_with_new_list h seg
      (Heap.Probability.body self start_pos first)
      (Heap.judge_probability self) (judge_probability d) tag_seq items
      start_pos first);
      [|done|].
    + intros err item h'. apply probability_body_store.
    + by apply probability_judge_refines.
  - intros std seg h self d tag_seq items start_pos first Hseq Hself.
    apply (detection_with_new_list h seg
      (Heap.BayesDropout.body std self start_pos first)
      (Heap.judge_bayes std self) (judge_bayes std d) tag_seq items
      start_pos first);
      [|done|].
    + intros err item h'. apply bayes_body_store.
    + by apply bayes_judge_refines.
  - intros seg h self d tag_seq items start_pos first Hseq Hself.
    apply (detection_with_new_list h seg
      (Heap.FNN.body self start_pos first) (Heap.judge_fnn self)
      (judge_fnn d) tag_seq items start_pos first); [|done|].
    + intros err item h'. apply fnn_body_store.
    + by apply fnn_judge_refines.
Qed.

Lemma X10_witness :
  returns_new_list
    (Heap.Probability.detection enumerate_segment 2 1 0 false)
    example_store.
Proof.
  apply (proj1 (proj2 X10_returned_list_is_new) enumerate_segment
    example_store 2%positive (ErrorDetectorProbability.init 0.5%float)
    1%positive example_units 0 false); reflexivity.
Defined.

(** * Properties of the data loader *)

(** ** Batches *)

Lemma py_sum_from (l : list Z) (a : Z) :
  fold_left Z.add l a = a + py_sum l.
Proof.
  unfold py_sum. revert a. induction l as [|x l IH]; intros a; simpl; [lia|].
  rewrite (IH (a + x)), (IH (0 + x)). lia.
Qed.

Lemma py_sum_cons (x : Z) (l : list Z) : py_sum (x :: l) = x + py_sum l.
Proof. unfold py_sum at 1. simpl. apply py_sum_from. Qed.

Lemma py_sum_app (l1 l2 : list Z) : py_sum (l1 ++ l2) = py_sum l1 + py_sum l2.
Proof.
  induction l1 as [|x l1 IH]; simpl; [done|].
  rewrite !py_sum_cons, IH. lia.
Qed.

Lemma py_sum_lengths {A} (ls : list (list A)) :
  py_sum (map len ls) = len (concat ls).
Proof.
  induction ls as [|l ls IH]; simpl; [done|].
  rewrite py_sum_cons, IH. unfold len. rewrite length_app. lia.
Qed.

Lemma len_app {A} (l1 l2 : list A) : len (l1 ++ l2) = len l1 + len l2.
Proof. unfold len. rewrite length_app. lia. Qed.

Section BatchFacts.
Context {A : Type}.
Implicit Types (items current : list A) (batches : list (list A)).

(** The batches and the open batch hold, in order, the items seen. *)
Lemma batch_fold_concat batch_size items batches current :
  let '(batches', current') :=
    fold_left (batch_step batch_size) items (batches, current) in
  concat batches' ++ current' = concat batches ++ current ++ items.
Proof.
  revert batches current.
  induction items as [|item items IH]; intros batches current; simpl.
  { by rewrite app_nil_r. }
  destruct (batch_size <=? len current).
  - specialize (IH (batches ++ [current]) [item]).
    destruct (fold_left _ _ _) as [b c]. rewrite IH.
    rewrite concat_app. simpl. by rewrite app_nil_r, <- !app_assoc.
  - specialize (IH batches (current ++ [item])).
    destruct (fold_left _ _ _) as [b c]. rewrite IH.
    by rewrite <- !app_assoc.
Qed.

Lemma batch_loop_concat batch_size items :
  concat (batch_loop batch_size items) = items.
Proof.
  unfold batch_loop.
  pose proof (batch_fold_concat batch_size items [] []) as H.
  destruct (fold_left _ _ _) as [b c].
  rewrite concat_app. simpl. by rewrite app_nil_r.
Qed.

Lemma assert_all_items_ok batch_size items :
  assert_all_items (batch_loop batch_size items) items =
  Ok (batch_loop batch_size items).
Proof.
  unfold assert_all_items.
  rewrite py_sum_lengths, batch_loop_concat. by rewrite Z.eqb_refl.
Qed.

(** With a batch size of at least one: the closed batches are full, the
    open one is not over-full, and it is empty only at the start. *)
Lemma batch_fold_sizes batch_size items batches current :
  1 <= batch_size ->
  Forall (fun batch => len batch = batch_size) batches ->
  len current <= batch_size ->
  (current = [] -> batches = []) ->
  let '(batches', current') :=
    fold_left (batch_step batch_size) items (batches, current) in
  Forall (fun batch => len batch = batch_size) batches' /\
  len current' <= batch_size /\
  (current' = [] -> batches' = [] /\ items = [] /\ current = []).
Proof.
  intros Hsize. revert batches current.
  induction items as [|item items IH]; intros batches current Hfull Hcur Hemp;
    simpl.
  { split; [done|]. split; [done|]. intros ->. auto. }
  destruct (Z.leb_spec batch_size (len current)) as [Hge|Hlt].
  - specialize (IH (batches ++ [current]) [item]).
    destruct (fold_left _ _ _) as [b c].
    destruct IH as (? & ? & Hc).
    + apply Forall_app. split; [done|]. constructor; [lia|constructor].
    + unfold len. simpl. lia.
    + done.
    + split; [done|]. split; [done|]. intros Hnil.
      by destruct (Hc Hnil) as (_ & _ & ?).
  - specialize (IH batches (current ++ [item])).
    destruct (fold_left _ _ _) as [b c].
    destruct IH as (? & ? & Hc).
    + done.
    + rewrite len_app. unfold len at 2. simpl. lia.
    + intros [_ ?]%app_eq_nil. done.
    + split; [done|]. split; [done|]. intros Hnil.
      destruct (Hc Hnil) as (_ & _ & [_ ?]%app_eq_nil). done.
Qed.

(** With a batch size of zero or less every item closes the batch before
    it. *)
Lemma batch_fold_singletons batch_size items batches current :
  batch_size <= 0 ->
  let '(batches', current') :=
    fold_left (batch_step batch_size) items (batches, current) in
  batches' ++ [current'] =
  batches ++ [current] ++ map (fun item => [item]) items.
Proof.
  intros Hsize. revert batches current.
  induction items as [|item items IH]; intros batches current; simpl.
  { done. }
  replace (batch_size <=? len current) with true
    by (symmetry; apply Z.leb_le; unfold len; lia).
  specialize (IH (batches ++ [current]) [item]).
  destruct (fold_left _ _ _) as [b c]. rewrite IH.
  by rewrite <- !app_assoc.
Qed.
End BatchFacts.

Section BatchMethods.
Context {Interaction Utterance Bound Entities Item : Type}
        (utterances : Interaction -> list Utterance)
        (length_valid : Utterance -> Bound -> Bound -> bool)
        (InteractionItem :
           Interaction -> Bound -> Bound -> Entities -> Bound -> Item)
        (item_len : Item -> Z)
        (shuffle : forall A, list A -> list A).

Lemma get_utterance_batches_ok train_data batch_size max_in max_out
    randomize :
  let items :=
    ATISDataset.get_all_utterances utterances length_valid train_data
      max_in max_out in
  let items := if randomize : bool then shuffle _ items else items in
  ATISDataset.get_utterance_batches utterances length_valid shuffle
    train_data batch_size max_in max_out randomize =
  Ok (batch_loop batch_size items).
Proof. apply assert_all_items_ok. Qed.

Lemma get_interaction_batches_ok entities train_data batch_size
    max_interaction max_in max_out randomize :
  let items :=
    ATISDataset.get_all_interactions InteractionItem item_len entities
      train_data max_interaction max_in max_out (negb randomize) in
  let items := if randomize : bool then shuffle _ items else items in
  ATISDataset.get_interaction_batches InteractionItem item_len shuffle
    entities train_data batch_size max_interaction max_in max_out randomize
  = Ok (batch_loop batch_size items).
Proof. apply assert_all_items_ok. Qed.
End BatchMethods.

(** X11. [get_utterance_batches] and [get_interaction_batches] never fail
    their assertion, whatever the batch size and whatever [random.shuffle]
    does to the list: they return batches which, put end to end, are the
    items in the order the loop saw them (the shuffled list when
    [randomize] is set); no item is lost, repeated or moved.  When the
    shuffle is a permutation, the batches hold the items of
    [get_all_utterances] (of [get_all_interactions]), each as often as
    there. *)
Theorem X11_batches_keep_the_items :
  forall (Interaction Utterance Bound Entities Item : Type)
         (utterances : Interaction -> list Utterance)
         (length_valid : Utterance -> Bound -> Bound -> bool)
         (InteractionItem :
            Interaction -> Bound -> Bound -> Entities -> Bound -> Item)
         (item_len : Item -> Z)
         (shuffle : forall A, list A -> list A)
         entities train_data batch_size max_interaction max_in max_out
         randomize,
    (exists batches,
       ATISDataset.get_utterance_batches utterances length_valid shuffle
         train_data batch_size max_in max_out randomize = Ok batches /\
       concat batches =
       (if randomize : bool
        then shuffle _ (ATISDataset.get_all_utterances utterances
                          length_valid train_data max_in max_out)
        else ATISDataset.get_all_utterances utterances length_valid
               train_data max_in max_out) /\
       ((forall A (l : list A), shuffle A l ≡ₚ l) ->
        concat batches ≡ₚ
        ATISDataset.get_all_utterances utterances length_valid train_data
          max_in max_out)) /\
    (exists batches,
       ATISDataset.get_interaction_batches InteractionItem item_len shuffle
         entities train_data batch_size max_interaction max_in max_out
         randomize = Ok batches /\
       concat batches =
       (if randomize : bool
        then shuffle _ (ATISDataset.get_all_interactions InteractionItem
                          item_len entities train_data max_interaction
                          max_in max_out (negb randomize))
        else ATISDataset.get_all_interactions InteractionItem item_len
               entities train_data max_interaction max_in max_out
               (negb randomize)) /\
       ((forall A (l : list A), shuffle A l ≡ₚ l) ->
        concat batches ≡ₚ
        ATISDataset.get_all_interactions InteractionItem item_len entities
          train_data max_interaction max_in max_out (negb randomize))).
Proof.
  intros. split.
  - eexists. split; [apply get_utterance_batches_ok|].
    rewrite batch_loop_concat. split; [done|].
    intros Hperm. by destruct randomize.
  - eexists. split; [apply get_interaction_batches_ok|].
    rewrite batch_loop_concat. split; [done|].
    intros Hperm. by destruct randomize.
Qed.

Lemma X11_witness :
  concat
    (batch_loop 2
       (reverse
          (ATISDataset.get_all_utterances (fun i : list nat => i)
             (fun (u : nat) (a b : nat) => (u <=? a)%nat) [[1; 9]; [2]]%nat
             5%nat 5%nat))) ≡ₚ
  ATISDataset.get_all_utterances (fun i : list nat => i)
    (fun (u : nat) (a b : nat) => (u <=? a)%nat) [[1; 9]; [2]]%nat
    5%nat 5%nat.
Proof.
  destruct (proj1 (X11_batches_keep_the_items (list nat) nat nat unit
    (list nat) (fun i => i) (fun u a b => (u <=? a)%nat)
    (fun i _ _ _ _ => i) len (fun A l => reverse l) tt
    [[1; 9]; [2]]%nat 2 5%nat 5%nat 5%nat true))
    as (batches & Hrun & _ & Hperm).
  injection Hrun as <-. apply Hperm.
  intros A l. apply reverse_Permutation.
Defined.

Lemma batch_loop_sizes {A} (batch_size : Z) (items : list A) :
  1 <= batch_size ->
  exists full last,
    batch_loop batch_size items = full ++ [last] /\
    Forall (fun batch => len batch = batch_size) full /\
    len last <= batch_size /\
    (last = [] -> full = [] /\ items = []).
Proof.
  intros Hsize. unfold batch_loop.
  pose proof (batch_fold_sizes batch_size items [] [] Hsize) as H.
  destruct (fold_left _ _ _) as [b c].
  destruct H as (Hfull & Hlast & Hemp); [constructor|unfold len; simpl; lia
                                        |done|].
  exists b, c. split; [done|]. split; [done|]. split; [done|].
  intros Hnil. destruct (Hemp Hnil) as (? & ? & _). done.
Qed.

(** X12. The loop that fills the batches, with a batch size of at least
    one: every batch but the last holds exactly [batch_size] items, the
    last one holds at most [batch_size] items, and it is empty only when
    there is no item at all (and then it is the only batch). *)
Theorem X12_batch_sizes :
  forall A (batch_size : Z) (items : list A),
    1 <= batch_size ->
    exists full last,
      batch_loop batch_size items = full ++ [last] /\
      Forall (fun batch => len batch = batch_size) full /\
      len last <= batch_size /\
      (last = [] -> full = [] /\ items = []).
Proof. intros A batch_size items. apply batch_loop_sizes. Qed.

Lemma X12_witness :
  exists full last,
    batch_loop 2 [1; 2; 3; 4; 5] = full ++ [last] /\
    Forall (fun batch : list Z => len batch = 2) full /\
    len last <= 2 /\
    (last = [] -> full = [] /\ [1; 2; 3; 4; 5] = @nil Z).
Proof. apply (X12_batch_sizes Z 2 [1; 2; 3; 4; 5]). lia. Defined.

Lemma py_sum_const (ls : list Z) (c : Z) :
  Forall (fun x => x = c) ls -> py_sum ls = c * len ls.
Proof.
  induction 1 as [|x ls -> _ IH]; [unfold py_sum, len; simpl; lia|].
  rewrite py_sum_cons, IH. unfold len. simpl. lia.
Qed.

(** X13. The number of batches, with a batch size of at least one: one
    (empty) batch when there is no item, and otherwise the number of items
    divided by the batch size, rounded up. *)
Theorem X13_number_of_batches :
  forall A (batch_size : Z) (items : list A),
    1 <= batch_size ->
    batch_loop batch_size (@nil A) = [[]] /\
    (items <> [] ->
     len (batch_loop batch_size items) =
     (len items + batch_size - 1) / batch_size).
Proof.
  intros A batch_size items Hsize. split; [done|]. intros Hne.
  destruct (batch_loop_sizes batch_size items Hsize)
    as (full & last & Heq & Hfull & Hlast & Hemp).
  pose proof (batch_loop_concat batch_size items) as Hcat.
  rewrite Heq in Hcat |- *.
  assert (len items = batch_size * len full + len last) as Hlen.
  { rewrite <- Hcat, <- py_sum_lengths, map_app, py_sum_app. simpl.
    rewrite py_sum_cons. unfold py_sum at 2. simpl.
    rewrite (py_sum_const (map len full) batch_size).
    - unfold len. rewrite length_map. lia.
    - by apply Forall_fmap. }
  assert (1 <= len last).
  { destruct last as [|x last']; [|unfold len; simpl; lia].
    by destruct (Hemp eq_refl). }
  rewrite len_app. unfold len at 2. simpl.
  apply (Z.div_unique_pos _ _ _ (len last - 1)); lia.
Qed.

Lemma X13_witness :
  len (batch_loop 2 [1; 2; 3; 4; 5]) = (len [1; 2; 3; 4; 5] + 2 - 1) / 2.
Proof.
  apply (proj2 (X13_number_of_batches Z 2 [1; 2; 3; 4; 5] ltac:(lia))).
  discriminate.
Defined.

(** X14. The loop that fills the batches, with a batch size of zero or
    less: the first batch is empty and every item is a batch of its own;
    the methods still return (the assertion holds). *)
Theorem X14_batch_size_not_positive :
  forall A (batch_size : Z) (items : list A),
    batch_size <= 0 ->
    batch_loop batch_size items = [] :: map (fun item => [item]) items /\
    assert_all_items (batch_loop batch_size items) items =
    Ok ([] :: map (fun item => [item]) items).
Proof.
  intros A batch_size items Hsize.
  assert (batch_loop batch_size items = [] :: map (fun item => [item]) items)
    as Heq.
  { unfold batch_loop.
    pose proof (batch_fold_singletons batch_size items [] [] Hsize) as H.
    by destruct (fold_left _ _ _) as [b c]. }
  split; [done|]. by rewrite assert_all_items_ok, Heq.
Qed.

Lemma X14_witness :
  batch_loop 0 [7; 8; 9] = [[]; [7]; [8]; [9]].
Proof.
  apply (proj1 (X14_batch_size_not_positive Z 0 [7; 8; 9] ltac:(lia))).
Defined.

(** ** The items of a dataset *)

Lemma length_omap_le {A B} (f : A -> option B) (l : list A) :
  (length (omap f l) <= length l)%nat.
Proof.
  induction l as [|a l IH]; csimpl; [done|].
  destruct (f a); csimpl; lia.
Qed.

Lemma elem_of_enumerate {A} (l : list A) (i : nat) (x : A) :
  (i, x) ∈ enumerate l <-> l !! i = Some x.
Proof.
  unfold enumerate. rewrite list_elem_of_lookup. split.
  - intros [j Hj]. rewrite list_lookup_imap in Hj.
    destruct (l !! j) as [y|] eqn:Hy; simpl in Hj; [|done].
    by injection Hj as <- <-.
  - intros Hi. exists i. by rewrite list_lookup_imap, Hi.
Qed.

Lemma elem_of_concat {A} (x : A) (ls : list (list A)) :
  x ∈ concat ls <-> exists l, x ∈ l /\ l ∈ ls.
Proof.
  rewrite list_elem_of_In, in_concat. split.
  - intros (l & ? & ?). exists l. by rewrite !list_elem_of_In.
  - intros (l & ? & ?). exists l. by rewrite <- !list_elem_of_In.
Qed.

Section UtteranceFacts.
Context {Interaction Utterance Bound : Type}
        (utterances : Interaction -> list Utterance)
        (interaction_len : Interaction -> Z)
        (length_valid : Utterance -> Bound -> Bound -> bool)
        (max_in max_out : Bound).
Implicit Types (dataset : list Interaction).

Lemma inner_loop_items interaction (pairs : list (nat * Utterance)) items :
  fold_left
    (fun (items : list (Interaction * nat)) '((i, utterance)
                                               : nat * Utterance) =>
       if length_valid utterance max_in max_out
       then items ++ [ATISDataset.UtteranceItem interaction i]
       else items)
    pairs items =
  items ++
  omap (fun p : nat * Utterance =>
          if length_valid p.2 max_in max_out then Some (interaction, p.1)
          else None) pairs.
Proof.
  revert items. induction pairs as [|[i u] pairs IH]; intros items; simpl.
  { by rewrite app_nil_r. }
  rewrite IH. destruct (length_valid u max_in max_out); simpl; [|done].
  by rewrite <- app_assoc.
Qed.

(** The items of a dataset are those of its interactions, one interaction
    after the other. *)
Lemma get_all_utterances_concat dataset :
  ATISDataset.get_all_utterances utterances length_valid dataset max_in
    max_out =
  concat (map (valid_items utterances length_valid max_in max_out) dataset).
Proof.
  unfold ATISDataset.get_all_utterances.
  enough (forall items,
    fold_left
      (fun (items : list (Interaction * nat)) interaction =>
         fold_left
           (fun (items : list (Interaction * nat)) '((i, utterance)
                                                      : nat * Utterance) =>
              if length_valid utterance max_in max_out
              then items ++ [ATISDataset.UtteranceItem interaction i]
              else items)
           (enumerate (utterances interaction)) items)
      dataset items =
    items ++
    concat (map (valid_items utterances length_valid max_in max_out)
              dataset)) as H
    by apply (H []).
  induction dataset as [|interaction dataset IH]; intros items; simpl.
  { by rewrite app_nil_r. }
  rewrite IH, inner_loop_items. by rewrite <- app_assoc.
Qed.

Lemma elem_of_valid_items interaction item :
  item ∈ valid_items utterances length_valid max_in max_out interaction <->
  item.1 = interaction /\
  exists u, utterances interaction !! item.2 = Some u /\
            length_valid u max_in max_out = true.
Proof.
  unfold valid_items. rewrite list_elem_of_omap. split.
  - intros ([i u] & Hin & Hsome). apply elem_of_enumerate in Hin.
    simpl in Hsome.
    destruct (length_valid u max_in max_out) eqn:Hv; [|done].
    injection Hsome as <-. simpl. eauto.
  - intros (Heq & u & Hu & Hv). exists (item.2, u).
    split; [by apply elem_of_enumerate|]. simpl.
    rewrite Hv. destruct item as [a b]. simpl in *. by subst.
Qed.

Lemma len_valid_items interaction :
  len (valid_items utterances length_valid max_in max_out interaction) <=
  len (utterances interaction).
Proof.
  unfold valid_items, len.
  pose proof (length_omap_le
    (fun p : nat * Utterance =>
       if length_valid p.2 max_in max_out then Some (interaction, p.1)
       else None) (enumerate (utterances interaction))) as H.
  unfold enumerate in H at 2. rewrite length_imap in H. lia.
Qed.

Lemma elem_of_get_all_utterances dataset item :
  item ∈ ATISDataset.get_all_utterances utterances length_valid dataset
           max_in max_out <->
  item.1 ∈ dataset /\
  exists u, utterances item.1 !! item.2 = Some u /\
            length_valid u max_in max_out = true.
Proof.
  rewrite get_all_utterances_concat, elem_of_concat. split.
  - intros (l & Hin & Hl). apply list_elem_of_fmap in Hl as (I & -> & HI).
    apply elem_of_valid_items in Hin as (<- & Hu). done.
  - intros (HI & Hu). eexists. split; [|by apply list_elem_of_fmap_2].
    by apply elem_of_valid_items.
Qed.

Lemma len_get_all_utterances dataset :
  (forall interaction, interaction ∈ dataset ->
     interaction_len interaction = len (utterances interaction)) ->
  len (ATISDataset.get_all_utterances utterances length_valid dataset
         max_in max_out) <=
  ATISDataset.num_utterances interaction_len dataset.
Proof.
  rewrite get_all_utterances_concat. unfold ATISDataset.num_utterances.
  induction dataset as [|I dataset IH]; intros Hlen; simpl; [done|].
  rewrite len_app, py_sum_cons.
  pose proof (len_valid_items I).
  rewrite (Hlen I) by left.
  assert (len (concat (map (valid_items utterances length_valid max_in
                              max_out) dataset)) <=
          py_sum (map interaction_len dataset)).
  { apply IH. intros J HJ. apply Hlen. by right. }
  lia.
Qed.
End UtteranceFacts.

(** X15. [get_all_utterances] returns, interaction after interaction and
    in the order of the utterances, the items [(interaction, i)] whose
    utterance [i] passes [length_valid]: an item is returned exactly when
    its interaction is in the dataset and its utterance exists and is
    valid.  When [len(interaction)] is the number of utterances of the
    interaction, there are at most [num_utterances(dataset)] items. *)
Theorem X15_all_utterances :
  forall (Interaction Utterance Bound : Type)
         (utterances : Interaction -> list Utterance)
         (interaction_len : Interaction -> Z)
         (length_valid : Utterance -> Bound -> Bound -> bool)
         (dataset : list Interaction) (max_in max_out : Bound),
    ATISDataset.get_all_utterances utterances length_valid dataset max_in
      max_out =
    concat (map (valid_items utterances length_valid max_in max_out) dataset)
    /\
    (forall interaction i,
       (interaction, i) ∈
         ATISDataset.get_all_utterances utterances length_valid dataset
           max_in max_out <->
       interaction ∈ dataset /\
       exists u, utterances interaction !! i = Some u /\
                 length_valid u max_in max_out = true) /\
    ((forall interaction, interaction ∈ dataset ->
        interaction_len interaction = len (utterances interaction)) ->
     len (ATISDataset.get_all_utterances utterances length_valid dataset
            max_in max_out) <=
     ATISDataset.num_utterances interaction_len dataset).
Proof.
  intros. split; [apply get_all_utterances_concat|]. split.
  - intros interaction i.
    apply (elem_of_get_all_utterances _ _ _ _ _ (interaction, i)).
  - apply len_get_all_utterances.
Qed.

Lemma X15_witness :
  len (ATISDataset.get_all_utterances (fun i : list nat => i)
         (fun (u : nat) (a b : nat) => (u <=? a)%nat) [[1; 9]; [2]]%nat
         5%nat 5%nat) <=
  ATISDataset.num_utterances (fun i : list nat => len i) [[1; 9]; [2]]%nat.
Proof.
  apply (proj2 (proj2 (X15_all_utterances (list nat) nat nat
    (fun i => i) (fun i => len i) (fun u a b => (u <=? a)%nat)
    [[1; 9]; [2]]%nat 5%nat 5%nat))).
  intros interaction _. reflexivity.
Defined.

(** ** Sorting the interactions *)

Section SortedFacts.
Context {A : Type} (key : A -> Z).
Implicit Types (l : list A).

Lemma insert_sorted_perm x l : insert_sorted key x l ≡ₚ x :: l.
Proof.
  induction l as [|y l IH]; simpl; [done|].
  destruct (key x <=? key y); [done|].
  rewrite IH. apply Permutation_swap.
Qed.

Lemma py_sorted_perm l : py_sorted key l ≡ₚ l.
Proof.
  induction l as [|x l IH]; simpl; [done|].
  unfold py_sorted in *. simpl. by rewrite insert_sorted_perm, IH.
Qed.

Lemma insert_sorted_sorted x l :
  StronglySorted (fun a b => key a <= key b) l ->
  StronglySorted (fun a b => key a <= key b) (insert_sorted key x l).
Proof.
  induction l as [|y l IH]; simpl; intros Hs.
  { repeat constructor. }
  apply StronglySorted_inv in Hs as [Hs Hall].
  destruct (Z.leb_spec (key x) (key y)) as [Hle|Hgt].
  - constructor; [by constructor|]. constructor; [done|].
    eapply Forall_impl; [exact Hall|]. simpl. lia.
  - constructor; [by apply IH|].
    rewrite insert_sorted_perm. constructor; [lia|done].
Qed.

Lemma py_sorted_sorted l :
  StronglySorted (fun a b => key a <= key b) (py_sorted key l).
Proof.
  induction l as [|x l IH]; [constructor|].
  unfold py_sorted in *. simpl. by apply insert_sorted_sorted.
Qed.

Lemma insert_sorted_filter (k : Z) x l :
  filter (fun y => key y = k) (insert_sorted key x l) =
  filter (fun y => key y = k) (x :: l).
Proof.
  induction l as [|y l IH]; simpl; [done|].
  destruct (Z.leb_spec (key x) (key y)) as [Hle|Hgt]; [done|].
  rewrite filter_cons, IH, !filter_cons.
  repeat case_decide; try done; lia.
Qed.

(** The sort is stable: items of the same key keep their order. *)
Lemma py_sorted_stable (k : Z) l :
  filter (fun y => key y = k) (py_sorted key l) =
  filter (fun y => key y = k) l.
Proof.
  induction l as [|x l IH]; [done|].
  unfold py_sorted in *. simpl.
  by rewrite insert_sorted_filter, !filter_cons, IH.
Qed.

Lemma StronglySorted_reverse (R : relation A) l :
  StronglySorted R l -> StronglySorted (flip R) (reverse l).
Proof.
  induction 1 as [|x l Hs IH Hall]; [constructor|].
  rewrite reverse_cons. apply StronglySorted_app_2; [|done|repeat constructor].
  intros y x' Hy ->%list_elem_of_singleton. unfold flip.
  rewrite Forall_forall in Hall. apply Hall. by apply elem_of_reverse.
Qed.
End SortedFacts.

(** X16. [get_all_interactions] builds one item per interaction of the
    dataset, in order.  With [sorted_by_length] the items returned are the
    same, each as often, ordered by length with the longest first, and
    items of the same length come in the reverse of their order in the
    dataset. *)
Theorem X16_all_interactions :
  forall (Interaction Bound Entities Item : Type)
         (InteractionItem :
            Interaction -> Bound -> Bound -> Entities -> Bound -> Item)
         (item_len : Item -> Z) entities (dataset : list Interaction)
         max_interaction max_in max_out,
    let ints :=
      map (fun interaction =>
             InteractionItem interaction max_in max_out entities
               max_interaction) dataset in
    let sorted :=
      ATISDataset.get_all_interactions InteractionItem item_len entities
        dataset max_interaction max_in max_out true in
    ATISDataset.get_all_interactions InteractionItem item_len entities
      dataset max_interaction max_in max_out false = ints /\
    sorted ≡ₚ ints /\
    StronglySorted (fun a b => item_len b <= item_len a) sorted /\
    (forall k,
       filter (fun x => item_len x = k) sorted =
       reverse (filter (fun x => item_len x = k) ints)).
Proof.
  intros. split; [done|]. unfold sorted, ATISDataset.get_all_interactions.
  fold ints. split; [|split].
  - by rewrite reverse_Permutation, py_sorted_perm.
  - apply (StronglySorted_reverse (fun a b => item_len a <= item_len b)).
    apply py_sorted_sorted.
  - intros k. by rewrite filter_reverse, py_sorted_stable.
Qed.

(** ** Random samples *)

Lemma py_slice_to_take {A} (l : list A) (stop : Z) :
  py_slice_to l stop =
  take (Z.to_nat (if stop <? 0 then len l + stop else stop)) l.
Proof.
  unfold py_slice_to.
  destruct (Z.ltb_spec stop 0) as [Hneg|Hpos].
  - destruct (Z.ltb_spec (stop + len l) 0).
    + by replace (Z.to_nat (len l + stop)) with 0%nat by lia.
    + destruct (Z.ltb_spec (len l) (stop + len l)); [lia|].
      by replace (stop + len l) with (len l + stop) by lia.
  - replace (stop <? 0) with false by (symmetry; lia).
    destruct (Z.ltb_spec (len l) stop); [|done].
    rewrite !take_ge; [done|unfold len in *; lia..].
Qed.

Lemma len_py_slice_to {A} (l : list A) (stop : Z) :
  len (py_slice_to l stop) =
  if stop <? 0 then Z.max 0 (len l + stop) else Z.min stop (len l).
Proof.
  rewrite py_slice_to_take. unfold len. rewrite length_take.
  destruct (Z.ltb_spec stop 0); lia.
Qed.

Lemma py_slice_to_sublist {A} (l : list A) (stop : Z) :
  py_slice_to l stop `sublist_of` l.
Proof. rewrite py_slice_to_take. apply sublist_take. Qed.

(** X17. [get_random_utterances] and [get_random_interactions], when the
    shuffle is a permutation: every item returned is an item of
    [get_all_utterances] (of [get_all_interactions]), returned no more
    often than it is there; for [num_samples >= 0] the number of items
    returned is [num_samples], or all of them when there are fewer; and
    for a negative [num_samples] all the items but [-num_samples] of them
    are returned (none when there are fewer). *)
Theorem X17_random_samples :
  forall (Interaction Utterance Bound Entities Item : Type)
         (utterances : Interaction -> list Utterance)
         (length_valid : Utterance -> Bound -> Bound -> bool)
         (InteractionItem :
            Interaction -> Bound -> Bound -> Entities -> Bound -> Item)
         (item_len : Item -> Z)
         (shuffle : forall A, list A -> list A)
         entities train_data num_samples max_interaction max_in max_out,
    (forall A (l : list A), shuffle A l ≡ₚ l) ->
    let all_utterances :=
      ATISDataset.get_all_utterances utterances length_valid train_data
        max_in max_out in
    let all_interactions :=
      ATISDataset.get_all_interactions InteractionItem item_len entities
        train_data max_interaction max_in max_out false in
    let utterance_sample :=
      ATISDataset.get_random_utterances utterances length_valid shuffle
        train_data num_samples max_in max_out in
    let interaction_sample :=
      ATISDataset.get_random_interactions InteractionItem item_len shuffle
        entities train_data num_samples max_interaction max_in max_out in
    utterance_sample ⊆+ all_utterances /\
    len utterance_sample =
      (if num_samples <? 0 then Z.max 0 (len all_utterances + num_samples)
       else Z.min num_samples (len all_utterances)) /\
    interaction_sample ⊆+ all_interactions /\
    len interaction_sample =
      (if num_samples <? 0 then Z.max 0 (len all_interactions + num_samples)
       else Z.min num_samples (len all_interactions)).
Proof.
  intros * Hperm all_utterances all_interactions utterance_sample
    interaction_sample.
  assert (forall A (l : list A), len (shuffle A l) = len l) as Hlen.
  { intros A l. unfold len. by rewrite (Permutation_length (Hperm A l)). }
  unfold utterance_sample, interaction_sample,
    ATISDataset.get_random_utterances, ATISDataset.get_random_interactions.
  fold all_utterances all_interactions.
  rewrite !len_py_slice_to, !Hlen. repeat split.
  - rewrite <- (Hperm _ all_utterances) at 2.
    apply sublist_submseteq, py_slice_to_sublist.
  - rewrite <- (Hperm _ all_interactions) at 2.
    apply sublist_submseteq, py_slice_to_sublist.
Qed.

Lemma X17_witness :
  len (ATISDataset.get_random_utterances (fun i : list nat => i)
         (fun (u : nat) (a b : nat) => (u <=? a)%nat)
         (fun A l => reverse l) [[1; 9]; [2]; [3; 4]]%nat (-1) 5%nat 5%nat)
  = 3.
Proof.
  apply (proj1 (proj2 (X17_random_samples (list nat) nat nat unit
    (list nat) (fun i => i) (fun u a b => (u <=? a)%nat)
    (fun i _ _ _ _ => i) len (fun A l => reverse l) tt
    [[1; 9]; [2]; [3; 4]]%nat (-1) 5%nat 5%nat 5%nat
    (fun A l => reverse_Permutation l)))).
Defined.

(** ** Reading the schema *)

Lemma append_each {A B} (f : A -> B) (l : list A) (acc : list B) :
  fold_left (fun acc x => acc ++ [f x]) l acc = acc ++ map f l.
Proof.
  revert acc. induction l as [|x l IH]; intros acc; simpl.
  { by rewrite app_nil_r. }
  by rewrite IH, <- app_assoc.
Qed.

Lemma append_each_column {B} (f : string -> B) (l : list (Z * string))
    (acc : list B) :
  fold_left (fun acc '((_, column_name) : Z * string) =>
               acc ++ [f column_name]) l acc =
  acc ++ map (fun c => f c.2) l.
Proof.
  revert acc. induction l as [|[i x] l IH]; intros acc; simpl.
  { by rewrite app_nil_r. }
  by rewrite IH, <- app_assoc.
Qed.

Section SchemaFacts.
Context (lower : string -> string) (split : string -> list string).
Implicit Types (schemas : list ATISDataset.table_schema).

Lemma read_simple_from schemas
    (dict : gmap string ATISDataset.table_schema) surface embedder :
  fold_left
    (fun '(database_schema_dict, column_names_surface_form,
           column_names_embedder_input) table_schema =>
       let database_schema_dict :=
         <[ATISDataset.db_id table_schema := table_schema]>
           database_schema_dict in
       let column_names_surface_form :=
         fold_left
           (fun surface '((table_id, column_name) : Z * string) =>
              surface ++ [lower column_name])
           (ATISDataset.column_names_original table_schema)
           column_names_surface_form in
       let column_names_surface_form :=
         fold_left
           (fun surface table_name => surface ++ [lower table_name])
           (ATISDataset.table_names_original table_schema)
           column_names_surface_form in
       let column_names_embedder_input :=
         fold_left
           (fun embedder '((table_id, column_name) : Z * string) =>
              embedder ++ [split column_name])
           (ATISDataset.column_names table_schema)
           column_names_embedder_input in
       let column_names_embedder_input :=
         fold_left
           (fun embedder table_name => embedder ++ [split table_name])
           (ATISDataset.table_names table_schema)
           column_names_embedder_input in
       (database_schema_dict, column_names_surface_form,
        column_names_embedder_input))
    schemas (dict, surface, embedder) =
  (foldl (fun d ts => <[ATISDataset.db_id ts := ts]> d) dict schemas,
   surface ++ concat (map (simple_surface_forms lower) schemas),
   embedder ++ concat (map (simple_embedder_inputs split) schemas)).
Proof.
  revert dict surface embedder.
  induction schemas as [|ts schemas IH]; intros dict surface embedder; simpl.
  { by rewrite !app_nil_r. }
  rewrite IH. unfold simple_surface_forms, simple_embedder_inputs.
  rewrite !append_each, !append_each_column. by rewrite <- !app_assoc.
Qed.

(** A key of the dictionary holds the last schema of this [db_id]. *)
Lemma schema_dict_lookup schemas (dict : gmap string ATISDataset.table_schema)
    (k : string) :
  foldl (fun d ts => <[ATISDataset.db_id ts := ts]> d) dict schemas !! k =
  match last (filter (fun ts => ATISDataset.db_id ts = k) schemas) with
  | Some ts => Some ts
  | None => dict !! k
  end.
Proof.
  revert dict. induction schemas as [|ts schemas IH]; intros dict; simpl.
  { done. }
  rewrite IH, filter_cons. case_decide as Hk.
  - destruct (filter _ schemas) as [|ts' rest] eqn:Hf; simpl.
    + by rewrite <- Hk, lookup_insert_eq.
    + destruct (last (ts' :: rest)) eqn:Hl; [done|].
      by apply last_None in Hl.
  - destruct (last _); [done|]. by rewrite lookup_insert_ne.
Qed.
End SchemaFacts.

(** X18. [read_database_schema_simple], from the parsed file on: the
    surface forms are, schema after schema, the lower-cased original
    column names followed by the lower-cased original table names; the
    embedder inputs are the split column names followed by the split table
    names; and the dictionary holds, for every [db_id], the last schema of
    the file that has this [db_id] (an earlier one is overwritten) and
    nothing for any other key. *)
Theorem X18_read_schema_simple :
  forall (lower : string -> string) (split : string -> list string)
         (schemas : list ATISDataset.table_schema),
    exists dict,
      ATISDataset.read_database_schema_simple lower split schemas =
      (dict,
       concat (map (simple_surface_forms lower) schemas),
       concat (map (simple_embedder_inputs split) schemas)) /\
      forall k,
        dict !! k =
        last (filter (fun ts => ATISDataset.db_id ts = k) schemas).
Proof.
  intros lower split schemas. eexists. split.
  - unfold ATISDataset.read_database_schema_simple.
    by rewrite read_simple_from.
  - intros k. rewrite schema_dict_lookup, lookup_empty.
    by destruct (last _).
Qed.

Section ColumnLoop.
Context {B : Type} (names : list string)
        (with_table : string -> string -> B) (alone : string -> B).

(** The loop over the columns returns when every table exists, with one
    entry more per column. *)
Lemma column_loop_ok columns acc :
  tables_exist names columns ->
  exists out,
    ATISDataset.for_each columns
      (column_body names with_table alone) acc = Ok (acc ++ out) /\
    length out = length columns.
Proof.
  intros Hok. revert acc.
  induction Hok as [|[tid col] columns Hlt Hok IH]; intros acc; simpl.
  { exists []. by rewrite app_nil_r. }
  simpl in Hlt.
  destruct (Z.leb_spec 0 tid) as [Hpos|Hneg].
  - destruct (py_getitem_ok names tid) as [t Ht]; [unfold len in *; lia|]. rewrite Ht. simpl.
    destruct (IH (acc ++ [with_table t col])) as (out & -> & Hlen).
    exists (with_table t col :: out). rewrite <- app_assoc. simpl.
    by rewrite Hlen.
  - destruct (IH (acc ++ [alone col])) as (out & -> & Hlen).
    exists (alone col :: out). rewrite <- app_assoc. simpl.
    by rewrite Hlen.
Qed.

(** It raises [IndexError] when some table does not exist. *)
Lemma column_loop_err columns acc :
  ~ tables_exist names columns ->
  ATISDataset.for_each columns
      (column_body names with_table alone) acc = Err IndexError.
Proof.
  revert acc. induction columns as [|[tid col] columns IH]; intros acc Hbad.
  { destruct Hbad. constructor. }
  simpl. destruct (Z.leb_spec 0 tid) as [Hpos|Hneg].
  - destruct (decide (tid < len names)) as [Hlt|Hge].
    + destruct (py_getitem_ok names tid) as [t Ht];
        [unfold len in *; lia|]. rewrite Ht.
      simpl. apply IH. intros Hok. apply Hbad. by constructor.
    + rewrite py_getitem_out by lia. done.
  - apply IH. intros Hok. apply Hbad.
    constructor; [unfold len; simpl; lia|done].
Qed.
End ColumnLoop.

Lemma for_each_ext {A S} (f g : S -> A -> result S) (xs : list A) (s : S) :
  (forall s' x, f s' x = g s' x) ->
  ATISDataset.for_each xs f s = ATISDataset.for_each xs g s.
Proof.
  intros Hfg. revert s. induction xs as [|x xs IH]; intros s; simpl; [done|].
  rewrite Hfg. destruct (g s x); auto.
Qed.

Section ReadSchemaFacts.
Context (lower : string -> string) (split : string -> list string).
Implicit Types (schemas : list ATISDataset.table_schema)
               (dict : gmap string ATISDataset.table_schema).

Lemma read_database_schema_steps schemas :
  ATISDataset.read_database_schema lower split schemas =
  ATISDataset.for_each schemas (read_schema_step lower split) (∅, [], []).
Proof.
  unfold ATISDataset.read_database_schema.
  apply for_each_ext. by intros [[dict surface] embedder] ts.
Qed.

Lemma read_schema_step_ok ts dict surface embedder :
  schema_tables_exist ts ->
  exists s_out e_out,
    read_schema_step lower split (dict, surface, embedder) ts =
    Ok (<[ATISDataset.db_id ts := ts]> dict, surface ++ s_out,
        embedder ++ e_out) /\
    length s_out = length (simple_surface_forms lower ts) /\
    length e_out = length (simple_embedder_inputs split ts).
Proof.
  intros [Hs He]. unfold read_schema_step.
  destruct (column_loop_ok (ATISDataset.table_names_original ts)
    (fun table_name column_name =>
       lower (String.append table_name (String.append "." column_name)))
    lower _ surface Hs) as (s1 & -> & Hs1).
  simpl. rewrite append_each.
  destruct (column_loop_ok (ATISDataset.table_names ts)
    (fun table_name column_name =>
       split (String.append table_name (String.append " . " column_name)))
    split _ embedder He) as (e1 & -> & He1).
  simpl. rewrite append_each.
  eexists _, _. rewrite <- !app_assoc. split; [reflexivity|].
  unfold simple_surface_forms, simple_embedder_inputs.
  rewrite !length_app, !length_map. lia.
Qed.

Lemma read_schema_step_err ts dict surface embedder :
  ~ schema_tables_exist ts ->
  read_schema_step lower split (dict, surface, embedder) ts = Err IndexError.
Proof.
  intros Hbad. unfold read_schema_step.
  destruct (decide (tables_exist (ATISDataset.table_names_original ts)
                      (ATISDataset.column_names_original ts))) as [Hs|Hs].
  - destruct (column_loop_ok (ATISDataset.table_names_original ts)
      (fun table_name column_name =>
         lower (String.append table_name (String.append "." column_name)))
      lower _ surface Hs) as (s1 & -> & Hs1).
    simpl. rewrite column_loop_err; [done|].
    intros He. by apply Hbad.
  - rewrite (column_loop_err _ _ _ _ surface Hs). reflexivity.
Qed.

Lemma read_schema_loop_ok schemas dict surface embedder :
  Forall schema_tables_exist schemas ->
  exists s_out e_out,
    ATISDataset.for_each schemas (read_schema_step lower split)
      (dict, surface, embedder) =
    Ok (foldl (fun d ts => <[ATISDataset.db_id ts := ts]> d) dict schemas,
        surface ++ s_out, embedder ++ e_out) /\
    length s_out = length (concat (map (simple_surface_forms lower) schemas))
    /\
    length e_out =
    length (concat (map (simple_embedder_inputs split) schemas)).
Proof.
  intros Hok. revert dict surface embedder.
  induction Hok as [|ts schemas Hts Hok IH]; intros dict surface embedder.
  { exists [], []. simpl. by rewrite !app_nil_r. }
  cbn [ATISDataset.for_each].
  destruct (read_schema_step_ok ts dict surface embedder Hts)
    as (s1 & e1 & -> & Hs1 & He1).
  destruct (IH (<[ATISDataset.db_id ts := ts]> dict) (surface ++ s1)
              (embedder ++ e1)) as (s2 & e2 & -> & Hs2 & He2).
  exists (s1 ++ s2), (e1 ++ e2). rewrite <- !app_assoc.
  split; [done|]. simpl. rewrite !length_app. lia.
Qed.

Lemma read_schema_loop_err schemas dict surface embedder :
  ~ Forall schema_tables_exist schemas ->
  ATISDataset.for_each schemas (read_schema_step lower split)
    (dict, surface, embedder) = Err IndexError.
Proof.
  revert dict surface embedder.
  induction schemas as [|ts schemas IH]; intros dict surface embedder Hbad.
  { destruct Hbad. constructor. }
  cbn [ATISDataset.for_each].
  destruct (decide (schema_tables_exist ts)) as [Hts|Hts].
  - destruct (read_schema_step_ok ts dict surface embedder Hts)
      as (s1 & e1 & -> & _).
    apply IH. intros Hok. apply Hbad. by constructor.
  - by rewrite read_schema_step_err.
Qed.
End ReadSchemaFacts.

(** X19. [read_database_schema], from the parsed file on: it returns when
    in every schema the table identifier of every column is negative or
    below the number of tables (of [table_names_original] for the original
    columns, of [table_names] for the others), and raises [IndexError] as
    soon as one is not.  When it returns, its dictionary is the one of
    [read_database_schema_simple], and its two lists have as many entries
    as those of [read_database_schema_simple]: one per column and one per
    table. *)
Theorem X19_read_schema :
  forall (lower : string -> string) (split : string -> list string)
         (schemas : list ATISDataset.table_schema),
    (Forall schema_tables_exist schemas ->
     exists dict surface embedder,
       ATISDataset.read_database_schema lower split schemas =
       Ok (dict, surface, embedder) /\
       dict =
       (ATISDataset.read_database_schema_simple lower split schemas).1.1 /\
       length surface =
       length
         (ATISDataset.read_database_schema_simple lower split schemas).1.2 /\
       length embedder =
       length (ATISDataset.read_database_schema_simple lower split schemas).2)
    /\
    (~ Forall schema_tables_exist schemas ->
     ATISDataset.read_database_schema lower split schemas = Err IndexError).
Proof.
  intros lower split schemas. rewrite read_database_schema_steps.
  unfold ATISDataset.read_database_schema_simple. rewrite read_simple_from.
  split.
  - intros Hok.
    destruct (read_schema_loop_ok lower split schemas ∅ [] [] Hok)
      as (s & e & -> & Hs & He).
    by eexists _, _, _.
  - apply read_schema_loop_err.
Qed.

Lemma X19_witness :
  (exists dict surface embedder,
     ATISDataset.read_database_schema (fun s => s) (fun s => [s])
       example_schemas = Ok (dict, surface, embedder) /\
     dict =
     (ATISDataset.read_database_schema_simple (fun s => s) (fun s => [s])
        example_schemas).1.1 /\
     length surface =
     length
       (ATISDataset.read_database_schema_simple (fun s => s) (fun s => [s])
          example_schemas).1.2 /\
     length embedder =
     length
       (ATISDataset.read_database_schema_simple (fun s => s) (fun s => [s])
          example_schemas).2) /\
  ATISDataset.read_database_schema (fun s => s) (fun s => [s])
    [ATISDataset.TableSchema "flights" [(1, "city")] [(1, "City")]
       ["airport"] ["Airport"]] = Err IndexError.
Proof.
  split.
  - apply (proj1 (X19_read_schema (fun s => s) (fun s => [s])
                   example_schemas)).
    repeat constructor; vm_compute; discriminate.
  - apply (proj2 (X19_read_schema (fun s => s) (fun s => [s]) _)).
    intros Hall. apply Forall_cons in Hall as [[Hcolumns _] _].
    apply Forall_cons in Hcolumns as [Hcolumn _].
    vm_compute in Hcolumn. discriminate.
Defined.

(** ** The output sequences of the ordered vocabulary *)

Lemma collapse_list_concat {A} (the_list : list (list A)) :
  collapse_list the_list = concat the_list.
Proof.
  unfold collapse_list.
  induction the_list as [|i the_list IH]; csimpl; [done|].
  rewrite IH. f_equal. induction i as [|s i IHi]; csimpl; [done|].
  by rewrite IHi.
Qed.

Lemma all_output_seqs_from (vocab : list string) (ns : list nat) acc :
  fold_left
    (fun all_output_seqs i => all_output_seqs ++ [py_slice_to vocab (i + 1)])
    (map Z.of_nat ns) acc =
  acc ++ map (fun i => py_slice_to vocab (Z.of_nat i + 1)) ns.
Proof.
  revert acc. induction ns as [|i ns IH]; intros acc; simpl.
  { by rewrite app_nil_r. }
  by rewrite IH, <- app_assoc.
Qed.

Lemma all_output_seqs_prefixes (vocab : list string) :
  all_output_seqs_of vocab =
  map (fun i => take (S i) vocab) (seq 0 (length vocab)).
Proof.
  unfold all_output_seqs_of, range, len. rewrite Nat2Z.id.
  rewrite all_output_seqs_from. simpl. apply map_ext. intros i.
  rewrite py_slice_to_take.
  destruct (Z.ltb_spec (Z.of_nat i + 1) 0); [lia|].
  f_equal. lia.
Qed.

Lemma filter_eq_not_in {A} `{EqDecision A} (t : A) (l : list A) :
  t ∉ l -> filter (fun s => s = t) l = [].
Proof.
  induction l as [|x l IH]; intros Hnot; [done|].
  rewrite filter_cons. case_decide as Hx.
  - destruct Hnot. subst. left.
  - apply IH. intros ?. apply Hnot. by right.
Qed.

(** In a list without duplicates, a prefix holds the element of rank [r]
    once when it is longer than [r], and never otherwise. *)
Lemma filter_eq_take {A} `{EqDecision A} (l : list A) (r k : nat) (t : A) :
  NoDup l -> l !! r = Some t ->
  filter (fun s => s = t) (take k l) = if decide (r < k)%nat then [t] else [].
Proof.
  intros Hnd. revert r k.
  induction Hnd as [|x l Hx Hnd IH]; intros r k Hr; [done|].
  destruct k as [|k].
  { rewrite take_0. case_decide; [lia|done]. }
  rewrite firstn_cons, filter_cons. destruct r as [|r]; simpl in Hr.
  - injection Hr as ->. rewrite decide_True by done.
    case_decide; [|lia]. f_equal. apply filter_eq_not_in.
    intros Hin. apply Hx. by apply (subseteq_take k l).
  - rewrite decide_False.
    + rewrite (IH r k Hr). repeat case_decide; done || lia.
    + intros ->. apply Hx. by eapply list_elem_of_lookup_2.
Qed.

Lemma filter_concat {A} (P : A -> Prop) `{forall x, Decision (P x)}
    (ls : list (list A)) :
  filter P (concat ls) = concat (map (filter P) ls).
Proof.
  induction ls as [|l ls IH]; simpl; [done|].
  by rewrite filter_app, IH.
Qed.

Lemma length_concat_const {A B} (f : A -> list B) (c : nat) (l : list A) :
  (forall x, x ∈ l -> length (f x) = c) ->
  length (concat (map f l)) = (c * length l)%nat.
Proof.
  induction l as [|x l IH]; intros Hc; simpl; [lia|].
  rewrite length_app, (Hc x) by left.
  rewrite IH; [lia|]. intros y Hy. apply Hc. by right.
Qed.

Lemma occurrences_in_prefixes (vocab : list string) (r : nat) (t : string) :
  NoDup vocab -> vocab !! r = Some t ->
  length (filter (fun s => s = t) (collapse_list (all_output_seqs_of vocab)))
  = (length vocab - r)%nat.
Proof.
  intros Hnd Hr.
  assert (r < length vocab)%nat as Hlt by (by eapply lookup_lt_Some).
  rewrite collapse_list_concat, all_output_seqs_prefixes, filter_concat.
  rewrite map_map.
  replace (length vocab) with (r + (length vocab - r))%nat at 1 by lia.
  rewrite seq_app, map_app, concat_app, length_app.
  rewrite (length_concat_const _ 0).
  - rewrite (length_concat_const _ 1); [rewrite !length_seq; lia|].
    intros i Hi. apply elem_of_seq in Hi.
    rewrite (filter_eq_take vocab r (S i) t Hnd Hr).
    case_decide; [done|lia].
  - intros i Hi. apply elem_of_seq in Hi.
    rewrite (filter_eq_take vocab r (S i) t Hnd Hr).
    case_decide; [lia|done].
Qed.

(** X20. The output sequences that lines 86-89 of [ATISDataset.__init__]
    build from an ordered vocabulary are its prefixes: there is one
    sequence per token, and the sequence of rank [i] holds the first
    [i + 1] tokens.  So, when the vocabulary has no duplicates, the token
    of rank [r] occurs in them [n - r] times, [n] being the number of
    tokens: an earlier token always occurs more often than a later one.
    The vocabulary of line 87 has no duplicates. *)
Theorem X20_output_sequences :
  forall vocab : list string,
    all_output_seqs_of vocab =
    map (fun i => take (S i) vocab) (seq 0 (length vocab)) /\
    (NoDup vocab ->
     forall r t,
       vocab !! r = Some t ->
       length (filter (fun s => s = t)
                 (collapse_list (all_output_seqs_of vocab))) =
       (length vocab - r)%nat) /\
    NoDup out_vocab_ordered.
Proof.
  intros vocab. split; [apply all_output_seqs_prefixes|]. split.
  - intros Hnd r t. by apply occurrences_in_prefixes.
  - apply (bool_decide_unpack (NoDup out_vocab_ordered)). vm_compute. exact I.
Qed.

Lemma X20_witness :
  length (filter (fun s => s = "value")
            (collapse_list (all_output_seqs_of out_vocab_ordered))) = 32%nat.
Proof.
  apply (proj1 (proj2 (X20_output_sequences out_vocab_ordered))
    (proj2 (proj2 (X20_output_sequences out_vocab_ordered))) 1%nat "value").
  reflexivity.
Defined.
